(** * The Swift facility adapter of SkyPortal

    A shallow embedding of [skyportal/facility_apis/swift.py]: the three
    payload builders ([UVOTXRTRequest], [XRTAPIRequest],
    [UVOTXRTBATDataRequest]), the follow-up interface [UVOTXRTAPI]
    ([submit], [get]) and the observation backfill ([UVOTXRTMMAAPI.retrieve],
    [fetch_observations]).

    Python values are a small inductive type, dictionaries received from the
    platform are finite maps, exceptions are values of an error type, and the
    statements that touch the database session, the message bus, the thread
    pool or the network are written in a state-and-exception monad over an
    explicit store.  What the module calls in other packages ([requests],
    [swifttools], [astropy], the platform's own helpers) is gathered in the
    class [Env], and every definition and theorem is stated for an arbitrary
    environment. *)

From Stdlib Require Import ZArith String Ascii List Lia.
From stdpp Require Import base gmap strings list pretty.

Open Scope string_scope.
Open Scope list_scope.
Open Scope Z_scope.

Set Warnings "-register-all".

(** ** Python values *)

(** A Python [float]: not-a-number, an infinity, or the dyadic rational
    [m * 2 ^ e] (every finite IEEE double is one; the sign of zero is not
    kept, nothing in the module reads it). *)
Inductive pyfloat : Type :=
| FNan
| FInf (negative : bool)
| FFin (m e : Z).

(** The values that JSON columns, JSON bodies and keyword arguments hold.
    A nested dictionary keeps its insertion order, which [repr] shows. *)
Inductive pyval : Type :=
| PNone
| PBool (b : bool)
| PInt (n : Z)
| PFloat (f : pyfloat)
| PStr (s : string)
| PList (l : list pyval)
| PDict (d : list (string * pyval)).

Definition float_is_zero (f : pyfloat) : bool :=
  match f with
  | FFin m _ => m =? 0
  | _ => false
  end.

(** Truncation towards zero, as [int(x)] does on a finite float. *)
Definition float_trunc (m e : Z) : Z :=
  if 0 <=? e then m * 2 ^ e else Z.quot m (2 ^ (- e)).

(** Truth value of an object ([bool(x)], [not x], [if x]). *)
Definition py_truthy (v : pyval) : bool :=
  match v with
  | PNone => false
  | PBool b => b
  | PInt n => negb (n =? 0)
  | PFloat f => negb (float_is_zero f)
  | PStr s => negb (String.eqb s EmptyString)
  | PList l => match l with [] => false | _ => true end
  | PDict d => match d with [] => false | _ => true end
  end.

(** [v == s] for a string literal [s]: only a string can be equal to it. *)
Definition py_eq_str (v : pyval) (s : string) : bool :=
  match v with
  | PStr t => String.eqb t s
  | _ => false
  end.

(** [v == 0]: numbers compare by value, and [False == 0] holds. *)
Definition py_eq_zero (v : pyval) : bool :=
  match v with
  | PInt n => n =? 0
  | PBool b => negb b
  | PFloat f => float_is_zero f
  | _ => false
  end.

(** [isinstance(v, int)]; [bool] is a subclass of [int]. *)
Definition py_is_int (v : pyval) : bool :=
  match v with
  | PInt _ | PBool _ => true
  | _ => false
  end.

(** ** Exceptions *)

(** Classes of the exceptions that Python's own operations raise. *)
Inductive pyclass : Type :=
| CValueError
| CKeyError
| CTypeError
| CIndexError
| COverflowError
| CJSONDecodeError.

(** [ValueError msg] is a [raise ValueError(msg)] statement of the module;
    [PyError c op] is an exception of class [c] raised by the built-in
    operation [op] (for a [KeyError], [op] is the missing key);
    the last two come out of the libraries the module calls. *)
Inductive exn : Type :=
| ValueError (msg : string)
| PyError (c : pyclass) (op : string)
| RequestException
| LibraryError (lib : string).

Definition KeyError (key : string) : exn := PyError CKeyError key.

(** [isinstance(e, ValueError)]: the class the specification calls a
    validation error.  [json.JSONDecodeError] derives from it. *)
Definition is_ValueError (e : exn) : bool :=
  match e with
  | ValueError _ => true
  | PyError CValueError _ => true
  | PyError CJSONDecodeError _ => true
  | _ => false
  end.

Inductive Result (A : Type) : Type :=
| Ok (a : A)
| Raise (e : exn).
Arguments Ok {A} a.
Arguments Raise {A} e.

#[global] Instance Result_ret : MRet Result := fun A a => Ok a.
#[global] Instance Result_bind : MBind Result := fun A B f r =>
  match r with
  | Ok a => f a
  | Raise e => Raise e
  end.

Definition raised {A} (r : Result A) : bool :=
  match r with
  | Ok _ => false
  | Raise _ => true
  end.

(** [d[key]] on a dictionary held as a finite map. *)
Definition getitem (d : gmap string pyval) (key : string) : Result pyval :=
  match d !! key with
  | Some v => Ok v
  | None => Raise (KeyError key)
  end.

(** [d.get(key, default)]. *)
Definition dict_get (d : gmap string pyval) (key : string) (default : pyval) : pyval :=
  match d !! key with
  | Some v => v
  | None => default
  end.

(** [not d] for a dictionary: [len(d) == 0]. *)
Definition dict_is_empty (d : gmap string pyval) : bool :=
  bool_decide (size d = 0%nat).

Fixpoint assoc (d : list (string * pyval)) (key : string) : option pyval :=
  match d with
  | [] => None
  | (k, v) :: rest => if String.eqb k key then Some v else assoc rest key
  end.

(** [v[key]] with a string key on an arbitrary value: only a dictionary can
    be indexed that way. *)
Definition py_getitem (v : pyval) (key : string) : Result pyval :=
  match v with
  | PDict d =>
      match assoc d key with
      | Some x => Ok x
      | None => Raise (KeyError key)
      end
  | _ => Raise (PyError CTypeError "getitem")
  end.

(** [f"{v:d}"]: the integer presentation type is defined on [int] (and its
    subclass [bool]) only; [float] and [str] reject the format code with a
    [ValueError], the other types reject any format string with a
    [TypeError]. *)
Definition format_d (v : pyval) : Result string :=
  match v with
  | PInt n => Ok (pretty n)
  | PBool b => Ok (if b then "1" else "0")
  | PFloat _ => Raise (PyError CValueError "format")
  | PStr _ => Raise (PyError CValueError "format")
  | _ => Raise (PyError CTypeError "format")
  end.

(** [str(x)] of an optional string, as an f-string renders it. *)
Definition str_opt (o : option string) : string :=
  match o with
  | Some s => s
  | None => "None"
  end.

(** [filename.split("/")[-1]]: what follows the last slash. *)
Fixpoint last_segment (s acc : string) : string :=
  match s with
  | EmptyString => acc
  | String c rest =>
      if Ascii.eqb c "/"%char then last_segment rest EmptyString
      else last_segment rest (acc +:+ String c EmptyString)
  end.

Definition basename (filename : string) : string := last_segment filename EmptyString.

(** ** The platform's records *)

Record Obj : Type := {
  obj_id : string;
  obj_ra : pyval;
  obj_dec : pyval;
  obj_internal_key : string
}.

Record Allocation : Type := {
  altdata : gmap string pyval;
  instrument_id : Z
}.

Record User : Type := {
  accessible_groups : list Z
}.

(** The fields of a follow-up request that the module reads.  Its [status],
    which the module assigns, is kept in the store below. *)
Record FollowupRequest : Type := {
  request_id : Z;
  obj : Obj;
  allocation : Allocation;
  payload : gmap string pyval;
  last_modified_by_id : Z;
  requester : User
}.

(** ** Objects of the libraries *)

(** A [swifttools.swift_too.Swift_TOO] object is a bag of attributes that the
    builder assigns one after the other: the map of the attributes assigned
    so far.  An attribute that is not in the map has the library's default. *)
Abbreviation Swift_TOO := (gmap string pyval) (only parsing).

Definition setattr (o : gmap string pyval) (name : string) (v : pyval) : gmap string pyval :=
  <[name := v]> o.
#[global] Arguments setattr : simpl never.

(** The job fields that [get] writes into a rebuilt XRT request. *)
Record XRTJob : Type := {
  job_status : Z;
  job_submitted : Z;
  job_jobID : pyval;
  job_URL : pyval;
  job_jobPars : pyval
}.

(** A [swifttools.xrt_prods.XRTProductRequest]: the user, the keyword
    arguments of [setGlobalPars], the products added with their keyword
    arguments, and the job fields once [get] has set them. *)
Record XRTProductRequest : Type := {
  xrt_user : pyval;
  xrt_globals : list (string * pyval);
  xrt_products : list (string * list (string * pyval));
  xrt_job : option XRTJob
}.

(** A [datetime.datetime] as its count of microseconds, the resolution of the
    type; an [astropy.time.Time] made from one (format [datetime]) compares
    as the datetimes do. *)
Abbreviation datetime := Z (only parsing).

(** The keyword arguments of [ObsQuery]. *)
Record ObsQueryArgs : Type := {
  oq_ra : pyval;
  oq_dec : pyval;
  oq_radius : pyval;
  oq_begin : pyval;
  oq_end : pyval
}.

(** A row of an observation query. *)
Record ObsRow : Type := {
  row_uvot : pyval;
  row_ra_object : pyval;
  row_dec_object : pyval;
  row_obsid : pyval;
  row_begin : datetime;
  row_exposure_seconds : Z;
  row_targname : pyval
}.

(** An [ObsQuery] object: the query it was made with and the rows it holds
    ([len(oq)] counts them, iterating yields them). *)
Record ObsQuery : Type := {
  oq_args : ObsQueryArgs;
  oq_entries : list ObsRow
}.

(** An entry of a decoded UVOT mode. *)
Record UVOTEntry : Type := {
  filter_name : option string
}.

(** ** HTTP *)

Inductive http_body : Type :=
| FormData (fields : list (string * string))
| JsonBody (json : pyval).

Record PreparedRequest : Type := {
  pr_url : string;
  pr_body : http_body
}.

(** What the remote end answers. *)
Record HttpReply : Type := {
  status_code : Z;
  reason : string;
  text : string;
  content : string
}.

(** A [requests.Response]: the reply together with the request it answers
    ([r.request]). *)
Record Response : Type := {
  resp_request : PreparedRequest;
  resp_reply : HttpReply
}.

(** ** Rows the module creates *)

Record FacilityTransaction : Type := {
  ft_request : pyval;
  ft_response : pyval;
  ft_followup_request : Z;
  ft_initiator_id : Z
}.

Record Comment : Type := {
  c_text : string;
  c_obj_id : string;
  c_attachment_bytes : string;
  c_attachment_name : string;
  c_author : User;
  c_groups : list Z;
  c_bot : bool
}.

(** A normalized row of the observation log. *)
Record Observation : Type := {
  observation_id : Z;
  obstime : datetime;
  RA : pyval;
  Dec : pyval;
  seeing : pyval;
  limmag : pyval;
  exposure_time : Z;
  filter : string;
  processed_fraction : pyval;
  target_name : pyval
}.

Record FlowMsg : Type := {
  flow_user : pyval;
  flow_action : string;
  flow_payload : list (string * pyval)
}.

Inductive NotificationKind : Type :=
| Slack
| Email.

(** Work handed to the thread pool with [run_in_executor]: the partial
    applications of [fetch_observations] and of [download_observations].  The
    body of the latter (lines 327-407) runs in the pool, after [get] has
    returned; it is kept as the task it is scheduled as. *)
Inductive Task : Type :=
| FetchObservations (instrument : Z) (request_start request_end : datetime)
| DownloadObservations (request : Z) (oq : ObsQuery).

(** ** The environment

    Everything the module calls outside itself.  The functions are arbitrary:
    no theorem below assumes anything about what they return. *)
Class Env : Type := {
  (** configuration: the two endpoints computed at import time *)
  API_URL : string;
  XRT_URL : string;
  (** Python: [int(s)] on a string ([None] when it raises [ValueError]),
      [str(e)] of an exception, [str(b)] of a bytes object, [repr(v)] *)
  int_of_str : string -> option Z;
  exn_str : exn -> string;
  bytes_str : string -> string;
  py_repr : pyval -> string;
  (** [json.loads] on a string; [None] when it raises [JSONDecodeError] *)
  json_loads : string -> option pyval;
  (** [requests.post]; [None] when no reply comes back *)
  http_post : string -> http_body -> option HttpReply;
  (** [skyportal.utils.http] *)
  serialize_requests_request : PreparedRequest -> pyval;
  serialize_requests_response : Response -> pyval;
  (** [swifttools.swift_too]: the verdict of [validate()] on a ToO, its
      signed token, the archive query
      ([None] when it fails), the decoding of a UVOT mode (its [entries]) *)
  too_validate : gmap string pyval -> bool;
  too_jwt : gmap string pyval -> string;
  obs_query : ObsQueryArgs -> option (list ObsRow);
  UVOT_mode : pyval -> option (list UVOTEntry);
  (** [swifttools.xrt_prods]: whether [setGlobalPars] accepts its arguments,
      [getJSONDict], the [complete] property, [downloadProducts] (product
      name and file name; [None] when a download fails) *)
  xrt_accepts : list (string * pyval) -> bool;
  xrt_JSONDict : XRTProductRequest -> pyval;
  xrt_complete : XRTProductRequest -> bool;
  xrt_downloadProducts : XRTProductRequest -> option (list (string * string));
  (** [base64.b64encode] of the contents of a downloaded file *)
  file_b64 : string -> string;
  (** [astropy.time]: [Time(v, format="iso")] less [Time("2001-01-01
      00:00:00")] in seconds, [None] when [v] is no ISO timestamp; and the
      [iso] string of a time made from a datetime *)
  seconds_since_MET : pyval -> option pyfloat;
  time_iso : datetime -> string;
  (** the platform: the groups selected for a user, and the message of the
      exception a notification helper raises, if it raises *)
  select_groups : User -> list Z -> list Z;
  notify_error : NotificationKind -> FollowupRequest -> option string;
  (** [baselayer.app.flow]: the message of the exception that pushing the
      error notice of a rejected ToO raises, if it raises.  It is the one
      push that the module guards (lines 534-545); the pushes of the refresh
      signals are not guarded and are taken to deliver. *)
  notice_error : FlowMsg -> option string
}.

(** ** The store

    What a call can change: the request's status, the rows added to the
    database session, the commits, the messages pushed on the bus, the tasks
    handed to the thread pool, the HTTP exchanges and archive queries issued,
    the observation tables passed to [add_observations], the notifications
    sent and the log. *)
Record World : Type := {
  w_status : string;
  w_transactions : list FacilityTransaction;
  w_comments : list Comment;
  w_commits : nat;
  w_flow : list FlowMsg;
  w_executor : list Task;
  w_http : list PreparedRequest;
  w_archive : list ObsQueryArgs;
  w_observations : list (Z * list Observation);
  w_notified : list NotificationKind;
  w_log : list string
}.

Definition with_status (s : string) (w : World) : World :=
  {| w_status := s; w_transactions := w_transactions w; w_comments := w_comments w;
     w_commits := w_commits w; w_flow := w_flow w; w_executor := w_executor w;
     w_http := w_http w; w_archive := w_archive w; w_observations := w_observations w;
     w_notified := w_notified w; w_log := w_log w |}.

Definition with_transaction (t : FacilityTransaction) (w : World) : World :=
  {| w_status := w_status w; w_transactions := w_transactions w ++ [t];
     w_comments := w_comments w;
     w_commits := w_commits w; w_flow := w_flow w; w_executor := w_executor w;
     w_http := w_http w; w_archive := w_archive w; w_observations := w_observations w;
     w_notified := w_notified w; w_log := w_log w |}.

Definition with_comment (c : Comment) (w : World) : World :=
  {| w_status := w_status w; w_transactions := w_transactions w;
     w_comments := w_comments w ++ [c];
     w_commits := w_commits w; w_flow := w_flow w; w_executor := w_executor w;
     w_http := w_http w; w_archive := w_archive w; w_observations := w_observations w;
     w_notified := w_notified w; w_log := w_log w |}.

Definition with_commit (w : World) : World :=
  {| w_status := w_status w; w_transactions := w_transactions w; w_comments := w_comments w;
     w_commits := S (w_commits w); w_flow := w_flow w; w_executor := w_executor w;
     w_http := w_http w; w_archive := w_archive w; w_observations := w_observations w;
     w_notified := w_notified w; w_log := w_log w |}.

Definition with_flow (m : FlowMsg) (w : World) : World :=
  {| w_status := w_status w; w_transactions := w_transactions w; w_comments := w_comments w;
     w_commits := w_commits w; w_flow := w_flow w ++ [m]; w_executor := w_executor w;
     w_http := w_http w; w_archive := w_archive w; w_observations := w_observations w;
     w_notified := w_notified w; w_log := w_log w |}.

Definition with_task (t : Task) (w : World) : World :=
  {| w_status := w_status w; w_transactions := w_transactions w; w_comments := w_comments w;
     w_commits := w_commits w; w_flow := w_flow w; w_executor := w_executor w ++ [t];
     w_http := w_http w; w_archive := w_archive w; w_observations := w_observations w;
     w_notified := w_notified w; w_log := w_log w |}.

Definition with_http (r : PreparedRequest) (w : World) : World :=
  {| w_status := w_status w; w_transactions := w_transactions w; w_comments := w_comments w;
     w_commits := w_commits w; w_flow := w_flow w; w_executor := w_executor w;
     w_http := w_http w ++ [r]; w_archive := w_archive w; w_observations := w_observations w;
     w_notified := w_notified w; w_log := w_log w |}.

Definition with_archive (q : ObsQueryArgs) (w : World) : World :=
  {| w_status := w_status w; w_transactions := w_transactions w; w_comments := w_comments w;
     w_commits := w_commits w; w_flow := w_flow w; w_executor := w_executor w;
     w_http := w_http w; w_archive := w_archive w ++ [q]; w_observations := w_observations w;
     w_notified := w_notified w; w_log := w_log w |}.

Definition with_observations (i : Z) (t : list Observation) (w : World) : World :=
  {| w_status := w_status w; w_transactions := w_transactions w; w_comments := w_comments w;
     w_commits := w_commits w; w_flow := w_flow w; w_executor := w_executor w;
     w_http := w_http w; w_archive := w_archive w;
     w_observations := w_observations w ++ [(i, t)];
     w_notified := w_notified w; w_log := w_log w |}.

Definition with_notified (k : NotificationKind) (w : World) : World :=
  {| w_status := w_status w; w_transactions := w_transactions w; w_comments := w_comments w;
     w_commits := w_commits w; w_flow := w_flow w; w_executor := w_executor w;
     w_http := w_http w; w_archive := w_archive w; w_observations := w_observations w;
     w_notified := w_notified w ++ [k]; w_log := w_log w |}.

Definition with_log (line : string) (w : World) : World :=
  {| w_status := w_status w; w_transactions := w_transactions w; w_comments := w_comments w;
     w_commits := w_commits w; w_flow := w_flow w; w_executor := w_executor w;
     w_http := w_http w; w_archive := w_archive w; w_observations := w_observations w;
     w_notified := w_notified w; w_log := w_log w ++ [line] |}.

(** ** The monad of the stateful code

    A computation takes the store and gives a result or an exception, and the
    store as it is then: what was written before a [raise] stays written. *)
Definition M (A : Type) : Type := World -> Result A * World.

#[global] Instance M_ret : MRet M := fun A a w => (Ok a, w).
#[global] Instance M_bind : MBind M := fun A B f c w =>
  match c w with
  | (Ok a, w') => f a w'
  | (Raise e, w') => (Raise e, w')
  end.

Definition raise {A} (e : exn) : M A := fun w => (Raise e, w).
Definition lift {A} (r : Result A) : M A := fun w => (r, w).
Definition modify (f : World -> World) : M unit := fun w => (Ok tt, f w).
Definition when (b : bool) (c : M unit) : M unit := if b then c else mret tt.

(** [int(v)]. *)
Definition py_int `{Env} (v : pyval) : Result Z :=
  match v with
  | PInt n => Ok n
  | PBool b => Ok (if b then 1 else 0)
  | PFloat FNan => Raise (PyError CValueError "int")
  | PFloat (FInf _) => Raise (PyError COverflowError "int")
  | PFloat (FFin m e) => Ok (float_trunc m e)
  | PStr s =>
      match int_of_str s with
      | Some n => Ok n
      | None => Raise (PyError CValueError "int")
      end
  | _ => Raise (PyError CTypeError "int")
  end.

(** [v in l] and [v not in l] for a list of string literals. *)
Definition py_in (v : pyval) (l : list string) : bool := existsb (py_eq_str v) l.

(** [t.index(v)] on a tuple of strings: the first position whose element
    equals [v], a [ValueError] when there is none. *)
Fixpoint index_from (t : list string) (v : pyval) (i : nat) : option nat :=
  match t with
  | [] => None
  | x :: rest => if py_eq_str v x then Some i else index_from rest v (S i)
  end.

Definition tuple_index (t : list string) (v : pyval) : Result nat :=
  match index_from t v 0%nat with
  | Some i => Ok i
  | None => Raise (PyError CValueError "index")
  end.

(** [t[i]] on a tuple. *)
Definition tuple_item (t : list string) (i : nat) : Result string :=
  match t !! i with
  | Some x => Ok x
  | None => Raise (PyError CIndexError "getitem")
  end.

(** ** The table of UVOT modes (lines 36-55) *)

Definition modes : list (string * string) :=
  [ ("0x9999", "0x9999 - Default (Filter of the day)");
    ("0x30ed", "0x30ed - U+B+V+All UV");
    ("0x223f", "0x223f - U+B+V+All UV (UV weighted, SN Mode)");
    ("0x0270", "0x0270 - U+B+V+All UV (ToO Upload Mode)");
    ("0x209a", "0x209a - U+B+V");
    ("0x308f", "0x308f - All UV");
    ("0x2019", "0x2019 - White");
    ("0x018c", "0x018c - UVW1");
    ("0x011e", "0x011e - UVW2");
    ("0x015a", "0x015a - UVM2");
    ("0x01aa", "0x01aa - U band");
    ("0x2016", "0x2016 - B band");
    ("0x2005", "0x2005 - V band");
    ("0x122f", "0x122f - Grism 1 (UV)");
    ("0x1230", "0x1230 - Grism 2 (Visible)");
    ("0x0ff3", "0x0ff3 - Blocked (in case of too bright star)") ].

(** [modes_keys, modes_values = zip( *modes.items())] *)
Definition modes_keys : list string := map fst modes.
Definition modes_values : list string := map snd modes.

(** ** [class UVOTXRTRequest] (lines 148-225) *)
Module UVOTXRTRequest.

(** Lines 177-196: the attributes copied from the allocation, the target and
    the payload. *)
Definition set_request_fields `{Env} (request : FollowupRequest) (too : Swift_TOO) : Result Swift_TOO :=
  let altdata := altdata (allocation request) in
  username ← getitem altdata "username";
  let too := setattr too "username" username in
  secret ← getitem altdata "secret";
  let too := setattr too "shared_secret" secret in
  let too := setattr too "source_name" (PStr (obj_id (obj request))) in
  let too := setattr too "ra" (obj_ra (obj request)) in
  let too := setattr too "dec" (obj_dec (obj request)) in
  source_type ← getitem (payload request) "source_type";
  let too := setattr too "source_type" source_type in
  exposure_time ← getitem (payload request) "exposure_time";
  let too := setattr too "exp_time_per_visit" exposure_time in
  monitoring_freq ← getitem (payload request) "monitoring_freq";
  days ← format_d monitoring_freq;
  let too := setattr too "monitoring_freq" (PStr (days +:+ " days")) in
  exposure_counts ← getitem (payload request) "exposure_counts";
  num_of_visits ← py_int exposure_counts;
  let too := setattr too "num_of_visits" (PInt num_of_visits) in
  let too := setattr too "opt_mag" (dict_get (payload request) "opt_mag" PNone) in
  let too := setattr too "opt_filt" (dict_get (payload request) "opt_filt" PNone) in
  let too := setattr too "xrt_countrate" (dict_get (payload request) "xrt_countrate" PNone) in
  exp_time_just ← getitem (payload request) "exp_time_just";
  let too := setattr too "exp_time_just" exp_time_just in
  immediate_objective ← getitem (payload request) "immediate_objective";
  let too := setattr too "immediate_objective" immediate_objective in
  Ok too.

(** Lines 198-205: whatever the conversion raises (a missing key as well) is
    caught and raised again as a [ValueError]; then the range check. *)
Definition set_urgency `{Env} (request : FollowupRequest) (too : Swift_TOO) : Result Swift_TOO :=
  match (v ← getitem (payload request) "urgency"; py_int v) with
  | Raise e =>
      Raise (ValueError ("Could not convert urgency to a valid integer: " +:+ exn_str e))
  | Ok urgency =>
      let too := setattr too "urgency" (PInt urgency) in
      if (urgency <? 0) || (urgency >? 4) then
        Raise (ValueError ("urgency must be one of 0, 1, 2, 3, or 4, and not: " +:+ pretty urgency))
      else Ok too
  end.

(** Lines 206-213. *)
Definition set_obs_type (request : FollowupRequest) (too : Swift_TOO) : Result Swift_TOO :=
  obs_type ← getitem (payload request) "obs_type";
  if negb (py_in obs_type ["Spectroscopy"; "Light Curve"; "Position"; "Timing"]) then
    Raise (ValueError "obs_type not an allowed value.")
  else Ok (setattr too "obs_type" obs_type).

(** Lines 215-225.  The attribute [uvot_mode] is read back as the key that
    was just assigned. *)
Definition set_uvot_mode (request : FollowupRequest) (too : Swift_TOO) : Result Swift_TOO :=
  uvot_mode ← getitem (payload request) "uvot_mode";
  modes_index ← tuple_index modes_values uvot_mode;
  key ← tuple_item modes_keys modes_index;
  let too := setattr too "uvot_mode" (PStr key) in
  science_just ← getitem (payload request) "science_just";
  let too := setattr too "science_just" science_just in
  if negb (String.eqb key "0x9999") then
    let uvot_just := dict_get (payload request) "uvot_just" PNone in
    let too := setattr too "uvot_just" uvot_just in
    if negb (py_truthy uvot_just) then
      Raise (ValueError "uvot_just is required when the UVOT mode select is 0x0270 (ToO Upload Mode).")
    else Ok too
  else Ok too.

(** [_build_payload]: a fresh [Swift_TOO()] filled block after block. *)
Definition _build_payload `{Env} (request : FollowupRequest) : Result Swift_TOO :=
  too ← set_request_fields request ∅;
  too ← set_urgency request too;
  too ← set_obs_type request too;
  set_uvot_mode request too.

End UVOTXRTRequest.

(** ** [class XRTAPIRequest] (lines 228-284) *)
Module XRTAPIRequest.

Definition _build_payload `{Env} (request : FollowupRequest) : Result XRTProductRequest :=
  let altdata := altdata (allocation request) in
  T0 ← getitem (payload request) "T0";
  Tdiff ← match seconds_since_MET T0 with
           | Some s => Ok s
           | None => Raise (PyError CValueError "Time")
           end;
  let centroid := py_truthy (dict_get (payload request) "detornot" (PBool false)) in
  user ← getitem altdata "XRT_UserID";
  centMeth ← getitem (payload request) "centMeth";
  detMeth ← getitem (payload request) "detMeth";
  poserr ← getitem (payload request) "poserr";
  let globals :=
    [ ("getTargs", PBool true); ("centroid", PBool centroid);
      ("name", PStr (obj_id (obj request)));
      ("RA", obj_ra (obj request)); ("Dec", obj_dec (obj request));
      ("centMeth", centMeth); ("detMeth", detMeth); ("useSXPS", PBool false);
      ("T0", PFloat Tdiff); ("posErr", poserr) ] in
  if xrt_accepts (("UserID", user) :: globals) then
    Ok {| xrt_user := user;
          xrt_globals := globals;
          xrt_products :=
            [ ("LightCurve", [ ("binMeth", PStr "counts"); ("pcCounts", PInt 20);
                               ("wtCounts", PInt 30); ("dynamic", PBool true) ]);
              ("Spectrum", [ ("hasRedshift", PBool false) ]);
              ("StandardPos", []);
              ("EnhancedPos", []);
              ("AstromPos", [ ("useAllObs", PBool true) ]) ];
          xrt_job := None |}
  else Raise (LibraryError "xrt_prods").

End XRTAPIRequest.

(** ** [class UVOTXRTBATDataRequest] (lines 287-324) *)

(** Constructing an [ObsQuery] with arguments sends the query to the archive. *)
Definition ObsQuery_new `{Env} (args : ObsQueryArgs) : M ObsQuery := fun w =>
  match obs_query args with
  | Some rows => (Ok {| oq_args := args; oq_entries := rows |}, with_archive args w)
  | None => (Raise (LibraryError "swift_too"), with_archive args w)
  end.

Module UVOTXRTBATDataRequest.

(** [5.0 / 60] as a double: [0x1.5555555555555p-4]. *)
Definition radius : pyval := PFloat (FFin 6004799503160661 (-56)).

Definition _build_payload `{Env} (request : FollowupRequest) : M ObsQuery :=
  start_date ← lift (getitem (payload request) "start_date");
  end_date ← lift (getitem (payload request) "end_date");
  ObsQuery_new {| oq_ra := obj_ra (obj request);
                  oq_dec := obj_dec (obj request);
                  oq_radius := radius;
                  oq_begin := start_date;
                  oq_end := end_date |}.

End UVOTXRTBATDataRequest.

(** ** [fetch_observations] (lines 104-145) *)

Definition is_None (v : pyval) : bool :=
  match v with
  | PNone => true
  | _ => false
  end.

(** The loop of lines 117-140 over the rows still to visit, [observations]
    being the list built so far.  A [continue] goes on with the rest. *)
Fixpoint collect_observations `{Env} (rows : list ObsRow) (observations : list Observation)
  : Result (list Observation) :=
  match rows with
  | [] => Ok observations
  | row :: rest =>
      match UVOT_mode (row_uvot row) with
      | None => collect_observations rest observations
      | Some entries =>
          if is_None (row_ra_object row) || is_None (row_dec_object row) then
            collect_observations rest observations
          else
            match entries !! 0%nat with
            | None => Raise (PyError CIndexError "getitem")
            | Some entry =>
                let filt := "uvot::" +:+ str_opt (filter_name entry) in
                obsid ← py_int (row_obsid row);
                let observation :=
                  {| observation_id := obsid;
                     obstime := row_begin row;
                     RA := row_ra_object row;
                     Dec := row_dec_object row;
                     seeing := PNone;
                     limmag := PNone;
                     exposure_time := row_exposure_seconds row;
                     filter := filt;
                     processed_fraction := PFloat (FFin 1 0);
                     target_name := row_targname row |} in
                collect_observations rest (observations ++ [observation])
            end
      end
  end.

(** The query that [fetch_observations] sends: a time window only. *)
Definition window_query `{Env} (request_start request_end : datetime) : ObsQueryArgs :=
  {| oq_ra := PNone; oq_dec := PNone; oq_radius := PNone;
     oq_begin := PStr (time_iso request_start);
     oq_end := PStr (time_iso request_end) |}.

Definition fetch_observations `{Env} (instrument : Z) (request_start request_end : datetime)
  : M unit :=
  oq ← ObsQuery_new (window_query request_start request_end);
  observations ← lift (collect_observations (oq_entries oq) []);
  modify (with_observations instrument observations).

(** ** [class UVOTXRTMMAAPI] (lines 58-101) *)
Module UVOTXRTMMAAPI.

Definition retrieve (allocation : Allocation) (start_date end_date : datetime) : M unit :=
  let altdata := altdata allocation in
  if dict_is_empty altdata then raise (ValueError "Missing allocation information.")
  else
    let request_start := start_date in
    let request_end := end_date in
    if request_start >? request_end then
      raise (ValueError "start_date must be before end_date.")
    else
      modify (with_task (FetchObservations (instrument_id allocation) request_start request_end)).

End UVOTXRTMMAAPI.

(** ** [class UVOTXRTAPI] (lines 410-621) *)
Module UVOTXRTAPI.

(** [json.loads(v)]: the argument has to be a string. *)
Definition loads `{Env} (v : pyval) : Result pyval :=
  match v with
  | PStr s =>
      match json_loads s with
      | Some j => Ok j
      | None => Raise (PyError CJSONDecodeError "json.loads")
      end
  | _ => Raise (PyError CTypeError "json.loads")
  end.

(** [requests.post]: the exchange is issued, and the reply, when there is
    one, comes back with the request that was sent. *)
Definition requests_post `{Env} (url : string) (body : http_body) : M Response := fun w =>
  let prepared := {| pr_url := url; pr_body := body |} in
  match http_post url body with
  | Some reply => (Ok {| resp_request := prepared; resp_reply := reply |}, with_http prepared w)
  | None => (Raise RequestException, with_http prepared w)
  end.

(** Lines 486-498 and 585-597: the two refresh signals, each on request. *)
Definition push_refresh (request : FollowupRequest) (kwargs : gmap string pyval) : M unit :=
  when (py_truthy (dict_get kwargs "refresh_source" (PBool false)))
    (modify (with_flow {| flow_user := PStr "*";
                          flow_action := "skyportal/REFRESH_SOURCE";
                          flow_payload := [("obj_key", PStr (obj_internal_key (obj request)))] |}));;
  when (py_truthy (dict_get kwargs "refresh_requests" (PBool false)))
    (modify (with_flow {| flow_user := PInt (last_modified_by_id request);
                          flow_action := "skyportal/REFRESH_FOLLOWUP_REQUESTS";
                          flow_payload := [] |})).

(** Lines 439-447: the job fields read from the response stored with the
    last transaction, written into a rebuilt request. *)
Definition rebuild_job `{Env} (request : FollowupRequest) (transactions : list FacilityTransaction)
  : Result XRTProductRequest :=
  transaction ← match last transactions with
                 | Some t => Ok t
                 | None => Raise (PyError CIndexError "getitem")
                 end;
  content ← py_getitem (ft_response transaction) "content";
  content ← loads content;
  swiftreq ← XRTAPIRequest._build_payload request;
  OK ← py_getitem content "OK";
  submitted ← py_int OK;
  JobID ← py_getitem content "JobID";
  URL ← py_getitem content "URL";
  jobPars ← py_getitem content "jobPars";
  Ok {| xrt_user := xrt_user swiftreq;
        xrt_globals := xrt_globals swiftreq;
        xrt_products := xrt_products swiftreq;
        xrt_job := Some {| job_status := 1; job_submitted := submitted; job_jobID := JobID;
                           job_URL := URL; job_jobPars := jobPars |} |}.

(** Lines 458-472: one comment per downloaded product. *)
Fixpoint post_products `{Env} (request : FollowupRequest) (groups : list Z)
    (retDict : list (string * string)) : M unit :=
  match retDict with
  | [] => mret tt
  | (key, filename) :: rest =>
      modify (with_comment {| c_text := "Swift XRT: " +:+ key;
                              c_obj_id := obj_id (obj request);
                              c_attachment_bytes := file_b64 filename;
                              c_attachment_name := basename filename;
                              c_author := requester request;
                              c_groups := groups;
                              c_bot := false |});;
      post_products request groups rest
  end.

(** Lines 438-474: the branch of [get] for an XRT API request. *)
Definition get_xrt `{Env} (request : FollowupRequest) : M unit := fun w =>
  (swiftreq ← lift (rebuild_job request (w_transactions w));
   if negb (xrt_complete swiftreq) then
     raise (ValueError "Result not yet available. Please try again later.")
   else
     let group_ids := accessible_groups (requester request) in
     let groups := select_groups (requester request) group_ids in
     retDict ← lift (match xrt_downloadProducts swiftreq with
                      | Some d => Ok d
                      | None => Raise (LibraryError "xrt_prods")
                      end);
     post_products request groups retDict;;
     modify (with_status "Result posted as comment");;
     modify with_commit) w.

(** Lines 475-484: the branch of [get] for a data request. *)
Definition get_data `{Env} (request : FollowupRequest) : M unit :=
  swiftreq ← UVOTXRTBATDataRequest._build_payload request;
  modify (with_task (DownloadObservations (request_id request) swiftreq)).

(** [get] (lines 414-498).  The row [req] read back from the session is the
    request itself. *)
Definition get `{Env} (request : FollowupRequest) (kwargs : gmap string pyval) : M unit :=
  let altdata := altdata (allocation request) in
  if dict_is_empty altdata then raise (ValueError "Missing allocation information.")
  else
    request_type ← lift (getitem (payload request) "request_type");
    (if py_eq_str request_type "XRT API" then get_xrt request
     else if py_eq_str request_type "XRT/UVOT/BAT Data" then get_data request
     else mret tt);;
    push_refresh request kwargs.

(** The transaction of lines 547-552 and 570-575. *)
Definition transaction_of `{Env} (request : FollowupRequest) (r : Response) : FacilityTransaction :=
  {| ft_request := serialize_requests_request (resp_request r);
     ft_response := serialize_requests_response r;
     ft_followup_request := request_id request;
     ft_initiator_id := last_modified_by_id request |}.

(** Lines 534-545: the error notice of a rejected ToO is pushed inside a
    [try]; when the push raises, the exception is logged and the call goes
    on. *)
Definition push_notice `{Env} (notice : FlowMsg) : M unit :=
  match notice_error notice with
  | None => modify (with_flow notice)
  | Some e => modify (with_log ("Failed to send notification: " +:+ e))
  end.

(** Lines 519-554: the branch of [submit] for a ToO.  The verdict of
    [validate()] is computed and not looked at. *)
Definition submit_too `{Env} (request : FollowupRequest) : M unit :=
  swiftreq ← lift (UVOTXRTRequest._build_payload request);
  let _ := too_validate swiftreq in
  r ← requests_post API_URL (FormData [("jwt", too_jwt swiftreq)]);
  (if status_code (resp_reply r) =? 200 then modify (with_status "submitted")
   else
     let body := bytes_str (content (resp_reply r)) in
     modify (with_status ("rejected: " +:+ body));;
     modify (with_log ("Failed to submit Swift request for " +:+ pretty (request_id request)
                       +:+ " (obj " +:+ obj_id (obj request) +:+ "): " +:+ body));;
     push_notice {| flow_user := PInt (last_modified_by_id request);
                    flow_action := "baselayer/SHOW_NOTIFICATION";
                    flow_payload :=
                      [ ("note", PStr ("Failed to submit Swift request: " +:+ body));
                        ("type", PStr "error") ] |});;
  modify (with_transaction (transaction_of request r)).

(** The status of lines 560-568, from the reply and the parsed body. *)
Definition xrt_status `{Env} (reply : HttpReply) (returnedData : pyval) : Result string :=
  if negb (status_code reply =? 200) then Ok ("rejected: " +:+ reason reply)
  else
    OK ← py_getitem returnedData "OK";
    if py_eq_zero OK then
      ERROR ← py_getitem returnedData "ERROR";
      listErr ← py_getitem returnedData "listErr";
      Ok ("rejected: (" +:+ py_repr ERROR +:+ ", " +:+ py_repr listErr +:+ ")")
    else Ok "submitted".

(** Lines 556-577: the branch of [submit] for an XRT API request.  The body
    is parsed before the status code is looked at. *)
Definition submit_xrt `{Env} (request : FollowupRequest) : M unit :=
  swiftreq ← lift (XRTAPIRequest._build_payload request);
  r ← requests_post XRT_URL (JsonBody (xrt_JSONDict swiftreq));
  returnedData ← lift (loads (PStr (text (resp_reply r))));
  status ← lift (xrt_status (resp_reply r) returnedData);
  modify (with_status status);;
  modify (with_transaction (transaction_of request r)).

(** Lines 579-581: the branch of [submit] for a data request. *)
Definition submit_data `{Env} (request : FollowupRequest) : M unit :=
  swiftreq ← UVOTXRTBATDataRequest._build_payload request;
  modify (with_status ("Number of observations: " +:+ pretty (length (oq_entries swiftreq)))).

(** Lines 599-621: the notification; whatever it raises is logged. *)
Definition notify `{Env} (kind : NotificationKind) (request : FollowupRequest) : M unit :=
  match notify_error kind request with
  | None => modify (with_notified kind)
  | Some msg => modify (with_log ("Error sending notification: " +:+ msg))
  end.

Definition send_notification `{Env} (request : FollowupRequest) : M unit :=
  let notification_type :=
    dict_get (altdata (allocation request)) "notification_type" (PStr "none") in
  if py_eq_str notification_type "slack" then notify Slack request
  else if py_eq_str notification_type "email" then notify Email request
  else mret tt.

(** [submit] (lines 502-621). *)
Definition submit `{Env} (request : FollowupRequest) (kwargs : gmap string pyval) : M unit :=
  let altdata := altdata (allocation request) in
  if dict_is_empty altdata then raise (ValueError "Missing allocation information.")
  else
    request_type ← lift (getitem (payload request) "request_type");
    (if py_eq_str request_type "XRT/UVOT ToO" then submit_too request
     else if py_eq_str request_type "XRT API" then submit_xrt request
     else if py_eq_str request_type "XRT/UVOT/BAT Data" then submit_data request
     else raise (ValueError "Invalid request type."));;
    push_refresh request kwargs;;
    send_notification request.

End UVOTXRTAPI.

(** ** An environment and requests for the examples *)

Definition digit (c : ascii) : option Z :=
  let n := Z.of_nat (nat_of_ascii c) in
  if (48 <=? n) && (n <=? 57) then Some (n - 48) else None.

Fixpoint digits (s : string) (acc : Z) : option Z :=
  match s with
  | EmptyString => Some acc
  | String c rest =>
      match digit c with
      | Some d => digits rest (10 * acc + d)
      | None => None
      end
  end.

(** The double quote, for the JSON texts below. *)
Definition dq : string := String (ascii_of_nat 34) EmptyString.

(** [{"OK": 1, "JobID": 7, "URL": "u", "jobPars": {}}] *)
Definition accepted_text : string :=
  "{" +:+ dq +:+ "OK" +:+ dq +:+ ": 1, " +:+ dq +:+ "JobID" +:+ dq +:+ ": 7, "
      +:+ dq +:+ "URL" +:+ dq +:+ ": " +:+ dq +:+ "u" +:+ dq +:+ ", "
      +:+ dq +:+ "jobPars" +:+ dq +:+ ": {}}".

Definition accepted_json : pyval :=
  PDict [("OK", PInt 1); ("JobID", PInt 7); ("URL", PStr "u"); ("jobPars", PDict [])].

(** [{"OK": 0, "ERROR": "bad", "listErr": []}] *)
Definition refused_text : string :=
  "{" +:+ dq +:+ "OK" +:+ dq +:+ ": 0, " +:+ dq +:+ "ERROR" +:+ dq +:+ ": "
      +:+ dq +:+ "bad" +:+ dq +:+ ", " +:+ dq +:+ "listErr" +:+ dq +:+ ": []}".

Definition refused_json : pyval :=
  PDict [("OK", PInt 0); ("ERROR", PStr "bad"); ("listErr", PList [])].

(** A remote end that answers every POST with [reply], an archive that
    answers every query with [rows], and an XRT job whose [complete]
    property is [done].  Strings of digits convert to integers, the two
    JSON texts above parse, and no other text does.  The notification
    helpers and the message bus do not fail. *)
Definition mock (reply : HttpReply) (rows : list ObsRow) (done : bool) : Env :=
  {| API_URL := "https://www.swift.psu.edu:443/toop/submit_api.php";
     XRT_URL := "https://www.swift.ac.uk/user_objects/run_userobject.php";
     int_of_str := fun s => match s with EmptyString => None | _ => digits s 0 end;
     exn_str := fun e => match e with
                         | ValueError msg => msg
                         | PyError _ op => op
                         | RequestException => "connection"
                         | LibraryError lib => lib
                         end;
     bytes_str := fun b => "b'" +:+ b +:+ "'";
     py_repr := fun v => match v with
                         | PStr s => "'" +:+ s +:+ "'"
                         | PInt n => pretty n
                         | PList [] => "[]"
                         | _ => "None"
                         end;
     json_loads := fun s =>
       if String.eqb s accepted_text then Some accepted_json
       else if String.eqb s refused_text then Some refused_json
       else None;
     http_post := fun _ _ => Some reply;
     serialize_requests_request := fun p => PDict [("url", PStr (pr_url p))];
     serialize_requests_response := fun r =>
       PDict [("status_code", PInt (status_code (resp_reply r)));
              ("reason", PStr (reason (resp_reply r)));
              ("content", PStr (text (resp_reply r)))];
     too_validate := fun _ => true;
     too_jwt := fun _ => "token";
     obs_query := fun _ => Some rows;
     UVOT_mode := fun v => match v with
                           | PStr "0x30ed" => Some [ {| filter_name := Some "u" |};
                                                     {| filter_name := Some "b" |} ]
                           | PStr "0x2019" => Some [ {| filter_name := Some "white" |} ]
                           | _ => None
                           end;
     xrt_accepts := fun _ => true;
     xrt_JSONDict := fun r => PDict (xrt_globals r);
     xrt_complete := fun _ => done;
     xrt_downloadProducts := fun _ => Some [("LightCurve", "/tmp/products/lc.zip")];
     file_b64 := fun _ => "UEsDBA==";
     seconds_since_MET := fun v => match v with
                                   | PStr _ => Some (FFin 725846400 0)
                                   | _ => None
                                   end;
     time_iso := fun t => pretty t;
     select_groups := fun _ ids => ids;
     notify_error := fun _ _ => None;
     notice_error := fun _ => None |}.

Definition reply_200 (body : string) : HttpReply :=
  {| status_code := 200; reason := "OK"; text := body; content := body |}.

(** What a web server answers when the job script fails: an HTML page. *)
Definition reply_500 : HttpReply :=
  {| status_code := 500; reason := "Internal Server Error";
     text := "<html><body><h1>500 Internal Server Error</h1></body></html>";
     content := "<html><body><h1>500 Internal Server Error</h1></body></html>" |}.

Definition credentials : gmap string pyval :=
  <["username" := PStr "observer"]>
  (<["secret" := PStr "s3cret"]>
  (<["XRT_UserID" := PStr "observer@example.org"]> ∅)).

Definition target : Obj :=
  {| obj_id := "ZTF21abcdefg"; obj_ra := PFloat (FFin 315 (-1));
     obj_dec := PFloat (FFin (-45) (-2)); obj_internal_key := "key-1" |}.

Definition request_with (a : gmap string pyval) (p : gmap string pyval) : FollowupRequest :=
  {| request_id := 12;
     obj := target;
     allocation := {| altdata := a; instrument_id := 5 |};
     payload := p;
     last_modified_by_id := 3;
     requester := {| accessible_groups := [1; 2] |} |}.

Definition too_payload : gmap string pyval :=
  <["request_type" := PStr "XRT/UVOT ToO"]>
  (<["source_type" := PStr "Optical fast transient"]>
  (<["exposure_time" := PFloat (FFin 4000 0)]>
  (<["monitoring_freq" := PInt 1]>
  (<["exposure_counts" := PInt 1]>
  (<["exp_time_just" := PStr "4ks should suffice"]>
  (<["immediate_objective" := PStr "measure the X-ray emission"]>
  (<["urgency" := PStr "2"]>
  (<["obs_type" := PStr "Position"]>
  (<["uvot_mode" := PStr "0x9999 - Default (Filter of the day)"]>
  (<["science_just" := PStr "associate the object to a relativistic explosion"]> ∅)))))))))).

Definition xrt_payload : gmap string pyval :=
  <["request_type" := PStr "XRT API"]>
  (<["T0" := PStr "2024-01-01 00:00:00"]>
  (<["centMeth" := PStr "simple"]>
  (<["detMeth" := PStr "simple"]>
  (<["poserr" := PInt 1]> ∅)))).

Definition data_payload : gmap string pyval :=
  <["request_type" := PStr "XRT/UVOT/BAT Data"]>
  (<["start_date" := PStr "2023-01-01 00:00:00"]>
  (<["end_date" := PStr "2024-01-01 00:00:00"]> ∅)).

Definition archive_row (uvot : string) (ra : pyval) (obsid : string) : ObsRow :=
  {| row_uvot := PStr uvot; row_ra_object := ra; row_dec_object := PFloat (FFin (-45) (-2));
     row_obsid := PStr obsid; row_begin := 1700000000000000; row_exposure_seconds := 900;
     row_targname := PStr "ZTF21abcdefg" |}.

Definition empty_world : World :=
  {| w_status := "pending submission"; w_transactions := []; w_comments := [];
     w_commits := 0; w_flow := []; w_executor := []; w_http := []; w_archive := [];
     w_observations := []; w_notified := []; w_log := [] |}.

(** A store in which the request has one transaction, whose stored response
    body is [accepted_text]. *)
Definition stored_world : World :=
  with_transaction {| ft_request := PNone;
                      ft_response := PDict [("content", PStr accepted_text)];
                      ft_followup_request := 12;
                      ft_initiator_id := 3 |} empty_world.

(** ** Vocabulary of the statements *)

(** The refresh signals a caller asks for with its keyword arguments. *)
Definition refresh_signals (request : FollowupRequest) (kwargs : gmap string pyval) : list FlowMsg :=
  (if py_truthy (dict_get kwargs "refresh_source" (PBool false)) then
     [ {| flow_user := PStr "*";
          flow_action := "skyportal/REFRESH_SOURCE";
          flow_payload := [("obj_key", PStr (obj_internal_key (obj request)))] |} ]
   else [])
  ++ (if py_truthy (dict_get kwargs "refresh_requests" (PBool false)) then
        [ {| flow_user := PInt (last_modified_by_id request);
             flow_action := "skyportal/REFRESH_FOLLOWUP_REQUESTS";
             flow_payload := [] |} ]
      else []).

(** The store after the messages [ms] were pushed, and nothing else done. *)
Definition with_flows (ms : list FlowMsg) (w : World) : World :=
  {| w_status := w_status w; w_transactions := w_transactions w; w_comments := w_comments w;
     w_commits := w_commits w; w_flow := w_flow w ++ ms; w_executor := w_executor w;
     w_http := w_http w; w_archive := w_archive w; w_observations := w_observations w;
     w_notified := w_notified w; w_log := w_log w |}.

(** Two stores that differ at most in the messages pushed, the notifications
    sent and the log. *)
Definition same_rows (w w' : World) : Prop :=
  w_status w' = w_status w /\ w_transactions w' = w_transactions w
  /\ w_comments w' = w_comments w /\ w_commits w' = w_commits w
  /\ w_executor w' = w_executor w /\ w_http w' = w_http w
  /\ w_archive w' = w_archive w /\ w_observations w' = w_observations w.

(** The ToO builder up to the UVOT mode (lines 177-213). *)
Definition before_uvot_mode `{Env} (request : FollowupRequest) : Result (gmap string pyval) :=
  too ← UVOTXRTRequest.set_request_fields request ∅;
  too ← UVOTXRTRequest.set_urgency request too;
  UVOTXRTRequest.set_obs_type request too.

Definition uvot_just_required : exn :=
  ValueError "uvot_just is required when the UVOT mode select is 0x0270 (ToO Upload Mode).".

Definition invalid_type : exn := ValueError "Invalid request type.".

(** ** [download_observations] (lines 327-407)

    The task that [get] hands to the thread pool for a data request.  What it
    calls in [swifttools] ([Data]), in the file system and in [tarfile] is the
    class [DataEnv], again with arbitrary functions. *)

(** An entry of a [Data] object: a file to download. *)
Record DataFile : Type := {
  df_path : string;
  df_filename : string
}.

Class DataEnv : Type := {
  (** the name of the [tempfile.TemporaryDirectory()] *)
  tmpdirname : string;
  (** [list({x for x in l})]: the elements of the set in the order in which
      it is iterated *)
  set_list : list pyval -> list pyval;
  (** [str(obsid)], as the f-strings render it *)
  obsid_str : pyval -> string;
  (** [Data.submit()] for an observation and the three instrument flags: the
      [entries] of the object when the call is true, [None] when it is not *)
  data_submit : pyval -> pyval -> pyval -> pyval -> option (list DataFile);
  (** [dfile.download(outdir=...)] *)
  dfile_download : string -> DataFile -> bool;
  (** [base64.b64encode] of the tarball written under a file name *)
  tar_gz_b64 : string -> string
}.

Fixpoint ends_with_slash (s : string) : bool :=
  match s with
  | EmptyString => false
  | String c EmptyString => Ascii.eqb c "/"%char
  | String _ rest => ends_with_slash rest
  end.

(** [os.path.join(a, b)] (POSIX): an absolute [b] replaces [a]; otherwise
    [b] is appended, after a slash unless [a] is empty or ends with one. *)
Definition path_join (a b : string) : string :=
  match b with
  | String "/"%char _ => b
  | _ =>
      match a with
      | EmptyString => b
      | _ => if ends_with_slash a then a +:+ b else a +:+ "/" +:+ b
      end
  end.

(** Lines 379-381: every file of an observation is downloaded; the first one
    that fails raises. *)
Fixpoint download_files `{DataEnv} (outdir : string) (entries : list DataFile) : Result unit :=
  match entries with
  | [] => Ok tt
  | dfile :: rest =>
      if negb (dfile_download outdir dfile) then
        Raise (ValueError ("Error downloading " +:+ df_filename dfile))
      else download_files outdir rest
  end.

(** The comment of lines 382-397 for one observation. *)
Definition bundle_comment `{DataEnv} (req : FollowupRequest) (groups : list Z) (obsid : pyval)
  : Comment :=
  let filename := path_join tmpdirname (obsid_str obsid +:+ ".tar.gz") in
  {| c_text := "Swift Data: " +:+ obsid_str obsid;
     c_obj_id := obj_id (obj req);
     c_attachment_bytes := tar_gz_b64 filename;
     c_attachment_name := basename filename;
     c_author := requester req;
     c_groups := groups;
     c_bot := true |}.

(** The loop of lines 355-398 over the observations still to visit,
    [added] being the comments added to the task's own session so far.  An
    observation whose [submit()] is false is passed over. *)
Fixpoint download_bundles `{DataEnv} (req : FollowupRequest) (groups : list Z)
    (obsids : list pyval) (added : list Comment) : Result (list Comment) :=
  match obsids with
  | [] => Ok added
  | obsid :: rest =>
      match data_submit obsid (dict_get (payload req) "XRT" (PBool false))
                        (dict_get (payload req) "UVOT" (PBool false))
                        (dict_get (payload req) "BAT" (PBool false)) with
      | None => download_bundles req groups rest added
      | Some entries =>
          _ ← download_files tmpdirname entries;
          download_bundles req groups rest (added ++ [bundle_comment req groups obsid])
      end
  end.

Definition with_comments (cs : list Comment) (w : World) : World :=
  {| w_status := w_status w; w_transactions := w_transactions w;
     w_comments := w_comments w ++ cs;
     w_commits := w_commits w; w_flow := w_flow w; w_executor := w_executor w;
     w_http := w_http w; w_archive := w_archive w; w_observations := w_observations w;
     w_notified := w_notified w; w_log := w_log w |}.

(** [download_observations], for the row [req] that the task reads back by
    its id.  The task has a session of its own: the comments it adds reach
    the store with the commit that follows the status, and an exception,
    whatever it is, is caught at the end: the session is rolled back and one
    line is logged. *)
Definition download_observations `{Env} `{DataEnv} (req : FollowupRequest) (oq : ObsQuery)
  : M unit := fun w =>
  let group_ids := accessible_groups (requester req) in
  let groups := select_groups (requester req) group_ids in
  let obsids := set_list (map row_obsid (oq_entries oq)) in
  match download_bundles req groups obsids [] with
  | Ok added =>
      (Ok tt, with_commit (with_status "Result posted as comment" (with_comments added w)))
  | Raise e =>
      (Ok tt, with_log ("Unable to post data for " +:+ pretty (request_id req)
                        +:+ ": " +:+ exn_str e) w)
  end.

(** ** More vocabulary and examples *)

Definition with_payload (request : FollowupRequest) (p : gmap string pyval) : FollowupRequest :=
  {| request_id := request_id request; obj := obj request; allocation := allocation request;
     payload := p; last_modified_by_id := last_modified_by_id request;
     requester := requester request |}.

(** Whether the backfill keeps a row: its mode has entries and both
    coordinates are there. *)
Definition retained `{Env} (row : ObsRow) : bool :=
  match UVOT_mode (row_uvot row) with
  | None => false
  | Some _ => negb (is_None (row_ra_object row) || is_None (row_dec_object row))
  end.

(** What the backfill makes of a row that it keeps: the observation [o] has
    the filter of the first entry of the row's mode, the constants of lines
    132-136, and the row's own id, start time, coordinates, exposure and
    target name. *)
Definition normalized `{Env} (row : ObsRow) (o : Observation) : Prop :=
  exists entries entry,
    UVOT_mode (row_uvot row) = Some entries /\ entries !! 0%nat = Some entry
    /\ filter o = "uvot::" +:+ str_opt (filter_name entry)
    /\ processed_fraction o = PFloat (FFin 1 0)
    /\ seeing o = PNone /\ limmag o = PNone
    /\ py_int (row_obsid row) = Ok (observation_id o)
    /\ obstime o = row_begin row
    /\ RA o = row_ra_object row /\ Dec o = row_dec_object row
    /\ exposure_time o = row_exposure_seconds row
    /\ target_name o = row_targname row.

(** The comment that [get] makes of a downloaded product. *)
Definition product_comment `{Env} (request : FollowupRequest) (groups : list Z)
    (product : string * string) : Comment :=
  {| c_text := "Swift XRT: " +:+ product.1;
     c_obj_id := obj_id (obj request);
     c_attachment_bytes := file_b64 product.2;
     c_attachment_name := basename product.2;
     c_author := requester request;
     c_groups := groups;
     c_bot := false |}.

(** What the notification step of [submit] adds to the notifications sent
    and to the log. *)
Definition notification_kind (request : FollowupRequest) : option NotificationKind :=
  let t := dict_get (altdata (allocation request)) "notification_type" (PStr "none") in
  if py_eq_str t "slack" then Some Slack
  else if py_eq_str t "email" then Some Email
  else None.

Fixpoint has_slash (s : string) : bool :=
  match s with
  | EmptyString => false
  | String c rest => Ascii.eqb c "/"%char || has_slash rest
  end.

Fixpoint mem_str (s : string) (l : list pyval) : bool :=
  match l with
  | [] => false
  | PStr t :: rest => String.eqb s t || mem_str s rest
  | _ :: rest => mem_str s rest
  end.

(** The distinct strings of a list, each at its first place. *)
Fixpoint distinct (l seen : list pyval) : list pyval :=
  match l with
  | [] => []
  | PStr s :: rest =>
      if mem_str s seen then distinct rest seen else PStr s :: distinct rest (PStr s :: seen)
  | v :: rest => v :: distinct rest seen
  end.

(** An archive whose data are there for every observation but ["missing"],
    with one file each, and a download that fails for the file ["broken.fits"]. *)
Definition mock_data : DataEnv :=
  {| tmpdirname := "/tmp/tmpq1w2e3";
     set_list := fun l => distinct l [];
     obsid_str := fun v => match v with PStr s => s | _ => "None" end;
     data_submit := fun obsid _ _ _ =>
       match obsid with
       | PStr "missing" => None
       | PStr "00012345009" =>
           Some [ {| df_path := "00012345009/xrt"; df_filename := "broken.fits" |} ]
       | PStr s => Some [ {| df_path := s +:+ "/xrt"; df_filename := "events.fits" |} ]
       | _ => None
       end;
     dfile_download := fun _ f => negb (String.eqb (df_filename f) "broken.fits");
     tar_gz_b64 := fun _ => "H4sIAAAA" |}.

(** The store after the notification step of [submit]. *)
Definition after_notification `{Env} (request : FollowupRequest) (w : World) : World :=
  match notification_kind request with
  | None => w
  | Some kind =>
      match notify_error kind request with
      | None => with_notified kind w
      | Some msg => with_log ("Error sending notification: " +:+ msg) w
      end
  end.

(** The error notice for the user when the ToO endpoint rejects a request. *)
Definition rejection_notice `{Env} (request : FollowupRequest) (reply : HttpReply) : FlowMsg :=
  {| flow_user := PInt (last_modified_by_id request);
     flow_action := "baselayer/SHOW_NOTIFICATION";
     flow_payload :=
       [ ("note", PStr ("Failed to submit Swift request: " +:+ bytes_str (content reply)));
         ("type", PStr "error") ] |}.

(** The environment [E] with other notification helpers. *)
Definition with_notify_error (E : Env)
    (f : NotificationKind -> FollowupRequest -> option string) : Env :=
  {| API_URL := @API_URL E; XRT_URL := @XRT_URL E;
     int_of_str := @int_of_str E; exn_str := @exn_str E; bytes_str := @bytes_str E;
     py_repr := @py_repr E; json_loads := @json_loads E; http_post := @http_post E;
     serialize_requests_request := @serialize_requests_request E;
     serialize_requests_response := @serialize_requests_response E;
     too_validate := @too_validate E; too_jwt := @too_jwt E;
     obs_query := @obs_query E; UVOT_mode := @UVOT_mode E;
     xrt_accepts := @xrt_accepts E; xrt_JSONDict := @xrt_JSONDict E;
     xrt_complete := @xrt_complete E; xrt_downloadProducts := @xrt_downloadProducts E;
     file_b64 := @file_b64 E; seconds_since_MET := @seconds_since_MET E;
     time_iso := @time_iso E; select_groups := @select_groups E;
     notify_error := f; notice_error := @notice_error E |}.

(** The environment [E] with another message bus for the error notice. *)
Definition with_notice_error (E : Env) (f : FlowMsg -> option string) : Env :=
  {| API_URL := @API_URL E; XRT_URL := @XRT_URL E;
     int_of_str := @int_of_str E; exn_str := @exn_str E; bytes_str := @bytes_str E;
     py_repr := @py_repr E; json_loads := @json_loads E; http_post := @http_post E;
     serialize_requests_request := @serialize_requests_request E;
     serialize_requests_response := @serialize_requests_response E;
     too_validate := @too_validate E; too_jwt := @too_jwt E;
     obs_query := @obs_query E; UVOT_mode := @UVOT_mode E;
     xrt_accepts := @xrt_accepts E; xrt_JSONDict := @xrt_JSONDict E;
     xrt_complete := @xrt_complete E; xrt_downloadProducts := @xrt_downloadProducts E;
     file_b64 := @file_b64 E; seconds_since_MET := @seconds_since_MET E;
     time_iso := @time_iso E; select_groups := @select_groups E;
     notify_error := @notify_error E; notice_error := f |}.

(** The ToO builder up to the observation type (lines 177-205). *)
Definition before_obs_type `{Env} (request : FollowupRequest) : Result (gmap string pyval) :=
  too ← UVOTXRTRequest.set_request_fields request ∅;
  UVOTXRTRequest.set_urgency request too.

(** The requests that the ToO builder accepts. *)
Definition too_accepted `{Env} (request : FollowupRequest) : Prop :=
  let a := altdata (allocation request) in
  let p := payload request in
  is_Some (a !! "username") /\ is_Some (a !! "secret")
  /\ is_Some (p !! "source_type") /\ is_Some (p !! "exposure_time")
  /\ (exists v, p !! "monitoring_freq" = Some v /\ py_is_int v = true)
  /\ (exists v k, p !! "exposure_counts" = Some v /\ py_int v = Ok k)
  /\ is_Some (p !! "exp_time_just") /\ is_Some (p !! "immediate_objective")
  /\ (exists v n, p !! "urgency" = Some v /\ py_int v = Ok n /\ 0 <= n <= 4)
  /\ (exists v, p !! "obs_type" = Some v
                /\ py_in v ["Spectroscopy"; "Light Curve"; "Position"; "Timing"] = true)
  /\ (exists key label,
         In (key, label) modes /\ p !! "uvot_mode" = Some (PStr label)
         /\ is_Some (p !! "science_just")
         /\ (key = "0x9999" \/ py_truthy (dict_get p "uvot_just" PNone) = true)).

(** Whether [Data.submit()] is true for an observation of a request. *)
Definition has_data `{DataEnv} (req : FollowupRequest) (obsid : pyval) : bool :=
  match data_submit obsid (dict_get (payload req) "XRT" (PBool false))
                    (dict_get (payload req) "UVOT" (PBool false))
                    (dict_get (payload req) "BAT" (PBool false)) with
  | Some _ => true
  | None => false
  end.

(** The files of an observation of a request. *)
Definition data_files `{DataEnv} (req : FollowupRequest) (obsid : pyval) : list DataFile :=
  match data_submit obsid (dict_get (payload req) "XRT" (PBool false))
                    (dict_get (payload req) "UVOT" (PBool false))
                    (dict_get (payload req) "BAT" (PBool false)) with
  | Some entries => entries
  | None => []
  end.

(** The observations that the download visits. *)
Definition obsids_of `{DataEnv} (oq : ObsQuery) : list pyval :=
  set_list (map row_obsid (oq_entries oq)).

(** The mock whose endpoint answers 200 with the body ["[1]"], or any body
    that parses to [j]. *)
Definition mock_body (j : pyval) : Env :=
  let E := mock (reply_200 "[1]") [] true in
  {| API_URL := @API_URL E; XRT_URL := @XRT_URL E;
     int_of_str := @int_of_str E; exn_str := @exn_str E; bytes_str := @bytes_str E;
     py_repr := @py_repr E; json_loads := fun _ => Some j; http_post := @http_post E;
     serialize_requests_request := @serialize_requests_request E;
     serialize_requests_response := @serialize_requests_response E;
     too_validate := @too_validate E; too_jwt := @too_jwt E;
     obs_query := @obs_query E; UVOT_mode := @UVOT_mode E;
     xrt_accepts := @xrt_accepts E; xrt_JSONDict := @xrt_JSONDict E;
     xrt_complete := @xrt_complete E; xrt_downloadProducts := @xrt_downloadProducts E;
     file_b64 := @file_b64 E; seconds_since_MET := @seconds_since_MET E;
     time_iso := @time_iso E; select_groups := @select_groups E;
     notify_error := @notify_error E; notice_error := @notice_error E |}.

(** * Properties *)

(** ** Dictionaries and the monad *)

Lemma dict_is_empty_true (d : gmap string pyval) : dict_is_empty d = true <-> d = ∅.
Proof.
  unfold dict_is_empty. rewrite bool_decide_eq_true. apply map_size_empty_iff.
Qed.

Lemma dict_is_empty_false (d : gmap string pyval) : dict_is_empty d = false <-> d ≠ ∅.
Proof.
  rewrite <- dict_is_empty_true. destruct (dict_is_empty d); split; congruence.
Qed.

Lemma getitem_Some (d : gmap string pyval) key v : d !! key = Some v -> getitem d key = Ok v.
Proof. intros Hl. unfold getitem. now rewrite Hl. Qed.

Lemma getitem_None (d : gmap string pyval) key :
  d !! key = None -> getitem d key = Raise (KeyError key).
Proof. intros Hl. unfold getitem. now rewrite Hl. Qed.

Lemma getitem_Ok (d : gmap string pyval) key v : getitem d key = Ok v -> d !! key = Some v.
Proof. unfold getitem. destruct (d !! key); congruence. Qed.

Lemma lookup_nonempty (d : gmap string pyval) key v : d !! key = Some v -> dict_is_empty d = false.
Proof.
  intros Hl. apply dict_is_empty_false. intros ->. now rewrite lookup_empty in Hl.
Qed.

Lemma py_eq_str_true v s : py_eq_str v s = true <-> v = PStr s.
Proof.
  destruct v; simpl; try (split; [discriminate | congruence]).
  rewrite String.eqb_eq. split; congruence.
Qed.

Lemma py_eq_str_false v s : py_eq_str v s = false <-> v ≠ PStr s.
Proof.
  rewrite <- py_eq_str_true. destruct (py_eq_str v s); split; congruence.
Qed.

Lemma bind_run {A B} (c : M A) (f : A -> M B) (w : World) :
  (c ≫= f) w = match c w with
               | (Ok a, w') => f a w'
               | (Raise e, w') => (Raise e, w')
               end.
Proof. reflexivity. Qed.

Lemma bind_Ok {A B} (c : Result A) (f : A -> Result B) b :
  c ≫= f = Ok b -> exists a, c = Ok a /\ f a = Ok b.
Proof. destruct c as [a|e]; simpl; [eauto | discriminate]. Qed.

(** Unfolding of the monad's operations. *)
Ltac run :=
  unfold mbind, M_bind, mret, M_ret, lift, raise, modify, when in *; simpl in *.

(** ** The backfill: [retrieve] *)

(** C6.  [retrieve] fails at once on an allocation without credentials;
    with credentials and [start_date > end_date] it raises the [ValueError] of
    the ordering check and leaves the store as it was: nothing is handed to
    the thread pool and no archive query is sent; with
    [start_date <= end_date] it raises nothing and hands exactly
    [fetch_observations] for the window to the thread pool, whose run sends
    the archive query for that window. *)
Theorem retrieve_checks_window `{Env} (allocation : Allocation) (start_date end_date : datetime)
    (w : World) :
  (altdata allocation = ∅ ->
     UVOTXRTMMAAPI.retrieve allocation start_date end_date w
     = (Raise (ValueError "Missing allocation information."), w))
  /\ (altdata allocation ≠ ∅ -> start_date > end_date ->
        UVOTXRTMMAAPI.retrieve allocation start_date end_date w
        = (Raise (ValueError "start_date must be before end_date."), w)
        /\ is_ValueError (ValueError "start_date must be before end_date.") = true)
  /\ (altdata allocation ≠ ∅ -> start_date <= end_date ->
        UVOTXRTMMAAPI.retrieve allocation start_date end_date w
        = (Ok tt, with_task (FetchObservations (instrument_id allocation) start_date end_date) w)
        /\ forall w1,
             w_archive (fetch_observations (instrument_id allocation) start_date end_date w1).2
             = w_archive w1 ++ [window_query start_date end_date]).
Proof.
  unfold UVOTXRTMMAAPI.retrieve. split; [|split].
  - intros Hempty. apply dict_is_empty_true in Hempty. now rewrite Hempty.
  - intros Hcred Hgt. split; [|reflexivity].
    apply dict_is_empty_false in Hcred. rewrite Hcred.
    assert (Hcmp : (start_date >? end_date) = true) by lia. now rewrite Hcmp.
  - intros Hcred Hle. apply dict_is_empty_false in Hcred. rewrite Hcred.
    assert (Hcmp : (start_date >? end_date) = false) by lia. rewrite Hcmp.
    split; [reflexivity|].
    intros w1. unfold fetch_observations, ObsQuery_new. run.
    destruct (obs_query _); simpl; [|reflexivity].
    destruct (collect_observations _ _); reflexivity.
Qed.

Lemma retrieve_checks_window_witness :
  let E := mock reply_500 [] true in
  let a := {| altdata := credentials; instrument_id := 5 |} in
  (UVOTXRTMMAAPI.retrieve a 20 10 empty_world
   = (Raise (ValueError "start_date must be before end_date."), empty_world)
   /\ is_ValueError (ValueError "start_date must be before end_date.") = true)
  /\ (UVOTXRTMMAAPI.retrieve a 10 20 empty_world
      = (Ok tt, with_task (FetchObservations 5 10 20) empty_world)
      /\ forall w1, w_archive (fetch_observations 5 10 20 w1).2
                    = w_archive w1 ++ [window_query 10 20]).
Proof.
  intros E a.
  assert (Hne : altdata a ≠ ∅).
  { apply dict_is_empty_false. vm_compute. reflexivity. }
  split.
  - apply (proj1 (proj2 (@retrieve_checks_window E a 20 10 empty_world))); [exact Hne | lia].
  - apply (proj2 (proj2 (@retrieve_checks_window E a 10 20 empty_world))); [exact Hne | lia].
Defined.

(** ** Fetching results: [get] *)

Lemma push_refresh_run (request : FollowupRequest) (kwargs : gmap string pyval) (w : World) :
  UVOTXRTAPI.push_refresh request kwargs w
  = (Ok tt, with_flows (refresh_signals request kwargs) w).
Proof.
  unfold UVOTXRTAPI.push_refresh, refresh_signals, with_flows. run.
  destruct w; simpl.
  destruct (py_truthy (dict_get kwargs "refresh_source" (PBool false)));
    destruct (py_truthy (dict_get kwargs "refresh_requests" (PBool false)));
    unfold with_flow; simpl; rewrite <- ?app_assoc, ?app_nil_r; reflexivity.
Qed.

Lemma xrt_build_needs_credentials `{Env} (request : FollowupRequest) r :
  XRTAPIRequest._build_payload request = Ok r ->
  dict_is_empty (altdata (allocation request)) = false.
Proof.
  unfold XRTAPIRequest._build_payload. intros Hb.
  destruct (altdata (allocation request) !! "XRT_UserID") as [u|] eqn:Hu.
  - eapply lookup_nonempty; eauto.
  - rewrite (getitem_None _ _ Hu) in Hb.
    unfold mbind, Result_bind in Hb. repeat case_match; congruence.
Qed.

Lemma rebuild_job_needs_credentials `{Env} (request : FollowupRequest) ts r :
  UVOTXRTAPI.rebuild_job request ts = Ok r ->
  dict_is_empty (altdata (allocation request)) = false.
Proof.
  unfold UVOTXRTAPI.rebuild_job. intros Hb.
  destruct (XRTAPIRequest._build_payload request) as [x|e] eqn:Hx.
  - eapply xrt_build_needs_credentials; eauto.
  - unfold mbind, Result_bind in Hb. repeat case_match; congruence.
Qed.

(** C8.  A [get] on an XRT API request whose job fields are rebuilt from the
    last stored transaction and whose job is not complete raises the
    [ValueError] that asks to try again later (the specification's
    ResultNotReady), and the store is exactly what it was: no comment, no
    status, nothing else is written. *)
Theorem get_xrt_not_ready `{Env} (request : FollowupRequest) (kwargs : gmap string pyval)
    (w : World) (swiftreq : XRTProductRequest) :
  payload request !! "request_type" = Some (PStr "XRT API") ->
  UVOTXRTAPI.rebuild_job request (w_transactions w) = Ok swiftreq ->
  xrt_complete swiftreq = false ->
  UVOTXRTAPI.get request kwargs w
  = (Raise (ValueError "Result not yet available. Please try again later."), w).
Proof.
  intros Htype Hjob Hpending. unfold UVOTXRTAPI.get.
  rewrite (rebuild_job_needs_credentials _ _ _ Hjob).
  rewrite (getitem_Some _ _ _ Htype). run.
  unfold UVOTXRTAPI.get_xrt. run. rewrite Hjob, Hpending. reflexivity.
Qed.

(** C9.  A [get] on a request with credentials whose [request_type] is
    neither ["XRT API"] nor ["XRT/UVOT/BAT Data"] returns without an error,
    and the store differs from the one before only by the refresh signals
    that the keyword arguments ask for: no comment is added and the status
    is the same. *)
Theorem get_other_type_only_refreshes `{Env} (request : FollowupRequest)
    (kwargs : gmap string pyval) (w : World) (v : pyval) :
  altdata (allocation request) ≠ ∅ ->
  payload request !! "request_type" = Some v ->
  v ≠ PStr "XRT API" ->
  v ≠ PStr "XRT/UVOT/BAT Data" ->
  UVOTXRTAPI.get request kwargs w = (Ok tt, with_flows (refresh_signals request kwargs) w)
  /\ w_comments (UVOTXRTAPI.get request kwargs w).2 = w_comments w
  /\ w_status (UVOTXRTAPI.get request kwargs w).2 = w_status w.
Proof.
  intros Hcred Htype Hxrt Hdata.
  assert (Hget : UVOTXRTAPI.get request kwargs w
                 = (Ok tt, with_flows (refresh_signals request kwargs) w)).
  { unfold UVOTXRTAPI.get.
    apply dict_is_empty_false in Hcred. rewrite Hcred.
    rewrite (getitem_Some _ _ _ Htype). run.
    apply py_eq_str_false in Hxrt, Hdata. rewrite Hxrt, Hdata.
    apply push_refresh_run. }
  rewrite Hget. auto.
Qed.

Lemma get_xrt_not_ready_witness :
  @UVOTXRTAPI.get (mock reply_500 [] false) (request_with credentials xrt_payload) ∅ stored_world
  = (Raise (ValueError "Result not yet available. Please try again later."), stored_world).
Proof.
  eapply (@get_xrt_not_ready (mock reply_500 [] false)).
  - vm_compute. reflexivity.
  - vm_compute. reflexivity.
  - reflexivity.
Defined.

Lemma get_other_type_only_refreshes_witness :
  let E := mock reply_500 [] true in
  let request := request_with credentials too_payload in
  let kwargs : gmap string pyval := <["refresh_source" := PBool true]> ∅ in
  UVOTXRTAPI.get request kwargs stored_world
  = (Ok tt, with_flows (refresh_signals request kwargs) stored_world)
  /\ w_comments (UVOTXRTAPI.get request kwargs stored_world).2 = w_comments stored_world
  /\ w_status (UVOTXRTAPI.get request kwargs stored_world).2 = w_status stored_world.
Proof.
  intros E request kwargs.
  apply (@get_other_type_only_refreshes E request kwargs stored_world (PStr "XRT/UVOT ToO")).
  - apply dict_is_empty_false. vm_compute. reflexivity.
  - vm_compute. reflexivity.
  - discriminate.
  - discriminate.
Defined.

(** ** Submitting: [submit] *)

Lemma same_rows_refl w : same_rows w w.
Proof. unfold same_rows. tauto. Qed.

Lemma submit_epilogue `{Env} (request : FollowupRequest) (kwargs : gmap string pyval) (w : World) :
  exists w', (UVOTXRTAPI.push_refresh request kwargs;; UVOTXRTAPI.send_notification request) w
             = (Ok tt, w')
             /\ same_rows w w'.
Proof.
  unfold mbind, M_bind. rewrite push_refresh_run.
  unfold UVOTXRTAPI.send_notification, UVOTXRTAPI.notify.
  repeat case_match; run; eexists; (split; [reflexivity |]);
    unfold same_rows; simpl; tauto.
Qed.

(** A branch of [submit] followed by the refresh signals and the
    notification: an exception of the branch goes through, and after a
    branch that returns the call returns too, the rows being those the branch
    left. *)
Lemma then_epilogue `{Env} (c : M unit) (request : FollowupRequest)
    (kwargs : gmap string pyval) (w : World) :
  let whole := (c;; UVOTXRTAPI.push_refresh request kwargs;;
                UVOTXRTAPI.send_notification request) w in
  match c w with
  | (Raise e, w1) => whole = (Raise e, w1)
  | (Ok _, w1) => whole.1 = Ok tt /\ same_rows w1 whole.2
  end.
Proof.
  simpl. rewrite bind_run.
  destruct (c w) as [[[]|e] w1]; [|reflexivity].
  destruct (submit_epilogue request kwargs w1) as (w' & -> & Hrows). auto.
Qed.

(** The exceptions of a pure computation all satisfy [P]. *)
Lemma raises_only_bind {A B} (P : exn -> Prop) (c : Result A) (f : A -> Result B) :
  (forall e, c = Raise e -> P e) ->
  (forall a e, f a = Raise e -> P e) ->
  forall e, c ≫= f = Raise e -> P e.
Proof.
  intros Hc Hf e. destruct c as [a|e0]; simpl.
  - apply Hf.
  - intros [= <-]. now apply Hc.
Qed.

Lemma getitem_raises (d : gmap string pyval) key e :
  getitem d key = Raise e -> e = KeyError key.
Proof. unfold getitem. destruct (d !! key); congruence. Qed.

Lemma format_d_raises v e : format_d v = Raise e -> exists c, e = PyError c "format".
Proof. destruct v; simpl; intros [= <-]; eauto. Qed.

Lemma py_int_raises `{Env} v e : py_int v = Raise e -> exists c, e = PyError c "int".
Proof.
  destruct v as [| | |[]| | |]; simpl; try (intros [= <-]; eauto).
  destruct (int_of_str s); intros [= <-]; eauto.
Qed.

Ltac not_invalid :=
  match goal with
  | Hr : getitem _ _ = Raise _ |- _ => apply getitem_raises in Hr; subst; discriminate
  | Hr : format_d _ = Raise _ |- _ => apply format_d_raises in Hr; destruct Hr; subst; discriminate
  | Hr : py_int _ = Raise _ |- _ => apply py_int_raises in Hr; destruct Hr; subst; discriminate
  end.

Lemma set_request_fields_not_invalid `{Env} (request : FollowupRequest) too e :
  UVOTXRTRequest.set_request_fields request too = Raise e -> e ≠ invalid_type.
Proof.
  unfold UVOTXRTRequest.set_request_fields.
  revert e.
  repeat (apply (raises_only_bind (fun e => e ≠ invalid_type)); [intros; not_invalid | intros ?]).
  discriminate.
Qed.

Lemma set_urgency_not_invalid `{Env} (request : FollowupRequest) too e :
  UVOTXRTRequest.set_urgency request too = Raise e -> e ≠ invalid_type.
Proof.
  unfold UVOTXRTRequest.set_urgency.
  destruct (getitem (payload request) "urgency" ≫= _) as [u|e0].
  - destruct ((u <? 0) || (u >? 4)); intros [= <-]. discriminate.
  - intros [= <-]. discriminate.
Qed.

Lemma set_obs_type_not_invalid (request : FollowupRequest) too e :
  UVOTXRTRequest.set_obs_type request too = Raise e -> e ≠ invalid_type.
Proof.
  unfold UVOTXRTRequest.set_obs_type. revert e.
  apply (raises_only_bind (fun e => e ≠ invalid_type)); [intros; not_invalid | intros v e].
  destruct (negb _); intros [= <-]. discriminate.
Qed.

Lemma tuple_index_raises t v e : tuple_index t v = Raise e -> e = PyError CValueError "index".
Proof. unfold tuple_index. destruct (index_from t v 0); congruence. Qed.

Lemma tuple_item_raises t i e : tuple_item t i = Raise e -> e = PyError CIndexError "getitem".
Proof. unfold tuple_item. destruct (t !! i); congruence. Qed.

Lemma set_uvot_mode_not_invalid (request : FollowupRequest) too e :
  UVOTXRTRequest.set_uvot_mode request too = Raise e -> e ≠ invalid_type.
Proof.
  unfold UVOTXRTRequest.set_uvot_mode. revert e.
  apply (raises_only_bind (fun e => e ≠ invalid_type)); [intros; not_invalid | intros v].
  apply (raises_only_bind (fun e => e ≠ invalid_type)); [| intros i].
  { intros e He. apply tuple_index_raises in He. subst. discriminate. }
  apply (raises_only_bind (fun e => e ≠ invalid_type)); [| intros key].
  { intros e He. apply tuple_item_raises in He. subst. discriminate. }
  apply (raises_only_bind (fun e => e ≠ invalid_type)); [intros; not_invalid | intros sj e].
  destruct (negb (String.eqb key "0x9999")); [|discriminate].
  destruct (negb (py_truthy _)); intros [= <-]. discriminate.
Qed.

Lemma too_build_not_invalid `{Env} (request : FollowupRequest) e :
  UVOTXRTRequest._build_payload request = Raise e -> e ≠ invalid_type.
Proof.
  unfold UVOTXRTRequest._build_payload. revert e.
  apply (raises_only_bind (fun e => e ≠ invalid_type));
    [intros e; apply set_request_fields_not_invalid | intros t1].
  apply (raises_only_bind (fun e => e ≠ invalid_type));
    [intros e; apply set_urgency_not_invalid | intros t2].
  apply (raises_only_bind (fun e => e ≠ invalid_type));
    [intros e; apply set_obs_type_not_invalid | intros t3].
  intros e. apply set_uvot_mode_not_invalid.
Qed.

Lemma xrt_build_not_invalid `{Env} (request : FollowupRequest) e :
  XRTAPIRequest._build_payload request = Raise e -> e ≠ invalid_type.
Proof.
  unfold XRTAPIRequest._build_payload. revert e.
  apply (raises_only_bind (fun e => e ≠ invalid_type)); [intros; not_invalid | intros t0].
  apply (raises_only_bind (fun e => e ≠ invalid_type)); [| intros s].
  { intros e. destruct (seconds_since_MET t0); intros [= <-]. discriminate. }
  repeat (apply (raises_only_bind (fun e => e ≠ invalid_type)); [intros; not_invalid | intros ?]).
  intros e. destruct (xrt_accepts _); intros [= <-]. discriminate.
Qed.

Lemma py_getitem_raises v key e :
  py_getitem v key = Raise e -> exists c op, e = PyError c op.
Proof.
  destruct v; simpl; try (intros [= <-]; eauto).
  destruct (assoc d key); intros [= <-]. unfold KeyError. eauto.
Qed.

Lemma loads_raises `{Env} v e : UVOTXRTAPI.loads v = Raise e -> exists c, e = PyError c "json.loads".
Proof.
  destruct v; simpl; try (intros [= <-]; eauto).
  destruct (json_loads s); intros [= <-]. eauto.
Qed.

Lemma xrt_status_raises `{Env} reply data e :
  UVOTXRTAPI.xrt_status reply data = Raise e -> exists c op, e = PyError c op.
Proof.
  unfold UVOTXRTAPI.xrt_status. destruct (negb _); [discriminate|].
  destruct (py_getitem data "OK") as [ok|e0] eqn:Hok; simpl.
  - destruct (py_eq_zero ok); [|discriminate].
    destruct (py_getitem data "ERROR") as [err|e1] eqn:Herr; simpl.
    + destruct (py_getitem data "listErr") as [l|e2] eqn:Hl; simpl; [discriminate|].
      intros [= <-]. eapply py_getitem_raises; eauto.
    + intros [= <-]. eapply py_getitem_raises; eauto.
  - intros [= <-]. eapply py_getitem_raises; eauto.
Qed.

(** What the ToO branch of [submit] does: it raises before the status is
    assigned and before a transaction is made, or it returns after one
    exchange, the status assigned from the reply and one transaction added
    that records the request sent and the response received. *)
Lemma submit_too_cases `{Env} (request : FollowupRequest) (w : World) :
  (exists e w1, UVOTXRTAPI.submit_too request w = (Raise e, w1)
                /\ e ≠ invalid_type
                /\ w_status w1 = w_status w /\ w_transactions w1 = w_transactions w)
  \/ (exists r w1, UVOTXRTAPI.submit_too request w = (Ok tt, w1)
                   /\ http_post (pr_url (resp_request r)) (pr_body (resp_request r))
                      = Some (resp_reply r)
                   /\ w_http w1 = w_http w ++ [resp_request r]
                   /\ w_transactions w1 = w_transactions w ++ [UVOTXRTAPI.transaction_of request r]
                   /\ w_status w1 = if status_code (resp_reply r) =? 200 then "submitted"
                                    else "rejected: " +:+ bytes_str (content (resp_reply r))).
Proof.
  unfold UVOTXRTAPI.submit_too, UVOTXRTAPI.requests_post, UVOTXRTAPI.push_notice. run.
  destruct (UVOTXRTRequest._build_payload request) as [too|e] eqn:Hbuild.
  2:{ left. exists e, w. repeat split. eapply too_build_not_invalid; eauto. }
  destruct (http_post API_URL (FormData [("jwt", too_jwt too)])) as [reply|] eqn:Hpost.
  2:{ left. eexists _, _. split; [reflexivity|]. repeat split. discriminate. }
  right. exists {| resp_request := {| pr_url := API_URL;
                                      pr_body := FormData [("jwt", too_jwt too)] |};
                   resp_reply := reply |}.
  simpl. destruct (status_code reply =? 200); simpl; [|destruct (notice_error _); simpl];
    eexists; (split; [reflexivity|]); simpl; auto.
Qed.

(** The XRT API branch, likewise; the status is the one [xrt_status] gives
    for the reply and its parsed body. *)
Lemma submit_xrt_cases `{Env} (request : FollowupRequest) (w : World) :
  (exists e w1, UVOTXRTAPI.submit_xrt request w = (Raise e, w1)
                /\ e ≠ invalid_type
                /\ w_status w1 = w_status w /\ w_transactions w1 = w_transactions w)
  \/ (exists r returnedData w1,
         UVOTXRTAPI.submit_xrt request w = (Ok tt, w1)
         /\ http_post (pr_url (resp_request r)) (pr_body (resp_request r)) = Some (resp_reply r)
         /\ w_http w1 = w_http w ++ [resp_request r]
         /\ w_transactions w1 = w_transactions w ++ [UVOTXRTAPI.transaction_of request r]
         /\ json_loads (text (resp_reply r)) = Some returnedData
         /\ UVOTXRTAPI.xrt_status (resp_reply r) returnedData = Ok (w_status w1)).
Proof.
  unfold UVOTXRTAPI.submit_xrt, UVOTXRTAPI.requests_post. run.
  destruct (XRTAPIRequest._build_payload request) as [swiftreq|e] eqn:Hbuild.
  2:{ left. exists e, w. repeat split. eapply xrt_build_not_invalid; eauto. }
  destruct (http_post XRT_URL (JsonBody (xrt_JSONDict swiftreq))) as [reply|] eqn:Hpost.
  2:{ left. eexists _, _. split; [reflexivity|]. repeat split. discriminate. }
  simpl. destruct (json_loads (text reply)) as [data|] eqn:Hjson.
  2:{ left. eexists _, _. split; [reflexivity|]. repeat split. discriminate. }
  destruct (UVOTXRTAPI.xrt_status reply data) as [status|e] eqn:Hstatus.
  2:{ left. eexists _, _. split; [reflexivity|]. repeat split.
      apply xrt_status_raises in Hstatus. destruct Hstatus as (c & op & ->). discriminate. }
  right. exists {| resp_request := {| pr_url := XRT_URL;
                                      pr_body := JsonBody (xrt_JSONDict swiftreq) |};
                   resp_reply := reply |}, data.
  eexists. split; [reflexivity|]. simpl. auto.
Qed.

(** The data branch: no exchange and no transaction; when it returns, the
    status counts the rows that the archive gave for the cone around the
    target and the dates of the payload. *)
Lemma submit_data_cases `{Env} (request : FollowupRequest) (w : World) :
  w_transactions (UVOTXRTAPI.submit_data request w).2 = w_transactions w
  /\ ((exists e, (UVOTXRTAPI.submit_data request w).1 = Raise e
                 /\ e ≠ invalid_type
                 /\ w_status (UVOTXRTAPI.submit_data request w).2 = w_status w)
      \/ (exists start_date end_date rows,
             (UVOTXRTAPI.submit_data request w).1 = Ok tt
             /\ payload request !! "start_date" = Some start_date
             /\ payload request !! "end_date" = Some end_date
             /\ obs_query {| oq_ra := obj_ra (obj request); oq_dec := obj_dec (obj request);
                             oq_radius := UVOTXRTBATDataRequest.radius;
                             oq_begin := start_date; oq_end := end_date |} = Some rows
             /\ w_status (UVOTXRTAPI.submit_data request w).2
                = "Number of observations: " +:+ pretty (length rows))).
Proof.
  unfold UVOTXRTAPI.submit_data, UVOTXRTBATDataRequest._build_payload, ObsQuery_new, getitem.
  run.
  destruct (payload request !! "start_date") as [s|] eqn:Hs; simpl.
  2:{ split; [reflexivity|]. left. eexists. repeat split. discriminate. }
  destruct (payload request !! "end_date") as [e|] eqn:He; simpl.
  2:{ split; [reflexivity|]. left. eexists. repeat split. discriminate. }
  destruct (obs_query _) as [rows|] eqn:Hq; simpl.
  2:{ split; [reflexivity|]. left. eexists. repeat split. discriminate. }
  split; [reflexivity|]. right. exists s, e, rows. auto.
Qed.

Lemma submit_dispatch `{Env} (request : FollowupRequest) (kwargs : gmap string pyval)
    (w : World) (v : pyval) :
  altdata (allocation request) ≠ ∅ ->
  payload request !! "request_type" = Some v ->
  UVOTXRTAPI.submit request kwargs w
  = ((if py_eq_str v "XRT/UVOT ToO" then UVOTXRTAPI.submit_too request
      else if py_eq_str v "XRT API" then UVOTXRTAPI.submit_xrt request
      else if py_eq_str v "XRT/UVOT/BAT Data" then UVOTXRTAPI.submit_data request
      else raise invalid_type);;
     UVOTXRTAPI.push_refresh request kwargs;; UVOTXRTAPI.send_notification request) w.
Proof.
  intros Hcred Htype. unfold UVOTXRTAPI.submit.
  apply dict_is_empty_false in Hcred. rewrite Hcred.
  rewrite (getitem_Some _ _ _ Htype). reflexivity.
Qed.

Lemma too_build_Ok `{Env} (request : FollowupRequest) too :
  UVOTXRTRequest._build_payload request = Ok too ->
  exists t1 t2 t3,
    UVOTXRTRequest.set_request_fields request ∅ = Ok t1
    /\ UVOTXRTRequest.set_urgency request t1 = Ok t2
    /\ UVOTXRTRequest.set_obs_type request t2 = Ok t3
    /\ UVOTXRTRequest.set_uvot_mode request t3 = Ok too.
Proof.
  unfold UVOTXRTRequest._build_payload. intros Hb.
  apply bind_Ok in Hb. destruct Hb as (t1 & H1 & Hb).
  apply bind_Ok in Hb. destruct Hb as (t2 & H2 & Hb).
  apply bind_Ok in Hb. destruct Hb as (t3 & H3 & Hb).
  exists t1, t2, t3. auto.
Qed.

Lemma too_build_needs_credentials `{Env} (request : FollowupRequest) too :
  UVOTXRTRequest._build_payload request = Ok too ->
  altdata (allocation request) ≠ ∅.
Proof.
  intros Hb. apply too_build_Ok in Hb. destruct Hb as (t1 & _ & _ & H1 & _).
  unfold UVOTXRTRequest.set_request_fields in H1. apply bind_Ok in H1.
  destruct H1 as (u & Hu & _). apply getitem_Ok in Hu.
  apply dict_is_empty_false. eapply lookup_nonempty; eauto.
Qed.

Lemma send_notification_run `{Env} (request : FollowupRequest) (w : World) :
  UVOTXRTAPI.send_notification request w = (Ok tt, after_notification request w).
Proof.
  unfold UVOTXRTAPI.send_notification, after_notification, notification_kind,
    UVOTXRTAPI.notify.
  destruct (py_eq_str _ "slack"); [destruct (notify_error Slack request); reflexivity|].
  destruct (py_eq_str _ "email"); [destruct (notify_error Email request); reflexivity|].
  reflexivity.
Qed.

Lemma then_epilogue_exact `{Env} (c : M unit) (request : FollowupRequest)
    (kwargs : gmap string pyval) (w : World) :
  (c;; UVOTXRTAPI.push_refresh request kwargs;; UVOTXRTAPI.send_notification request) w
  = match c w with
    | (Ok _, w1) =>
        (Ok tt, after_notification request (with_flows (refresh_signals request kwargs) w1))
    | (Raise e, w1) => (Raise e, w1)
    end.
Proof.
  rewrite bind_run. destruct (c w) as [[[]|e] w1]; [|reflexivity].
  rewrite bind_run, push_refresh_run. apply send_notification_run.
Qed.

Lemma after_notification_rows `{Env} (request : FollowupRequest) (w : World) :
  same_rows w (after_notification request w)
  /\ w_flow (after_notification request w) = w_flow w.
Proof.
  unfold after_notification, same_rows.
  destruct (notification_kind request) as [k|]; [|tauto].
  destruct (notify_error k request); simpl; tauto.
Qed.

Lemma submit_too_run `{Env} (request : FollowupRequest) (w : World) swiftreq reply :
  UVOTXRTRequest._build_payload request = Ok swiftreq ->
  http_post API_URL (FormData [("jwt", too_jwt swiftreq)]) = Some reply ->
  let sent := {| pr_url := API_URL; pr_body := FormData [("jwt", too_jwt swiftreq)] |} in
  let r := {| resp_request := sent; resp_reply := reply |} in
  let body := bytes_str (content reply) in
  let rejected :=
    with_log ("Failed to submit Swift request for " +:+ pretty (request_id request)
              +:+ " (obj " +:+ obj_id (obj request) +:+ "): " +:+ body)
      (with_status ("rejected: " +:+ body) (with_http sent w)) in
  UVOTXRTAPI.submit_too request w
  = (Ok tt,
     with_transaction (UVOTXRTAPI.transaction_of request r)
       (if status_code reply =? 200 then with_status "submitted" (with_http sent w)
        else
          match notice_error (rejection_notice request reply) with
          | None => with_flow (rejection_notice request reply) rejected
          | Some e => with_log ("Failed to send notification: " +:+ e) rejected
          end)).
Proof.
  intros Hbuild Hpost.
  unfold UVOTXRTAPI.submit_too, UVOTXRTAPI.requests_post, UVOTXRTAPI.push_notice,
    rejection_notice. run.
  rewrite Hbuild, Hpost. simpl. destruct (status_code reply =? 200); [reflexivity|].
  simpl. destruct (notice_error _); reflexivity.
Qed.

(** The XRT API branch once the payload is built and the reply is there. *)
Lemma submit_xrt_run `{Env} (request : FollowupRequest) (w : World) swiftreq reply :
  XRTAPIRequest._build_payload request = Ok swiftreq ->
  http_post XRT_URL (JsonBody (xrt_JSONDict swiftreq)) = Some reply ->
  let sent := {| pr_url := XRT_URL; pr_body := JsonBody (xrt_JSONDict swiftreq) |} in
  let r := {| resp_request := sent; resp_reply := reply |} in
  UVOTXRTAPI.submit_xrt request w
  = match json_loads (text reply) with
    | None => (Raise (PyError CJSONDecodeError "json.loads"), with_http sent w)
    | Some returnedData =>
        match UVOTXRTAPI.xrt_status reply returnedData with
        | Ok status =>
            (Ok tt, with_transaction (UVOTXRTAPI.transaction_of request r)
                      (with_status status (with_http sent w)))
        | Raise e => (Raise e, with_http sent w)
        end
    end.
Proof.
  intros Hbuild Hpost. unfold UVOTXRTAPI.submit_xrt, UVOTXRTAPI.requests_post. run.
  rewrite Hbuild, Hpost. simpl.
  destruct (json_loads (text reply)) as [data|]; [|reflexivity].
  destruct (UVOTXRTAPI.xrt_status reply data); reflexivity.
Qed.

(** A [submit] that raises has raised in its branch: the refresh signals and
    the notification come after the branch and do not raise. *)
Lemma raised_in_branch `{Env} (c : M unit) (request : FollowupRequest)
    (kwargs : gmap string pyval) (w : World) :
  let whole := (c;; UVOTXRTAPI.push_refresh request kwargs;;
                UVOTXRTAPI.send_notification request) w in
  raised whole.1 = true -> whole = c w.
Proof.
  pose proof (then_epilogue c request kwargs w) as Hseq. simpl in *.
  destruct (c w) as [[[]|e] w1].
  - destruct Hseq as (-> & _). discriminate.
  - now rewrite Hseq.
Qed.

(** The data branch once both dates are there and the archive answers. *)
Lemma submit_data_run `{Env} (request : FollowupRequest) (w : World) start_date end_date rows :
  payload request !! "start_date" = Some start_date ->
  payload request !! "end_date" = Some end_date ->
  let query := {| oq_ra := obj_ra (obj request); oq_dec := obj_dec (obj request);
                  oq_radius := UVOTXRTBATDataRequest.radius;
                  oq_begin := start_date; oq_end := end_date |} in
  obs_query query = Some rows ->
  UVOTXRTAPI.submit_data request w
  = (Ok tt, with_status ("Number of observations: " +:+ pretty (length rows))
              (with_archive query w)).
Proof.
  intros Hs He query Hq.
  unfold UVOTXRTAPI.submit_data, UVOTXRTBATDataRequest._build_payload, ObsQuery_new. run.
  rewrite (getitem_Some _ _ _ Hs), (getitem_Some _ _ _ He). simpl.
  fold query. now rewrite Hq.
Qed.

(** A [submit] that returns has returned from its branch. *)
Lemma returned_in_branch `{Env} (c : M unit) (request : FollowupRequest)
    (kwargs : gmap string pyval) (w : World) :
  ((c;; UVOTXRTAPI.push_refresh request kwargs;; UVOTXRTAPI.send_notification request) w).1
  = Ok tt ->
  (c w).1 = Ok tt.
Proof.
  pose proof (then_epilogue c request kwargs w) as Hseq. simpl in Hseq.
  destruct (c w) as [[[]|e] w1]; [reflexivity|]. rewrite Hseq. discriminate.
Qed.

(** What a branch that returns has found. *)
Lemma submit_too_returns `{Env} (request : FollowupRequest) (w : World) :
  (UVOTXRTAPI.submit_too request w).1 = Ok tt ->
  exists too reply,
    UVOTXRTRequest._build_payload request = Ok too
    /\ http_post API_URL (FormData [("jwt", too_jwt too)]) = Some reply.
Proof.
  unfold UVOTXRTAPI.submit_too, UVOTXRTAPI.requests_post. run.
  destruct (UVOTXRTRequest._build_payload request) as [too|] eqn:Hbuild; [|discriminate].
  destruct (http_post API_URL (FormData [("jwt", too_jwt too)])) as [reply|] eqn:Hpost;
    [|discriminate].
  intros _. exists too, reply. auto.
Qed.

Lemma submit_xrt_returns `{Env} (request : FollowupRequest) (w : World) :
  (UVOTXRTAPI.submit_xrt request w).1 = Ok tt ->
  exists swiftreq reply returnedData status,
    XRTAPIRequest._build_payload request = Ok swiftreq
    /\ http_post XRT_URL (JsonBody (xrt_JSONDict swiftreq)) = Some reply
    /\ json_loads (text reply) = Some returnedData
    /\ UVOTXRTAPI.xrt_status reply returnedData = Ok status.
Proof.
  unfold UVOTXRTAPI.submit_xrt, UVOTXRTAPI.requests_post. run.
  destruct (XRTAPIRequest._build_payload request) as [swiftreq|] eqn:Hbuild; [|discriminate].
  destruct (http_post XRT_URL (JsonBody (xrt_JSONDict swiftreq))) as [reply|] eqn:Hpost;
    [|discriminate].
  simpl. destruct (json_loads (text reply)) as [data|] eqn:Hjson; [|discriminate].
  destruct (UVOTXRTAPI.xrt_status reply data) as [status|] eqn:Hstatus; [|discriminate].
  intros _. exists swiftreq, reply, data, status. auto.
Qed.

Lemma submit_data_returns `{Env} (request : FollowupRequest) (w : World) :
  (UVOTXRTAPI.submit_data request w).1 = Ok tt ->
  exists start_date end_date rows,
    payload request !! "start_date" = Some start_date
    /\ payload request !! "end_date" = Some end_date
    /\ obs_query {| oq_ra := obj_ra (obj request); oq_dec := obj_dec (obj request);
                    oq_radius := UVOTXRTBATDataRequest.radius;
                    oq_begin := start_date; oq_end := end_date |} = Some rows.
Proof.
  unfold UVOTXRTAPI.submit_data, UVOTXRTBATDataRequest._build_payload, ObsQuery_new, getitem.
  run.
  destruct (payload request !! "start_date") as [s|] eqn:Hs; [|discriminate].
  destruct (payload request !! "end_date") as [e|] eqn:He; [|discriminate]. simpl.
  destruct (obs_query _) as [rows|] eqn:Hq; [|discriminate].
  intros _. exists s, e, rows. auto.
Qed.

(** C1, as the code has it.  A [submit] that raises, whatever the request,
    has neither assigned the status nor added a transaction.  A [submit] of
    a ToO returns exactly when the payload is built and the endpoint
    replies, and a [submit] of an XRT API request exactly when the payload
    is built, the endpoint replies, and the body of the reply is JSON from
    which the status is read.  It has then made exactly one HTTP exchange,
    has assigned the status from the reply (for a ToO ["submitted"] on 200
    and ["rejected: <body>"] otherwise), and has added exactly one
    [FacilityTransaction], which holds the serialized request and the
    serialized response of that exchange, the id of the request and the id
    of the user who last modified it.  For a data request no transaction is
    added and no HTTP exchange is made; [submit] returns exactly when the
    allocation has credentials, the payload has both dates and the archive
    answers, and the status is then ["Number of observations: <count>"], the
    count being the number of rows that the archive gave. *)
Theorem submit_transaction_with_status `{Env} (request : FollowupRequest)
    (kwargs : gmap string pyval) (w : World) :
  let res := (UVOTXRTAPI.submit request kwargs w).1 in
  let w' := (UVOTXRTAPI.submit request kwargs w).2 in
  let transaction sent reply :=
    {| ft_request := serialize_requests_request sent;
       ft_response := serialize_requests_response {| resp_request := sent; resp_reply := reply |};
       ft_followup_request := request_id request;
       ft_initiator_id := last_modified_by_id request |} in
  (raised res = true -> w_status w' = w_status w /\ w_transactions w' = w_transactions w)
  /\ (payload request !! "request_type" = Some (PStr "XRT/UVOT ToO") ->
      (res = Ok tt ->
       exists too reply,
         UVOTXRTRequest._build_payload request = Ok too
         /\ http_post API_URL (FormData [("jwt", too_jwt too)]) = Some reply)
      /\ (forall too reply,
            UVOTXRTRequest._build_payload request = Ok too ->
            http_post API_URL (FormData [("jwt", too_jwt too)]) = Some reply ->
            let sent := {| pr_url := API_URL; pr_body := FormData [("jwt", too_jwt too)] |} in
            res = Ok tt
            /\ w_http w' = w_http w ++ [sent]
            /\ w_status w' = (if status_code reply =? 200 then "submitted"
                              else "rejected: " +:+ bytes_str (content reply))
            /\ w_transactions w' = w_transactions w ++ [transaction sent reply]))
  /\ (payload request !! "request_type" = Some (PStr "XRT API") ->
      (res = Ok tt ->
       exists swiftreq reply returnedData status,
         XRTAPIRequest._build_payload request = Ok swiftreq
         /\ http_post XRT_URL (JsonBody (xrt_JSONDict swiftreq)) = Some reply
         /\ json_loads (text reply) = Some returnedData
         /\ UVOTXRTAPI.xrt_status reply returnedData = Ok status)
      /\ (forall swiftreq reply returnedData status,
            XRTAPIRequest._build_payload request = Ok swiftreq ->
            http_post XRT_URL (JsonBody (xrt_JSONDict swiftreq)) = Some reply ->
            json_loads (text reply) = Some returnedData ->
            UVOTXRTAPI.xrt_status reply returnedData = Ok status ->
            let sent := {| pr_url := XRT_URL; pr_body := JsonBody (xrt_JSONDict swiftreq) |} in
            res = Ok tt
            /\ w_http w' = w_http w ++ [sent]
            /\ w_status w' = status
            /\ w_transactions w' = w_transactions w ++ [transaction sent reply]))
  /\ (payload request !! "request_type" = Some (PStr "XRT/UVOT/BAT Data") ->
      w_transactions w' = w_transactions w
      /\ w_http w' = w_http w
      /\ (res = Ok tt ->
          altdata (allocation request) ≠ ∅
          /\ exists start_date end_date rows,
               payload request !! "start_date" = Some start_date
               /\ payload request !! "end_date" = Some end_date
               /\ obs_query {| oq_ra := obj_ra (obj request); oq_dec := obj_dec (obj request);
                               oq_radius := UVOTXRTBATDataRequest.radius;
                               oq_begin := start_date; oq_end := end_date |} = Some rows)
      /\ (forall start_date end_date rows,
            altdata (allocation request) ≠ ∅ ->
            payload request !! "start_date" = Some start_date ->
            payload request !! "end_date" = Some end_date ->
            obs_query {| oq_ra := obj_ra (obj request); oq_dec := obj_dec (obj request);
                         oq_radius := UVOTXRTBATDataRequest.radius;
                         oq_begin := start_date; oq_end := end_date |} = Some rows ->
            res = Ok tt
            /\ w_status w' = "Number of observations: " +:+ pretty (length rows))).
Proof.
  intros res w' transaction. subst res w'.
  assert (Hreturned : (UVOTXRTAPI.submit request kwargs w).1 = Ok tt ->
                      altdata (allocation request) ≠ ∅).
  { intros Hok. apply dict_is_empty_false.
    destruct (dict_is_empty (altdata (allocation request))) eqn:Hcred; [|reflexivity].
    unfold UVOTXRTAPI.submit in Hok. rewrite Hcred in Hok. discriminate. }
  split; [|split; [|split]].
  - (* a call that raises *)
    destruct (dict_is_empty (altdata (allocation request))) eqn:Hcred.
    { unfold UVOTXRTAPI.submit. rewrite Hcred. simpl. auto. }
    destruct (payload request !! "request_type") as [v|] eqn:Htype.
    2:{ unfold UVOTXRTAPI.submit. rewrite Hcred, (getitem_None _ _ Htype). simpl. auto. }
    apply dict_is_empty_false in Hcred.
    rewrite (submit_dispatch request kwargs w v Hcred Htype).
    intros Hraised.
    pose proof (raised_in_branch _ request kwargs w Hraised) as Hbranch. cbv zeta in Hbranch.
    rewrite Hbranch in Hraised |- *. clear Hbranch.
    destruct (py_eq_str v "XRT/UVOT ToO");
      [|destruct (py_eq_str v "XRT API"); [|destruct (py_eq_str v "XRT/UVOT/BAT Data")]].
    + destruct (submit_too_cases request w)
        as [(e & w1 & -> & _ & Hst & Htr) | (r & w1 & Hrun & _)]; [auto|].
      rewrite Hrun in Hraised. discriminate.
    + destruct (submit_xrt_cases request w)
        as [(e & w1 & -> & _ & Hst & Htr) | (r & d & w1 & Hrun & _)]; [auto|].
      rewrite Hrun in Hraised. discriminate.
    + destruct (submit_data_cases request w)
        as (Htr & [(e & _ & _ & Hst) | (s & e & r & Hok & _)]); [auto|].
      rewrite Hok in Hraised. discriminate.
    + simpl. auto.
  - (* a ToO *)
    intros Htype. split.
    + intros Hok. pose proof (Hreturned Hok) as Hcred.
      rewrite (submit_dispatch request kwargs w _ Hcred Htype) in Hok.
      simpl py_eq_str in Hok. cbv iota in Hok.
      apply returned_in_branch in Hok. now apply submit_too_returns in Hok.
    + intros too reply Hbuild Hpost sent.
      rewrite (submit_dispatch request kwargs w _ (too_build_needs_credentials _ _ Hbuild) Htype).
      simpl py_eq_str. cbv iota.
      pose proof (then_epilogue (UVOTXRTAPI.submit_too request) request kwargs w) as Hseq.
      simpl in Hseq. rewrite (submit_too_run request w too reply Hbuild Hpost) in Hseq.
      cbv zeta in Hseq. destruct Hseq as (Hok & Hs & Ht & _ & _ & _ & Hh & _).
      rewrite Hok, Hs, Ht, Hh. fold sent.
      destruct (status_code reply =? 200); [|destruct (notice_error _)]; simpl; auto.
  - (* an XRT API request *)
    intros Htype. split.
    + intros Hok. pose proof (Hreturned Hok) as Hcred.
      rewrite (submit_dispatch request kwargs w _ Hcred Htype) in Hok.
      simpl py_eq_str in Hok. cbv iota in Hok.
      apply returned_in_branch in Hok. now apply submit_xrt_returns in Hok.
    + intros swiftreq reply returnedData status Hbuild Hpost Hjson Hstatus sent.
      pose proof (xrt_build_needs_credentials _ _ Hbuild) as Hcred.
      apply dict_is_empty_false in Hcred.
      rewrite (submit_dispatch request kwargs w _ Hcred Htype).
      simpl py_eq_str. cbv iota.
      pose proof (then_epilogue (UVOTXRTAPI.submit_xrt request) request kwargs w) as Hseq.
      simpl in Hseq.
      rewrite (submit_xrt_run request w swiftreq reply Hbuild Hpost), Hjson, Hstatus in Hseq.
      destruct Hseq as (Hok & Hs & Ht & _ & _ & _ & Hh & _).
      rewrite Hok, Hs, Ht, Hh. simpl. auto.
  - (* a data request *)
    intros Htype.
    destruct (dict_is_empty (altdata (allocation request))) eqn:Hcred.
    { unfold UVOTXRTAPI.submit. rewrite Hcred. simpl.
      split; [reflexivity|]. split; [reflexivity|]. split; [discriminate|].
      intros s e rows Hne. apply dict_is_empty_true in Hcred. contradiction. }
    apply dict_is_empty_false in Hcred.
    rewrite (submit_dispatch request kwargs w _ Hcred Htype).
    simpl py_eq_str. cbv iota.
    pose proof (then_epilogue (UVOTXRTAPI.submit_data request) request kwargs w) as Hseq.
    simpl in Hseq.
    assert (Hkept : w_transactions (UVOTXRTAPI.submit_data request w).2 = w_transactions w
                    /\ w_http (UVOTXRTAPI.submit_data request w).2 = w_http w).
    { unfold UVOTXRTAPI.submit_data, UVOTXRTBATDataRequest._build_payload, ObsQuery_new, getitem.
      run.
      destruct (payload request !! "start_date"); simpl; [|auto].
      destruct (payload request !! "end_date"); simpl; [|auto].
      destruct (obs_query _); simpl; auto. }
    split; [|split; [|split]].
    + destruct (UVOTXRTAPI.submit_data request w) as [[[]|e] w1]; simpl in *.
      * destruct Hseq as (_ & _ & -> & _). tauto.
      * rewrite Hseq. tauto.
    + destruct (UVOTXRTAPI.submit_data request w) as [[[]|e] w1]; simpl in *.
      * destruct Hseq as (_ & _ & _ & _ & _ & _ & -> & _). tauto.
      * rewrite Hseq. tauto.
    + intros Hok. split; [exact Hcred|].
      apply returned_in_branch in Hok. now apply submit_data_returns in Hok.
    + intros s e rows _ Hs He Hq.
      rewrite (submit_data_run request w s e rows Hs He Hq) in Hseq.
      destruct Hseq as (Hok & Hst & _). rewrite Hok, Hst. auto.
Qed.

Lemma submit_transaction_with_status_witness :
  let E := mock (reply_200 accepted_text)
             [archive_row "0x30ed" PNone "00012345001";
              archive_row "0x2019" (PFloat (FFin 315 (-1))) "00012345002"] true in
  let too := UVOTXRTAPI.submit (request_with credentials too_payload) ∅ empty_world in
  let xrt := UVOTXRTAPI.submit (request_with credentials xrt_payload) ∅ empty_world in
  let data := UVOTXRTAPI.submit (request_with credentials data_payload) ∅ empty_world in
  let sent := {| pr_url := API_URL; pr_body := FormData [("jwt", "token")] |} in
  (too.1 = Ok tt
   /\ w_http too.2 = [sent]
   /\ w_status too.2 = "submitted"
   /\ w_transactions too.2
      = [ {| ft_request := serialize_requests_request sent;
             ft_response := serialize_requests_response
                              {| resp_request := sent; resp_reply := reply_200 accepted_text |};
             ft_followup_request := 12;
             ft_initiator_id := 3 |} ])
  /\ (xrt.1 = Ok tt
      /\ w_status xrt.2 = "submitted"
      /\ exists posted,
           w_http xrt.2 = [posted]
           /\ w_transactions xrt.2
              = [ {| ft_request := serialize_requests_request posted;
                     ft_response := serialize_requests_response
                                      {| resp_request := posted;
                                         resp_reply := reply_200 accepted_text |};
                     ft_followup_request := 12;
                     ft_initiator_id := 3 |} ])
  /\ (data.1 = Ok tt
      /\ w_status data.2 = "Number of observations: 2"
      /\ w_transactions data.2 = []
      /\ w_http data.2 = []).
Proof.
  intros E too xrt data sent. subst too xrt data.
  split; [|split].
  - assert (Hbuilt : raised (UVOTXRTRequest._build_payload
                               (request_with credentials too_payload)) = false).
    { vm_compute. reflexivity. }
    destruct (UVOTXRTRequest._build_payload (request_with credentials too_payload))
      as [built|] eqn:Hb; [|discriminate].
    destruct (proj1 (proj2 (@submit_transaction_with_status E
                              (request_with credentials too_payload) ∅ empty_world))
                ltac:(vm_compute; reflexivity)) as (_ & Hrun).
    exact (Hrun built (reply_200 accepted_text) Hb ltac:(reflexivity)).
  - assert (Hbuilt : raised (XRTAPIRequest._build_payload
                               (request_with credentials xrt_payload)) = false).
    { vm_compute. reflexivity. }
    destruct (XRTAPIRequest._build_payload (request_with credentials xrt_payload))
      as [built|] eqn:Hb; [|discriminate].
    destruct (proj1 (proj2 (proj2 (@submit_transaction_with_status E
                                     (request_with credentials xrt_payload) ∅ empty_world)))
                ltac:(vm_compute; reflexivity)) as (_ & Hrun).
    destruct (Hrun built (reply_200 accepted_text) accepted_json "submitted" Hb
                ltac:(reflexivity) ltac:(reflexivity) ltac:(reflexivity))
      as (Hok & Hhttp & Hstatus & Htr).
    split; [exact Hok|]. split; [exact Hstatus|]. eexists. split; [exact Hhttp | exact Htr].
  - destruct (proj2 (proj2 (proj2 (@submit_transaction_with_status E
                                     (request_with credentials data_payload) ∅ empty_world)))
                ltac:(vm_compute; reflexivity))
      as (Htr & Hhttp & _ & Hrun).
    destruct (Hrun (PStr "2023-01-01 00:00:00") (PStr "2024-01-01 00:00:00")
                [archive_row "0x30ed" PNone "00012345001";
                 archive_row "0x2019" (PFloat (FFin 315 (-1))) "00012345002"]
                ltac:(apply dict_is_empty_false; vm_compute; reflexivity)
                ltac:(vm_compute; reflexivity) ltac:(vm_compute; reflexivity)
                ltac:(reflexivity))
      as (Hok & Hstatus).
    split; [exact Hok|]. split; [exact Hstatus|]. split; [exact Htr | exact Hhttp].
Defined.

(** C1 as it was stated fails on a ToO whose payload is refused by the
    builder: the urgency is 7, [submit] raises the [ValueError] of the range
    check, and no transaction is inserted (no exchange has been made, and the
    status is as it was). *)
Lemma submit_refused_too_no_transaction :
  let E := mock (reply_200 "ok") [] true in
  let request := request_with credentials (<["urgency" := PStr "7"]> too_payload) in
  let run := UVOTXRTAPI.submit request ∅ empty_world in
  payload request !! "request_type" = Some (PStr "XRT/UVOT ToO")
  /\ run.1 = Raise (ValueError "urgency must be one of 0, 1, 2, 3, or 4, and not: 7")
  /\ w_transactions run.2 = [] /\ w_http run.2 = []
  /\ w_status run.2 = "pending submission".
Proof. vm_compute. auto. Qed.

Example submit_too_accepted :
  let E := mock (reply_200 "ok") [] true in
  let w' := (UVOTXRTAPI.submit (request_with credentials too_payload) ∅ empty_world).2 in
  w_status w' = "submitted" /\ length (w_transactions w') = 1%nat
  /\ length (w_http w') = 1%nat.
Proof. vm_compute. auto. Qed.

Example submit_data_counts :
  let E := mock reply_500 [archive_row "0x30ed" PNone "00012345001";
                           archive_row "0x2019" (PFloat (FFin 315 (-1))) "00012345002"] true in
  let w' := (UVOTXRTAPI.submit (request_with credentials data_payload) ∅ empty_world).2 in
  w_status w' = "Number of observations: 2" /\ w_transactions w' = [] /\ w_http w' = [].
Proof. vm_compute. auto. Qed.

Lemma submit_xrt_whole `{Env} (request : FollowupRequest) (kwargs : gmap string pyval)
    (w : World) swiftreq :
  payload request !! "request_type" = Some (PStr "XRT API") ->
  XRTAPIRequest._build_payload request = Ok swiftreq ->
  UVOTXRTAPI.submit request kwargs w
  = (UVOTXRTAPI.submit_xrt request;;
     UVOTXRTAPI.push_refresh request kwargs;; UVOTXRTAPI.send_notification request) w.
Proof.
  intros Htype Hbuild.
  apply xrt_build_needs_credentials, dict_is_empty_false in Hbuild.
  now rewrite (submit_dispatch request kwargs w _ Hbuild Htype).
Qed.

(** The part of C2 that the code does: when the body of the reply parses,
    the status follows the status code and the [OK] flag. *)
Lemma submit_xrt_parsed_reply `{Env} (request : FollowupRequest) (kwargs : gmap string pyval)
    (w : World) swiftreq reply returnedData :
  payload request !! "request_type" = Some (PStr "XRT API") ->
  XRTAPIRequest._build_payload request = Ok swiftreq ->
  http_post XRT_URL (JsonBody (xrt_JSONDict swiftreq)) = Some reply ->
  json_loads (text reply) = Some returnedData ->
  let w' := (UVOTXRTAPI.submit request kwargs w).2 in
  (status_code reply ≠ 200 -> w_status w' = "rejected: " +:+ reason reply)
  /\ (forall OK ERROR listErr,
        status_code reply = 200 ->
        py_getitem returnedData "OK" = Ok OK -> py_eq_zero OK = true ->
        py_getitem returnedData "ERROR" = Ok ERROR ->
        py_getitem returnedData "listErr" = Ok listErr ->
        w_status w' = "rejected: (" +:+ py_repr ERROR +:+ ", " +:+ py_repr listErr +:+ ")")
  /\ (forall OK,
        status_code reply = 200 ->
        py_getitem returnedData "OK" = Ok OK -> py_eq_zero OK = false ->
        w_status w' = "submitted").
Proof.
  intros Htype Hbuild Hpost Hjson w'. subst w'.
  rewrite (submit_xrt_whole request kwargs w swiftreq Htype Hbuild).
  pose proof (then_epilogue (UVOTXRTAPI.submit_xrt request) request kwargs w) as Hseq.
  simpl in Hseq. rewrite (submit_xrt_run request w swiftreq reply Hbuild Hpost), Hjson in Hseq.
  assert (Hgo : forall status, UVOTXRTAPI.xrt_status reply returnedData = Ok status ->
                w_status ((UVOTXRTAPI.submit_xrt request;;
                           UVOTXRTAPI.push_refresh request kwargs;;
                           UVOTXRTAPI.send_notification request) w).2 = status).
  { intros status Hst. rewrite Hst in Hseq. destruct Hseq as (_ & Hs & _). exact Hs. }
  repeat split.
  - intros Hcode. apply Hgo. unfold UVOTXRTAPI.xrt_status.
    apply Z.eqb_neq in Hcode. now rewrite Hcode.
  - intros OK ERROR listErr Hcode HOK Hzero HERR Hlist. apply Hgo.
    unfold UVOTXRTAPI.xrt_status. rewrite Hcode, HOK. simpl.
    rewrite Hzero, HERR. simpl. now rewrite Hlist.
  - intros OK Hcode HOK Hzero. apply Hgo.
    unfold UVOTXRTAPI.xrt_status. rewrite Hcode, HOK. simpl. now rewrite Hzero.
Qed.

(** C2, where the code departs from it.  [submit] parses the body of the
    reply before it looks at the status code: when the reply has a status
    code other than 200 and a body that is not JSON, the call raises
    [JSONDecodeError]; the status is not assigned (it does not become
    ["rejected: <reason>"]) and no transaction is added, although the
    exchange took place. *)
Theorem submit_xrt_unparsable_reply `{Env} (request : FollowupRequest)
    (kwargs : gmap string pyval) (w : World) swiftreq reply :
  payload request !! "request_type" = Some (PStr "XRT API") ->
  XRTAPIRequest._build_payload request = Ok swiftreq ->
  http_post XRT_URL (JsonBody (xrt_JSONDict swiftreq)) = Some reply ->
  status_code reply ≠ 200 ->
  json_loads (text reply) = None ->
  let sent := {| pr_url := XRT_URL; pr_body := JsonBody (xrt_JSONDict swiftreq) |} in
  UVOTXRTAPI.submit request kwargs w
  = (Raise (PyError CJSONDecodeError "json.loads"), with_http sent w)
  /\ w_status (with_http sent w) = w_status w
  /\ w_transactions (with_http sent w) = w_transactions w
  /\ w_http (with_http sent w) = w_http w ++ [sent].
Proof.
  intros Htype Hbuild Hpost _ Hjson sent.
  rewrite (submit_xrt_whole request kwargs w swiftreq Htype Hbuild).
  pose proof (then_epilogue (UVOTXRTAPI.submit_xrt request) request kwargs w) as Hseq.
  simpl in Hseq. rewrite (submit_xrt_run request w swiftreq reply Hbuild Hpost), Hjson in Hseq.
  rewrite Hseq. auto.
Qed.

Lemma submit_xrt_unparsable_reply_witness :
  let E := mock reply_500 [] true in
  let request := request_with credentials xrt_payload in
  exists sent,
    UVOTXRTAPI.submit request ∅ empty_world
    = (Raise (PyError CJSONDecodeError "json.loads"), with_http sent empty_world)
    /\ w_status (with_http sent empty_world) = "pending submission"
    /\ w_transactions (with_http sent empty_world) = []
    /\ w_http (with_http sent empty_world) = [] ++ [sent].
Proof.
  intros E request. eexists.
  eapply (@submit_xrt_unparsable_reply E request ∅ empty_world _ reply_500).
  - vm_compute. reflexivity.
  - vm_compute. reflexivity.
  - reflexivity.
  - discriminate.
  - reflexivity.
Defined.

Lemma branch_then_epilogue_not_invalid `{Env} (c : M unit) (request : FollowupRequest)
    (kwargs : gmap string pyval) (w : World) :
  (forall e, (c w).1 = Raise e -> e ≠ invalid_type) ->
  ((c;; UVOTXRTAPI.push_refresh request kwargs;; UVOTXRTAPI.send_notification request) w).1
  ≠ Raise invalid_type.
Proof.
  intros Hc. pose proof (then_epilogue c request kwargs w) as Hseq. simpl in Hseq.
  destruct (c w) as [[[]|e] w1]; simpl in *.
  - destruct Hseq as (-> & _). discriminate.
  - rewrite Hseq. simpl. intros [= ->]. now apply (Hc invalid_type).
Qed.

(** C3, as the code has it.  With credentials in the allocation: a payload
    without [request_type] makes [submit] fail with a [KeyError] (the lookup
    itself), not with a validation error; a [request_type] that is none of
    the three values makes it fail with the [ValueError] "Invalid request
    type."; in both cases nothing is written.  For each of the three values
    [submit] runs the branch of that type, which starts with the builder of
    that type, and does not raise that [ValueError]. *)
Theorem submit_routes_on_request_type `{Env} (request : FollowupRequest)
    (kwargs : gmap string pyval) (w : World) :
  altdata (allocation request) ≠ ∅ ->
  (payload request !! "request_type" = None ->
     UVOTXRTAPI.submit request kwargs w = (Raise (KeyError "request_type"), w)
     /\ is_ValueError (KeyError "request_type") = false)
  /\ (forall v, payload request !! "request_type" = Some v ->
        v ≠ PStr "XRT/UVOT ToO" -> v ≠ PStr "XRT API" -> v ≠ PStr "XRT/UVOT/BAT Data" ->
        UVOTXRTAPI.submit request kwargs w = (Raise (ValueError "Invalid request type."), w)
        /\ is_ValueError (ValueError "Invalid request type.") = true)
  /\ (payload request !! "request_type" = Some (PStr "XRT/UVOT ToO") ->
        UVOTXRTAPI.submit request kwargs w
        = (UVOTXRTAPI.submit_too request;;
           UVOTXRTAPI.push_refresh request kwargs;; UVOTXRTAPI.send_notification request) w
        /\ (forall e, UVOTXRTRequest._build_payload request = Raise e ->
                      UVOTXRTAPI.submit request kwargs w = (Raise e, w))
        /\ (UVOTXRTAPI.submit request kwargs w).1 ≠ Raise (ValueError "Invalid request type."))
  /\ (payload request !! "request_type" = Some (PStr "XRT API") ->
        UVOTXRTAPI.submit request kwargs w
        = (UVOTXRTAPI.submit_xrt request;;
           UVOTXRTAPI.push_refresh request kwargs;; UVOTXRTAPI.send_notification request) w
        /\ (forall e, XRTAPIRequest._build_payload request = Raise e ->
                      UVOTXRTAPI.submit request kwargs w = (Raise e, w))
        /\ (UVOTXRTAPI.submit request kwargs w).1 ≠ Raise (ValueError "Invalid request type."))
  /\ (payload request !! "request_type" = Some (PStr "XRT/UVOT/BAT Data") ->
        UVOTXRTAPI.submit request kwargs w
        = (UVOTXRTAPI.submit_data request;;
           UVOTXRTAPI.push_refresh request kwargs;; UVOTXRTAPI.send_notification request) w
        /\ (forall e w1, UVOTXRTBATDataRequest._build_payload request w = (Raise e, w1) ->
                         UVOTXRTAPI.submit request kwargs w = (Raise e, w1))
        /\ (UVOTXRTAPI.submit request kwargs w).1 ≠ Raise (ValueError "Invalid request type.")).
Proof.
  intros Hcred.
  assert (Hgo : forall v, payload request !! "request_type" = Some v ->
                UVOTXRTAPI.submit request kwargs w = _)
    by (intros v Hv; exact (submit_dispatch request kwargs w v Hcred Hv)).
  split; [|split; [|split; [|split]]].
  - intros Hnone. split; [|reflexivity].
    unfold UVOTXRTAPI.submit. apply dict_is_empty_false in Hcred. rewrite Hcred.
    rewrite (getitem_None _ _ Hnone). reflexivity.
  - intros v Hv Htoo Hxrt Hdata. split; [|reflexivity]. rewrite (Hgo v Hv).
    apply py_eq_str_false in Htoo, Hxrt, Hdata. rewrite Htoo, Hxrt, Hdata. reflexivity.
  - intros Hv. rewrite (Hgo _ Hv). simpl py_eq_str. cbv iota.
    split; [reflexivity|]. split.
    + intros e He. rewrite bind_run. unfold UVOTXRTAPI.submit_too. rewrite bind_run.
      unfold lift. now rewrite He.
    + apply branch_then_epilogue_not_invalid. intros e He.
      destruct (submit_too_cases request w)
        as [(e' & w1 & Hrun & Hne & _) | (r & w1 & Hrun & _)];
        rewrite Hrun in He; simpl in He; congruence.
  - intros Hv. rewrite (Hgo _ Hv). simpl py_eq_str. cbv iota.
    split; [reflexivity|]. split.
    + intros e He. rewrite bind_run. unfold UVOTXRTAPI.submit_xrt. rewrite bind_run.
      unfold lift. now rewrite He.
    + apply branch_then_epilogue_not_invalid. intros e He.
      destruct (submit_xrt_cases request w)
        as [(e' & w1 & Hrun & Hne & _) | (r & d & w1 & Hrun & _)];
        rewrite Hrun in He; simpl in He; congruence.
  - intros Hv. rewrite (Hgo _ Hv). simpl py_eq_str. cbv iota.
    split; [reflexivity|]. split.
    + intros e w1 He. rewrite bind_run. unfold UVOTXRTAPI.submit_data. rewrite bind_run.
      now rewrite He.
    + apply branch_then_epilogue_not_invalid. intros e He.
      destruct (submit_data_cases request w)
        as (_ & [(e' & Hrun & Hne & _) | (s & e' & r & Hrun & _)]);
        rewrite Hrun in He; congruence.
Qed.

Lemma submit_routes_on_request_type_witness :
  let E := mock (reply_200 "ok") [] true in
  let bogus := request_with credentials (<["request_type" := PStr "XRT"]> too_payload) in
  let too := request_with credentials too_payload in
  (UVOTXRTAPI.submit bogus ∅ empty_world
   = (Raise (ValueError "Invalid request type."), empty_world)
   /\ is_ValueError (ValueError "Invalid request type.") = true)
  /\ (UVOTXRTAPI.submit too ∅ empty_world).1 ≠ Raise (ValueError "Invalid request type.").
Proof.
  intros E bogus too.
  assert (Hcred : altdata (allocation bogus) ≠ ∅).
  { apply dict_is_empty_false. vm_compute. reflexivity. }
  split.
  - apply (proj1 (proj2 (@submit_routes_on_request_type E bogus ∅ empty_world Hcred))
             (PStr "XRT")); [vm_compute; reflexivity | discriminate ..].
  - apply (proj1 (proj2 (proj2 (@submit_routes_on_request_type E too ∅ empty_world Hcred)))).
    vm_compute. reflexivity.
Defined.

(** C3 as it was stated fails on a payload without [request_type]: the
    allocation has credentials, and [submit] raises a [KeyError], which is
    not a [ValueError]. *)
Lemma submit_absent_request_type :
  let E := mock (reply_200 "ok") [] true in
  let request := request_with credentials (delete "request_type" too_payload) in
  payload request !! "request_type" = None
  /\ altdata (allocation request) !! "username" = Some (PStr "observer")
  /\ UVOTXRTAPI.submit request ∅ empty_world = (Raise (KeyError "request_type"), empty_world)
  /\ is_ValueError (KeyError "request_type") = false.
Proof. vm_compute. auto. Qed.

(** ** Building the ToO payload *)

Lemma setattr_lookup (o : gmap string pyval) name v : setattr o name v !! name = Some v.
Proof. apply lookup_insert_eq. Qed.

Lemma setattr_other (o : gmap string pyval) name v k :
  name ≠ k -> setattr o name v !! k = o !! k.
Proof. apply lookup_insert_ne. Qed.

Lemma set_urgency_Ok `{Env} (request : FollowupRequest) too too' :
  UVOTXRTRequest.set_urgency request too = Ok too' ->
  exists v n, payload request !! "urgency" = Some v /\ py_int v = Ok n
              /\ 0 <= n <= 4 /\ too' = setattr too "urgency" (PInt n).
Proof.
  unfold UVOTXRTRequest.set_urgency.
  destruct (getitem (payload request) "urgency" ≫= _) as [n|e] eqn:Hconv; [|discriminate].
  apply bind_Ok in Hconv. destruct Hconv as (v & Hv & Hn). apply getitem_Ok in Hv.
  destruct ((n <? 0) || (n >? 4)) eqn:Hrange; [discriminate|]. intros [= <-].
  exists v, n. repeat split; auto; lia.
Qed.

Lemma set_obs_type_Ok (request : FollowupRequest) too too' :
  UVOTXRTRequest.set_obs_type request too = Ok too' ->
  exists v, too' = setattr too "obs_type" v.
Proof.
  unfold UVOTXRTRequest.set_obs_type. intros Hb. apply bind_Ok in Hb.
  destruct Hb as (v & _ & Hv). destruct (negb _); [discriminate|].
  injection Hv as <-. eauto.
Qed.

Lemma set_uvot_mode_Ok (request : FollowupRequest) too too' k :
  UVOTXRTRequest.set_uvot_mode request too = Ok too' ->
  k ≠ "uvot_mode" -> k ≠ "science_just" -> k ≠ "uvot_just" ->
  too' !! k = too !! k.
Proof.
  unfold UVOTXRTRequest.set_uvot_mode. intros Hb Hk1 Hk2 Hk3.
  apply bind_Ok in Hb. destruct Hb as (v & _ & Hb).
  apply bind_Ok in Hb. destruct Hb as (i & _ & Hb).
  apply bind_Ok in Hb. destruct Hb as (key & _ & Hb).
  apply bind_Ok in Hb. destruct Hb as (sj & _ & Hb).
  destruct (negb (String.eqb key "0x9999")).
  - destruct (negb (py_truthy _)); [discriminate|]. injection Hb as <-.
    rewrite !setattr_other by congruence. reflexivity.
  - injection Hb as <-. rewrite !setattr_other by congruence. reflexivity.
Qed.

Lemma set_request_fields_monitoring `{Env} (request : FollowupRequest) too too' :
  UVOTXRTRequest.set_request_fields request too = Ok too' ->
  exists v days, payload request !! "monitoring_freq" = Some v /\ format_d v = Ok days
                 /\ too' !! "monitoring_freq" = Some (PStr (days +:+ " days")).
Proof.
  unfold UVOTXRTRequest.set_request_fields. intros Hb.
  apply bind_Ok in Hb. destruct Hb as (username & _ & Hb).
  apply bind_Ok in Hb. destruct Hb as (secret & _ & Hb).
  apply bind_Ok in Hb. destruct Hb as (source_type & _ & Hb).
  apply bind_Ok in Hb. destruct Hb as (exposure_time & _ & Hb).
  apply bind_Ok in Hb. destruct Hb as (v & Hv & Hb). apply getitem_Ok in Hv.
  apply bind_Ok in Hb. destruct Hb as (days & Hdays & Hb).
  apply bind_Ok in Hb. destruct Hb as (counts & _ & Hb).
  apply bind_Ok in Hb. destruct Hb as (visits & _ & Hb).
  apply bind_Ok in Hb. destruct Hb as (etj & _ & Hb).
  apply bind_Ok in Hb. destruct Hb as (io & _ & Hb).
  injection Hb as Hb. rewrite <- Hb. exists v, days. repeat split; auto.
  rewrite !setattr_other by discriminate. apply setattr_lookup.
Qed.

Lemma format_d_not_int v :
  py_is_int v = false -> exists c, format_d v = Raise (PyError c "format").
Proof. destruct v; simpl; try discriminate; eauto. Qed.

Lemma too_build_after_fields `{Env} (request : FollowupRequest) t1 :
  UVOTXRTRequest.set_request_fields request ∅ = Ok t1 ->
  UVOTXRTRequest._build_payload request
  = (too ← UVOTXRTRequest.set_urgency request t1;
     too ← UVOTXRTRequest.set_obs_type request too;
     UVOTXRTRequest.set_uvot_mode request too).
Proof. intros H1. unfold UVOTXRTRequest._build_payload. now rewrite H1. Qed.

Lemma index_from_None (t : list string) (v : pyval) (i : nat) :
  (forall label, In label t -> v ≠ PStr label) -> index_from t v i = None.
Proof.
  revert i. induction t as [|x t IH]; intros i Hnot; simpl; [reflexivity|].
  assert (Hx : py_eq_str v x = false).
  { apply py_eq_str_false. apply Hnot. now left. }
  rewrite Hx. apply IH. intros label Hin. apply Hnot. now right.
Qed.

(** Every label of the table is found, at the position of its key. *)
Lemma modes_lookup (key label : string) :
  In (key, label) modes ->
  tuple_index modes_values (PStr label) ≫= tuple_item modes_keys = Ok key.
Proof.
  unfold modes. simpl In. intros Hin.
  repeat (destruct Hin as [Hin | Hin]; [injection Hin as <- <-; reflexivity |]).
  destruct Hin.
Qed.

Lemma too_build_from_uvot `{Env} (request : FollowupRequest) :
  UVOTXRTRequest._build_payload request
  = (too ← before_uvot_mode request; UVOTXRTRequest.set_uvot_mode request too).
Proof.
  unfold UVOTXRTRequest._build_payload, before_uvot_mode.
  destruct (UVOTXRTRequest.set_request_fields request ∅) as [t1|]; [|reflexivity]. simpl.
  destruct (UVOTXRTRequest.set_urgency request t1) as [t2|]; reflexivity.
Qed.

Lemma set_uvot_mode_listed (request : FollowupRequest) too key label sj :
  In (key, label) modes ->
  payload request !! "uvot_mode" = Some (PStr label) ->
  payload request !! "science_just" = Some sj ->
  UVOTXRTRequest.set_uvot_mode request too
  = let too := setattr (setattr too "uvot_mode" (PStr key)) "science_just" sj in
    if negb (String.eqb key "0x9999") then
      let uvot_just := dict_get (payload request) "uvot_just" PNone in
      if negb (py_truthy uvot_just) then Raise uvot_just_required
      else Ok (setattr too "uvot_just" uvot_just)
    else Ok too.
Proof.
  intros Hin Hmode Hsj. unfold UVOTXRTRequest.set_uvot_mode.
  rewrite (getitem_Some _ _ _ Hmode). pose proof (modes_lookup key label Hin) as Hlook.
  unfold mbind, Result_bind in *.
  destruct (tuple_index modes_values (PStr label)) as [i|]; [|discriminate].
  rewrite Hlook. rewrite (getitem_Some _ _ _ Hsj). reflexivity.
Qed.

Lemma format_d_int v : py_is_int v = true -> exists days, format_d v = Ok days.
Proof. destruct v; simpl; try discriminate; eauto. Qed.

Lemma format_d_Ok v days : format_d v = Ok days -> py_is_int v = true.
Proof. destruct v; simpl; try discriminate; reflexivity. Qed.

Lemma set_obs_type_Ok_value (request : FollowupRequest) too too' :
  UVOTXRTRequest.set_obs_type request too = Ok too' ->
  exists v, payload request !! "obs_type" = Some v
            /\ py_in v ["Spectroscopy"; "Light Curve"; "Position"; "Timing"] = true
            /\ too' = setattr too "obs_type" v.
Proof.
  unfold UVOTXRTRequest.set_obs_type. intros Hb. apply bind_Ok in Hb.
  destruct Hb as (v & Hv & Hb). apply getitem_Ok in Hv.
  destruct (py_in v _) eqn:Hin; simpl in Hb; [|discriminate].
  injection Hb as <-. eauto.
Qed.

(** A value found in the table of labels is a label, and the key at its
    position is the key of that label. *)
Lemma modes_index_label (v : pyval) (i : nat) (key : string) :
  index_from modes_values v 0%nat = Some i ->
  tuple_item modes_keys i = Ok key ->
  exists label, In (key, label) modes /\ v = PStr label.
Proof.
  unfold modes_values, modes_keys, modes. cbn [map fst snd index_from].
  repeat match goal with
         | |- context [py_eq_str v ?l] =>
             let Heq := fresh "Heq" in
             destruct (py_eq_str v l) eqn:Heq;
             [ apply py_eq_str_true in Heq; intros [= <-] [= <-];
               exists l; split; [simpl; tauto | exact Heq]
             | clear Heq ]
         end.
  discriminate.
Qed.

Lemma set_uvot_mode_Ok_value (request : FollowupRequest) too too' :
  UVOTXRTRequest.set_uvot_mode request too = Ok too' ->
  exists key label science_just,
    In (key, label) modes /\ payload request !! "uvot_mode" = Some (PStr label)
    /\ payload request !! "science_just" = Some science_just
    /\ (key = "0x9999" \/ py_truthy (dict_get (payload request) "uvot_just" PNone) = true)
    /\ too' !! "uvot_mode" = Some (PStr key)
    /\ too' !! "science_just" = Some science_just
    /\ too' !! "uvot_just"
       = if String.eqb key "0x9999" then too !! "uvot_just"
         else Some (dict_get (payload request) "uvot_just" PNone).
Proof.
  unfold UVOTXRTRequest.set_uvot_mode. intros Hb.
  apply bind_Ok in Hb. destruct Hb as (v & Hv & Hb). apply getitem_Ok in Hv.
  apply bind_Ok in Hb. destruct Hb as (i & Hi & Hb).
  apply bind_Ok in Hb. destruct Hb as (key & Hkey & Hb).
  apply bind_Ok in Hb. destruct Hb as (sj & Hsj & Hb). apply getitem_Ok in Hsj.
  unfold tuple_index in Hi.
  destruct (index_from modes_values v 0%nat) as [i'|] eqn:Hidx; [|discriminate].
  injection Hi as ->.
  destruct (modes_index_label v i key Hidx Hkey) as (label & Hin & ->).
  exists key, label, sj.
  destruct (String.eqb key "0x9999") eqn:Hdef; simpl in Hb.
  - injection Hb as <-. apply String.eqb_eq in Hdef.
    repeat split; auto.
    + rewrite setattr_other by discriminate. apply setattr_lookup.
    + apply setattr_lookup.
    + rewrite !setattr_other by discriminate. reflexivity.
  - destruct (py_truthy _) eqn:Htruthy; simpl in Hb; [|discriminate].
    injection Hb as <-. repeat split; auto.
    + rewrite !setattr_other by discriminate. apply setattr_lookup.
    + rewrite setattr_other by discriminate. apply setattr_lookup.
    + apply setattr_lookup.
Qed.

Lemma set_request_fields_Ok `{Env} (request : FollowupRequest) t1 :
  UVOTXRTRequest.set_request_fields request ∅ = Ok t1 ->
  let a := altdata (allocation request) in
  let p := payload request in
  (is_Some (a !! "username") /\ t1 !! "username" = a !! "username")
  /\ (is_Some (a !! "secret") /\ t1 !! "shared_secret" = a !! "secret")
  /\ t1 !! "source_name" = Some (PStr (obj_id (obj request)))
  /\ t1 !! "ra" = Some (obj_ra (obj request))
  /\ t1 !! "dec" = Some (obj_dec (obj request))
  /\ (is_Some (p !! "source_type") /\ t1 !! "source_type" = p !! "source_type")
  /\ (is_Some (p !! "exposure_time") /\ t1 !! "exp_time_per_visit" = p !! "exposure_time")
  /\ (exists v, p !! "monitoring_freq" = Some v /\ py_is_int v = true)
  /\ (exists v k, p !! "exposure_counts" = Some v /\ py_int v = Ok k
                  /\ t1 !! "num_of_visits" = Some (PInt k))
  /\ t1 !! "opt_mag" = Some (dict_get p "opt_mag" PNone)
  /\ t1 !! "opt_filt" = Some (dict_get p "opt_filt" PNone)
  /\ t1 !! "xrt_countrate" = Some (dict_get p "xrt_countrate" PNone)
  /\ (is_Some (p !! "exp_time_just") /\ t1 !! "exp_time_just" = p !! "exp_time_just")
  /\ (is_Some (p !! "immediate_objective")
      /\ t1 !! "immediate_objective" = p !! "immediate_objective")
  /\ t1 !! "uvot_just" = None.
Proof.
  unfold UVOTXRTRequest.set_request_fields. intros Hb.
  apply bind_Ok in Hb. destruct Hb as (username & Hu & Hb). apply getitem_Ok in Hu.
  apply bind_Ok in Hb. destruct Hb as (secret & Hs & Hb). apply getitem_Ok in Hs.
  apply bind_Ok in Hb. destruct Hb as (source_type & Hst & Hb). apply getitem_Ok in Hst.
  apply bind_Ok in Hb. destruct Hb as (exposure_time & Het & Hb). apply getitem_Ok in Het.
  apply bind_Ok in Hb. destruct Hb as (mf & Hmf & Hb). apply getitem_Ok in Hmf.
  apply bind_Ok in Hb. destruct Hb as (days & Hdays & Hb). apply format_d_Ok in Hdays.
  apply bind_Ok in Hb. destruct Hb as (counts & Hc & Hb). apply getitem_Ok in Hc.
  apply bind_Ok in Hb. destruct Hb as (visits & Hv & Hb).
  apply bind_Ok in Hb. destruct Hb as (etj & Hetj & Hb). apply getitem_Ok in Hetj.
  apply bind_Ok in Hb. destruct Hb as (io & Hio & Hb). apply getitem_Ok in Hio.
  injection Hb as Hb. rewrite <- Hb. cbv zeta.
  rewrite Hu, Hs, Hst, Het, Hetj, Hio.
  repeat match goal with
         | |- _ /\ _ => split
         | |- is_Some (Some _) => eexists; reflexivity
         | |- exists v, payload request !! "monitoring_freq" = Some v /\ _ =>
             exists mf; split; [exact Hmf | exact Hdays]
         | |- exists v k, _ => exists counts, visits; split; [exact Hc | split; [exact Hv|]]
         | |- setattr _ ?k _ !! ?k = _ => apply setattr_lookup
         | |- setattr _ _ _ !! _ = _ => rewrite setattr_other by discriminate
         | |- _ !! _ = None => apply lookup_empty
         end.
Qed.

Lemma too_accepted_builds `{Env} (request : FollowupRequest) :
  too_accepted request -> raised (UVOTXRTRequest._build_payload request) = false.
Proof.
  unfold too_accepted. cbv zeta.
  intros ([u Hu] & [s Hs] & [st Hst] & [et Het] & (mf & Hmf & Hint) & (ec & k & Hec & Hk)
          & [etj Hetj] & [io Hio] & (uv & n & Huv & Hn & Hrange) & (ot & Hot & Hin)
          & (key & label & Hmode & Hlabel & [sj Hsj] & Hjust)).
  destruct (format_d_int mf Hint) as (days & Hdays).
  unfold UVOTXRTRequest._build_payload.
  assert (H1 : exists t1, UVOTXRTRequest.set_request_fields request ∅ = Ok t1).
  { unfold UVOTXRTRequest.set_request_fields.
    rewrite (getitem_Some _ _ _ Hu), (getitem_Some _ _ _ Hs), (getitem_Some _ _ _ Hst),
      (getitem_Some _ _ _ Het), (getitem_Some _ _ _ Hmf), (getitem_Some _ _ _ Hec),
      (getitem_Some _ _ _ Hetj), (getitem_Some _ _ _ Hio).
    unfold mbind, Result_bind. rewrite Hdays, Hk. eauto. }
  destruct H1 as (t1 & ->). cbn [mbind Result_bind].
  assert (H2 : UVOTXRTRequest.set_urgency request t1 = Ok (setattr t1 "urgency" (PInt n))).
  { unfold UVOTXRTRequest.set_urgency. rewrite (getitem_Some _ _ _ Huv).
    cbn [mbind Result_bind]. rewrite Hn.
    assert (Hin_range : (n <? 0) || (n >? 4) = false) by (apply orb_false_iff; lia).
    now rewrite Hin_range. }
  rewrite H2. cbn [mbind Result_bind].
  assert (H3 : UVOTXRTRequest.set_obs_type request (setattr t1 "urgency" (PInt n))
               = Ok (setattr (setattr t1 "urgency" (PInt n)) "obs_type" ot)).
  { unfold UVOTXRTRequest.set_obs_type. rewrite (getitem_Some _ _ _ Hot).
    cbn [mbind Result_bind]. now rewrite Hin. }
  rewrite H3. cbn [mbind Result_bind].
  rewrite (set_uvot_mode_listed request _ key label sj Hmode Hlabel Hsj). cbv zeta.
  destruct (String.eqb key "0x9999") eqn:Hdef; [reflexivity|].
  destruct Hjust as [-> | ->]; [discriminate | reflexivity].
Qed.

(** The other direction: what a build that succeeds has found. *)
Lemma too_build_accepts `{Env} (request : FollowupRequest) :
  raised (UVOTXRTRequest._build_payload request) = false -> too_accepted request.
Proof.
  destruct (UVOTXRTRequest._build_payload request) as [too|] eqn:Hb; [|discriminate].
  intros _. apply too_build_Ok in Hb. destruct Hb as (t1 & t2 & t3 & H1 & H2 & H3 & H4).
  apply set_request_fields_Ok in H1. cbv zeta in H1.
  destruct H1 as ((Hu & _) & (Hs & _) & _ & _ & _ & (Hst & _) & (Het & _) & Hmf
                  & (ec & k & Hec & Hk & _) & _ & _ & _ & (Hetj & _) & (Hio & _) & _).
  apply set_urgency_Ok in H2. destruct H2 as (uv & n & Huv & Hn & Hrange & _).
  apply set_obs_type_Ok_value in H3. destruct H3 as (ot & Hot & Hin & _).
  apply set_uvot_mode_Ok_value in H4.
  destruct H4 as (key & label & sj & Hmode & Hlabel & Hsj & Hjust & _).
  unfold too_accepted. cbv zeta.
  repeat split; eauto 10.
Qed.

(** Acceptance looks at the payload key by key: a request that is accepted
    stays accepted when one key gets a value that this key's own check
    admits. *)
Lemma too_accepted_with `{Env} (request : FollowupRequest) (key : string) (v : pyval) :
  too_accepted request ->
  (key = "monitoring_freq" /\ py_is_int v = true)
  \/ (key = "exposure_counts" /\ exists k, py_int v = Ok k)
  \/ (key = "urgency" /\ exists n, py_int v = Ok n /\ 0 <= n <= 4) ->
  too_accepted (with_payload request (<[key := v]> (payload request))).
Proof.
  unfold too_accepted. cbv zeta. unfold with_payload, dict_get. cbn [payload allocation].
  intros (Hu & Hs & Hst & Het & (mf & Hmf & Hint) & (ec & k & Hec & Hk) & Hetj & Hio
          & (uv & m & Huv & Hm & Hr) & (ot & Hot & Hin)
          & (mode & label & Hmode & Hlabel & Hsj & Hjust)) Hkey.
  assert (Hne : forall k', key ≠ k' -> <[key := v]> (payload request) !! k' = payload request !! k').
  { intros k' Hk'. now apply lookup_insert_ne. }
  assert (Heq : <[key := v]> (payload request) !! key = Some v) by apply lookup_insert_eq.
  destruct Hkey as [(-> & Hv) | [(-> & (k0 & Hv)) | (-> & (n & Hv & Hn))]].
  - split; [exact Hu|]. split; [exact Hs|].
    split; [rewrite Hne by discriminate; exact Hst|].
    split; [rewrite Hne by discriminate; exact Het|].
    split; [exists v; auto|].
    split; [exists ec, k; rewrite Hne by discriminate; auto|].
    split; [rewrite Hne by discriminate; exact Hetj|].
    split; [rewrite Hne by discriminate; exact Hio|].
    split; [exists uv, m; rewrite Hne by discriminate; auto|].
    split; [exists ot; rewrite Hne by discriminate; auto|].
    exists mode, label. rewrite !Hne by discriminate. auto.
  - split; [exact Hu|]. split; [exact Hs|].
    split; [rewrite Hne by discriminate; exact Hst|].
    split; [rewrite Hne by discriminate; exact Het|].
    split; [exists mf; rewrite Hne by discriminate; auto|].
    split; [exists v, k0; auto|].
    split; [rewrite Hne by discriminate; exact Hetj|].
    split; [rewrite Hne by discriminate; exact Hio|].
    split; [exists uv, m; rewrite Hne by discriminate; auto|].
    split; [exists ot; rewrite Hne by discriminate; auto|].
    exists mode, label. rewrite !Hne by discriminate. auto.
  - split; [exact Hu|]. split; [exact Hs|].
    split; [rewrite Hne by discriminate; exact Hst|].
    split; [rewrite Hne by discriminate; exact Het|].
    split; [exists mf; rewrite Hne by discriminate; auto|].
    split; [exists ec, k; rewrite Hne by discriminate; auto|].
    split; [rewrite Hne by discriminate; exact Hetj|].
    split; [rewrite Hne by discriminate; exact Hio|].
    split; [exists v, n; auto|].
    split; [exists ot; rewrite Hne by discriminate; auto|].
    exists mode, label. rewrite !Hne by discriminate. auto.
Qed.

(** The monitoring frequency and the urgency of a payload that is built. *)
Lemma too_build_monitoring `{Env} (request : FollowupRequest) too :
  UVOTXRTRequest._build_payload request = Ok too ->
  exists v days, payload request !! "monitoring_freq" = Some v /\ format_d v = Ok days
                 /\ too !! "monitoring_freq" = Some (PStr (days +:+ " days")).
Proof.
  intros Hb. apply too_build_Ok in Hb. destruct Hb as (t1 & t2 & t3 & H1 & H2 & H3 & H4).
  apply set_request_fields_monitoring in H1. destruct H1 as (v & days & Hv & Hd & Hm).
  apply set_urgency_Ok in H2. destruct H2 as (u & k & _ & _ & _ & ->).
  apply set_obs_type_Ok in H3. destruct H3 as (o & ->).
  exists v, days. repeat split; auto.
  rewrite (set_uvot_mode_Ok _ _ _ "monitoring_freq" H4) by discriminate.
  rewrite !setattr_other by discriminate. exact Hm.
Qed.

Lemma too_build_urgency `{Env} (request : FollowupRequest) too :
  UVOTXRTRequest._build_payload request = Ok too ->
  exists v n, payload request !! "urgency" = Some v /\ py_int v = Ok n
              /\ too !! "urgency" = Some (PInt n) /\ 0 <= n <= 4.
Proof.
  intros Hb. apply too_build_Ok in Hb. destruct Hb as (t1 & t2 & t3 & H1 & H2 & H3 & H4).
  apply set_urgency_Ok in H2. destruct H2 as (v & n & Hv & Hn & Hrange & ->).
  apply set_obs_type_Ok in H3. destruct H3 as (o & ->).
  exists v, n. repeat split; auto; try lia.
  rewrite (set_uvot_mode_Ok _ _ _ "urgency" H4) by discriminate.
  rewrite setattr_other by discriminate. apply setattr_lookup.
Qed.

(** A build raises as soon as one of its blocks does. *)
Lemma too_build_raised_urgency `{Env} (request : FollowupRequest) :
  (forall t1, raised (UVOTXRTRequest.set_urgency request t1) = true) ->
  raised (UVOTXRTRequest._build_payload request) = true.
Proof.
  intros Hu. unfold UVOTXRTRequest._build_payload.
  destruct (UVOTXRTRequest.set_request_fields request ∅) as [t1|]; [|reflexivity].
  cbn [mbind Result_bind]. specialize (Hu t1).
  destruct (UVOTXRTRequest.set_urgency request t1); [discriminate | reflexivity].
Qed.

Lemma too_build_raised_uvot_mode `{Env} (request : FollowupRequest) :
  (forall t3, raised (UVOTXRTRequest.set_uvot_mode request t3) = true) ->
  raised (UVOTXRTRequest._build_payload request) = true.
Proof.
  intros Hu. rewrite too_build_from_uvot.
  destruct (before_uvot_mode request) as [t3|]; [|reflexivity].
  cbn [mbind Result_bind]. apply Hu.
Qed.

(** C10.  The monitoring frequency goes through the integer format [:d].
    For every value that is not an [int], the build raises; when the four
    attributes assigned before it are there, what is raised is the exception
    of the format itself.  For every integer [n], a payload that is built
    has the monitoring frequency ["n days"]; and payloads with an integer
    are built: in a request that the builder accepts, any integer [n] can be
    put as [monitoring_freq], and the build succeeds with ["n days"]. *)
Theorem monitoring_freq_integer_format `{Env} (request : FollowupRequest) :
  (forall v,
     payload request !! "monitoring_freq" = Some v -> py_is_int v = false ->
     raised (UVOTXRTRequest._build_payload request) = true
     /\ (is_Some (altdata (allocation request) !! "username") ->
         is_Some (altdata (allocation request) !! "secret") ->
         is_Some (payload request !! "source_type") ->
         is_Some (payload request !! "exposure_time") ->
         exists c, UVOTXRTRequest._build_payload request = Raise (PyError c "format")))
  /\ (forall n too,
        payload request !! "monitoring_freq" = Some (PInt n) ->
        UVOTXRTRequest._build_payload request = Ok too ->
        too !! "monitoring_freq" = Some (PStr (pretty n +:+ " days")))
  /\ (forall n,
        too_accepted request ->
        exists too,
          UVOTXRTRequest._build_payload
            (with_payload request (<["monitoring_freq" := PInt n]> (payload request))) = Ok too
          /\ too !! "monitoring_freq" = Some (PStr (pretty n +:+ " days"))).
Proof.
  split; [|split].
  - intros v Hv Hint. split.
    + destruct (UVOTXRTRequest._build_payload request) as [too|e] eqn:Hb; [|reflexivity].
      apply too_build_monitoring in Hb. destruct Hb as (v' & days & Hv' & Hd & _).
      rewrite Hv in Hv'. injection Hv' as <-. destruct v; simpl in *; discriminate.
    + intros [u Hu] [s Hs] [st Hst] [et Het].
      unfold UVOTXRTRequest._build_payload, UVOTXRTRequest.set_request_fields.
      rewrite (getitem_Some _ _ _ Hu), (getitem_Some _ _ _ Hs), (getitem_Some _ _ _ Hst),
        (getitem_Some _ _ _ Het), (getitem_Some _ _ _ Hv).
      destruct (format_d_not_int v Hint) as (c & Hc). exists c.
      unfold mbind, Result_bind. rewrite Hc. reflexivity.
  - intros n too Hv Hb.
    apply too_build_monitoring in Hb. destruct Hb as (v' & days & Hv' & Hd & Hm).
    rewrite Hv in Hv'. injection Hv' as <-. simpl in Hd. injection Hd as <-. exact Hm.
  - intros n Hacc.
    assert (Hacc' : too_accepted
                      (with_payload request (<["monitoring_freq" := PInt n]> (payload request)))).
    { apply too_accepted_with; [exact Hacc | left; auto]. }
    apply too_accepted_builds in Hacc'.
    destruct (UVOTXRTRequest._build_payload _) as [too|] eqn:Hb; [|discriminate].
    exists too. split; [reflexivity|].
    apply too_build_monitoring in Hb. destruct Hb as (v' & days & Hv' & Hd & Hm).
    unfold with_payload in Hv'. cbn [payload] in Hv'. rewrite lookup_insert_eq in Hv'.
    injection Hv' as <-. simpl in Hd. injection Hd as <-. exact Hm.
Qed.

(** The request of the examples is one that the ToO builder accepts. *)
Lemma too_payload_accepted :
  let E := mock (reply_200 "ok") [] true in
  too_accepted (request_with credentials too_payload).
Proof.
  intros E. unfold too_accepted. cbv zeta.
  repeat match goal with
         | |- _ /\ _ => split
         | |- is_Some _ => eexists; vm_compute; reflexivity
         end.
  - exists (PInt 1). split; vm_compute; reflexivity.
  - exists (PInt 1), 1. split; vm_compute; reflexivity.
  - exists (PStr "2"), 2. split; [vm_compute; reflexivity|]. split; [vm_compute; reflexivity | lia].
  - exists (PStr "Position"). split; vm_compute; reflexivity.
  - exists "0x9999", "0x9999 - Default (Filter of the day)".
    split; [unfold modes; simpl; tauto|]. split; [vm_compute; reflexivity|].
    split; [eexists; vm_compute; reflexivity | now left].
Qed.

Lemma monitoring_freq_integer_format_witness :
  let E := mock (reply_200 "ok") [] true in
  let fractional :=
    request_with credentials (<["monitoring_freq" := PFloat (FFin 3 (-1))]> too_payload) in
  let whole := with_payload (request_with credentials too_payload)
                            (<["monitoring_freq" := PInt 3]> too_payload) in
  (exists c, UVOTXRTRequest._build_payload fractional = Raise (PyError c "format"))
  /\ (exists too, UVOTXRTRequest._build_payload whole = Ok too
                  /\ too !! "monitoring_freq" = Some (PStr (pretty 3 +:+ " days"))).
Proof.
  intros E fractional whole. split.
  - apply (proj1 (@monitoring_freq_integer_format E fractional) (PFloat (FFin 3 (-1))));
      try reflexivity; try (vm_compute; reflexivity); eexists; vm_compute; reflexivity.
  - apply (proj2 (proj2 (@monitoring_freq_integer_format E
                           (request_with credentials too_payload))) 3).
    exact too_payload_accepted.
Defined.

Example monitoring_freq_three_days :
  let E := mock (reply_200 "ok") [] true in
  (UVOTXRTRequest._build_payload
     (request_with credentials (<["monitoring_freq" := PInt 3]> too_payload)))
    ≫= (fun too => Ok (too !! "monitoring_freq"))
  = Ok (Some (PStr "3 days")).
Proof. vm_compute. reflexivity. Qed.

(** C5, as the code has it.  A payload that is built has as its urgency the
    integer that [int()] makes of the payload's [urgency], and that integer
    is one of 0, 1, 2, 3, 4; each of the five is accepted: in a request that
    the builder accepts, any value that [int()] converts to one of them can
    be put as [urgency], and the build succeeds with that integer.  For
    every urgency that is absent, that [int()] does not convert, or whose
    integer is below 0 or above 4, the build fails; it fails with a
    [ValueError] when the attributes before the urgency are assigned, and
    with the error of the first of them that is not, which need not be a
    [ValueError], otherwise. *)
Theorem urgency_converted_and_checked `{Env} (request : FollowupRequest) :
  let build := UVOTXRTRequest._build_payload request in
  let reached := raised (UVOTXRTRequest.set_request_fields request ∅) = false in
  (forall too,
     build = Ok too ->
     exists v n, payload request !! "urgency" = Some v /\ py_int v = Ok n
                 /\ too !! "urgency" = Some (PInt n) /\ 0 <= n <= 4)
  /\ (forall v n,
        too_accepted request -> py_int v = Ok n -> 0 <= n <= 4 ->
        exists too,
          UVOTXRTRequest._build_payload
            (with_payload request (<["urgency" := v]> (payload request))) = Ok too
          /\ too !! "urgency" = Some (PInt n))
  /\ (payload request !! "urgency" = None ->
        raised build = true
        /\ (reached ->
            build = Raise (ValueError ("Could not convert urgency to a valid integer: "
                                       +:+ exn_str (KeyError "urgency")))))
  /\ (forall v e,
        payload request !! "urgency" = Some v -> py_int v = Raise e ->
        raised build = true
        /\ (reached ->
            build = Raise (ValueError ("Could not convert urgency to a valid integer: "
                                       +:+ exn_str e))))
  /\ (forall v n,
        payload request !! "urgency" = Some v -> py_int v = Ok n ->
        n < 0 \/ 4 < n ->
        raised build = true
        /\ (reached ->
            build = Raise (ValueError ("urgency must be one of 0, 1, 2, 3, or 4, and not: "
                                       +:+ pretty n)))).
Proof.
  intros build reached. subst build reached.
  assert (Hafter : raised (UVOTXRTRequest.set_request_fields request ∅) = false ->
                   exists t1, UVOTXRTRequest._build_payload request
                              = (too ← UVOTXRTRequest.set_urgency request t1;
                                 too ← UVOTXRTRequest.set_obs_type request too;
                                 UVOTXRTRequest.set_uvot_mode request too)).
  { destruct (UVOTXRTRequest.set_request_fields request ∅) as [t1|] eqn:H1; [|discriminate].
    intros _. exists t1. now apply too_build_after_fields. }
  split; [|split; [|split; [|split]]].
  - intros too. apply too_build_urgency.
  - intros v n Hacc Hn Hrange. clear Hafter.
    assert (Hacc' : too_accepted (with_payload request (<["urgency" := v]> (payload request)))).
    { apply too_accepted_with; [exact Hacc | right; right; eauto]. }
    apply too_accepted_builds in Hacc'.
    destruct (UVOTXRTRequest._build_payload _) as [too|] eqn:Hb; [|discriminate].
    exists too. split; [reflexivity|].
    apply too_build_urgency in Hb. destruct Hb as (v' & n' & Hv' & Hn' & Hu & _).
    unfold with_payload in Hv'. cbn [payload] in Hv'. rewrite lookup_insert_eq in Hv'.
    injection Hv' as <-. rewrite Hn in Hn'. injection Hn' as <-. exact Hu.
  - intros Hnone. split.
    + apply too_build_raised_urgency. intros t1. unfold UVOTXRTRequest.set_urgency.
      now rewrite (getitem_None _ _ Hnone).
    + intros Hreach. destruct (Hafter Hreach) as (t1 & ->).
      unfold UVOTXRTRequest.set_urgency. now rewrite (getitem_None _ _ Hnone).
  - intros v e Hv He. split.
    + apply too_build_raised_urgency. intros t1. unfold UVOTXRTRequest.set_urgency.
      rewrite (getitem_Some _ _ _ Hv). cbn [mbind Result_bind]. now rewrite He.
    + intros Hreach. destruct (Hafter Hreach) as (t1 & ->).
      unfold UVOTXRTRequest.set_urgency.
      rewrite (getitem_Some _ _ _ Hv). cbn [mbind Result_bind]. now rewrite He.
  - intros v n Hv Hn Hrange.
    assert (Hout : (n <? 0) || (n >? 4) = true).
    { apply orb_true_iff. destruct Hrange; [left | right]; lia. }
    split.
    + apply too_build_raised_urgency. intros t1. unfold UVOTXRTRequest.set_urgency.
      rewrite (getitem_Some _ _ _ Hv). cbn [mbind Result_bind]. now rewrite Hn, Hout.
    + intros Hreach. destruct (Hafter Hreach) as (t1 & ->).
      unfold UVOTXRTRequest.set_urgency.
      rewrite (getitem_Some _ _ _ Hv). cbn [mbind Result_bind]. now rewrite Hn, Hout.
Qed.

Lemma urgency_converted_and_checked_witness :
  let E := mock (reply_200 "ok") [] true in
  let seven := request_with credentials (<["urgency" := PStr "7"]> too_payload) in
  let soon := request_with credentials (<["urgency" := PStr "soon"]> too_payload) in
  let four := with_payload (request_with credentials too_payload)
                           (<["urgency" := PStr "4"]> too_payload) in
  let zero := with_payload (request_with credentials too_payload)
                           (<["urgency" := PInt 0]> too_payload) in
  UVOTXRTRequest._build_payload seven
  = Raise (ValueError ("urgency must be one of 0, 1, 2, 3, or 4, and not: " +:+ pretty 7))
  /\ UVOTXRTRequest._build_payload soon
     = Raise (ValueError ("Could not convert urgency to a valid integer: "
                          +:+ exn_str (PyError CValueError "int")))
  /\ (exists too, UVOTXRTRequest._build_payload four = Ok too
                  /\ too !! "urgency" = Some (PInt 4))
  /\ (exists too, UVOTXRTRequest._build_payload zero = Ok too
                  /\ too !! "urgency" = Some (PInt 0)).
Proof.
  intros E seven soon four zero.
  pose proof (@urgency_converted_and_checked E seven) as H7.
  pose proof (@urgency_converted_and_checked E soon) as Hs.
  pose proof (@urgency_converted_and_checked E (request_with credentials too_payload)) as H2.
  cbv zeta in H7, Hs, H2.
  split; [|split; [|split]].
  - apply (proj2 (proj2 (proj2 (proj2 H7))) (PStr "7") 7);
      [vm_compute; reflexivity | reflexivity | right; lia | vm_compute; reflexivity].
  - apply (proj1 (proj2 (proj2 (proj2 Hs))) (PStr "soon"));
      [vm_compute; reflexivity | reflexivity | vm_compute; reflexivity].
  - apply (proj1 (proj2 H2) (PStr "4") 4); [exact too_payload_accepted | reflexivity | lia].
  - apply (proj1 (proj2 H2) (PInt 0) 0); [exact too_payload_accepted | reflexivity | lia].
Defined.

Example urgency_two_accepted :
  let E := mock (reply_200 "ok") [] true in
  (UVOTXRTRequest._build_payload (request_with credentials too_payload))
    ≫= (fun too => Ok (too !! "urgency"))
  = Ok (Some (PInt 2)).
Proof. vm_compute. reflexivity. Qed.

(** C5 as it was stated fails on a payload whose urgency is 7 and which has
    no [source_type]: the build fails at the lookup of [source_type], which
    comes first, with a [KeyError], and a [KeyError] is not a
    [ValueError]. *)
Lemma urgency_after_missing_source_type :
  let E := mock (reply_200 "ok") [] true in
  let request :=
    request_with credentials (<["urgency" := PStr "7"]> (delete "source_type" too_payload)) in
  payload request !! "urgency" = Some (PStr "7")
  /\ py_int (PStr "7") = Ok 7
  /\ UVOTXRTRequest._build_payload request = Raise (KeyError "source_type")
  /\ is_ValueError (KeyError "source_type") = false.
Proof. vm_compute. auto. Qed.

(** C4, as the code has it.  The table has 16 entries.  A [uvot_mode] that
    is none of the 16 labels makes the build fail, with the [ValueError] of
    [index] when the build reaches the UVOT mode.  For a label of the table:
    without the science justification the build fails, at that lookup, with
    a [KeyError]; with it, and a key other than ["0x9999"], an omitted
    [uvot_just] makes the build fail with a [ValueError], and so does a
    [uvot_just] that is supplied but empty (or false in any other way); a
    [uvot_just] that is supplied and not empty makes a build that reaches
    the UVOT mode succeed, with the key of the label as UVOT mode.  With the
    key ["0x9999"] and the science justification, a build that reaches the
    UVOT mode succeeds whatever [uvot_just] is. *)
Theorem uvot_mode_and_justification `{Env} (request : FollowupRequest) :
  let build := UVOTXRTRequest._build_payload request in
  let reached := raised (before_uvot_mode request) = false in
  length modes = 16%nat
  /\ (forall v,
        payload request !! "uvot_mode" = Some v ->
        (forall label, In label modes_values -> v ≠ PStr label) ->
        raised build = true
        /\ (reached ->
            build = Raise (PyError CValueError "index")
            /\ is_ValueError (PyError CValueError "index") = true))
  /\ (forall key label,
        In (key, label) modes ->
        payload request !! "uvot_mode" = Some (PStr label) ->
        (payload request !! "science_just" = None ->
           raised build = true
           /\ (reached ->
               build = Raise (KeyError "science_just")
               /\ is_ValueError (KeyError "science_just") = false))
        /\ (forall sj,
              payload request !! "science_just" = Some sj -> key ≠ "0x9999" ->
              (payload request !! "uvot_just" = None ->
                 raised build = true
                 /\ (reached ->
                     build = Raise uvot_just_required
                     /\ is_ValueError uvot_just_required = true))
              /\ (forall uvot_just,
                    payload request !! "uvot_just" = Some uvot_just ->
                    py_truthy uvot_just = false ->
                    raised build = true
                    /\ (reached ->
                        build = Raise uvot_just_required
                        /\ is_ValueError uvot_just_required = true))
              /\ (forall uvot_just,
                    payload request !! "uvot_just" = Some uvot_just ->
                    py_truthy uvot_just = true ->
                    reached ->
                    exists too,
                      build = Ok too
                      /\ too !! "uvot_mode" = Some (PStr key)
                      /\ too !! "science_just" = Some sj
                      /\ too !! "uvot_just" = Some uvot_just))
        /\ (forall sj,
              payload request !! "science_just" = Some sj -> key = "0x9999" ->
              reached ->
              exists too,
                build = Ok too
                /\ too !! "uvot_mode" = Some (PStr "0x9999")
                /\ too !! "science_just" = Some sj)).
Proof.
  intros build reached. subst build reached.
  assert (Hfrom : raised (before_uvot_mode request) = false ->
                  exists t3, UVOTXRTRequest._build_payload request
                             = UVOTXRTRequest.set_uvot_mode request t3).
  { intros Hreach. rewrite too_build_from_uvot.
    destruct (before_uvot_mode request) as [t3|]; [|discriminate]. exists t3. reflexivity. }
  assert (Hlisted : forall key label, In (key, label) modes ->
                    payload request !! "uvot_mode" = Some (PStr label) ->
                    forall t3,
                      UVOTXRTRequest.set_uvot_mode request t3
                      = (science_just ← getitem (payload request) "science_just";
                         let too := setattr (setattr t3 "uvot_mode" (PStr key))
                                            "science_just" science_just in
                         if negb (String.eqb key "0x9999") then
                           let uvot_just := dict_get (payload request) "uvot_just" PNone in
                           if negb (py_truthy uvot_just) then Raise uvot_just_required
                           else Ok (setattr too "uvot_just" uvot_just)
                         else Ok too)).
  { intros key label Hin Hmode t3. unfold UVOTXRTRequest.set_uvot_mode.
    rewrite (getitem_Some _ _ _ Hmode). pose proof (modes_lookup key label Hin) as Hlook.
    unfold mbind, Result_bind in *.
    destruct (tuple_index modes_values (PStr label)) as [i|]; [|discriminate].
    rewrite Hlook. reflexivity. }
  split; [reflexivity|]. split.
  - intros v Hv Hnot.
    assert (Hstep : forall t3, UVOTXRTRequest.set_uvot_mode request t3
                               = Raise (PyError CValueError "index")).
    { intros t3. unfold UVOTXRTRequest.set_uvot_mode. rewrite (getitem_Some _ _ _ Hv).
      cbn [mbind Result_bind]. unfold tuple_index.
      now rewrite (index_from_None modes_values v 0%nat Hnot). }
    split.
    + apply too_build_raised_uvot_mode. intros t3. now rewrite Hstep.
    + intros Hreach. destruct (Hfrom Hreach) as (t3 & ->). now rewrite Hstep.
  - intros key label Hin Hmode. split; [|split].
    + intros Hnone.
      assert (Hstep : forall t3, UVOTXRTRequest.set_uvot_mode request t3
                                 = Raise (KeyError "science_just")).
      { intros t3. rewrite (Hlisted key label Hin Hmode).
        now rewrite (getitem_None _ _ Hnone). }
      split.
      * apply too_build_raised_uvot_mode. intros t3. now rewrite Hstep.
      * intros Hreach. destruct (Hfrom Hreach) as (t3 & ->). now rewrite Hstep.
    + intros sj Hsj Hkey. apply String.eqb_neq in Hkey.
      assert (Hstep : forall t3,
                UVOTXRTRequest.set_uvot_mode request t3
                = let uvot_just := dict_get (payload request) "uvot_just" PNone in
                  if negb (py_truthy uvot_just) then Raise uvot_just_required
                  else Ok (setattr (setattr (setattr t3 "uvot_mode" (PStr key))
                                            "science_just" sj) "uvot_just" uvot_just)).
      { intros t3. rewrite (Hlisted key label Hin Hmode), (getitem_Some _ _ _ Hsj).
        cbn [mbind Result_bind]. cbv zeta. now rewrite Hkey. }
      unfold dict_get in Hstep. cbv zeta in Hstep.
      split; [|split].
      * intros Hnone. rewrite Hnone in Hstep. simpl in Hstep. split.
        -- apply too_build_raised_uvot_mode. intros t3. now rewrite Hstep.
        -- intros Hreach. destruct (Hfrom Hreach) as (t3 & ->). now rewrite Hstep.
      * intros uj Huj Hfalse. rewrite Huj, Hfalse in Hstep. simpl in Hstep. split.
        -- apply too_build_raised_uvot_mode. intros t3. now rewrite Hstep.
        -- intros Hreach. destruct (Hfrom Hreach) as (t3 & ->). now rewrite Hstep.
      * intros uj Huj Htrue Hreach. rewrite Huj, Htrue in Hstep. simpl in Hstep.
        destruct (Hfrom Hreach) as (t3 & ->). rewrite Hstep.
        eexists. split; [reflexivity|]. split; [|split].
        -- rewrite !setattr_other by discriminate. apply setattr_lookup.
        -- rewrite setattr_other by discriminate. apply setattr_lookup.
        -- apply setattr_lookup.
    + intros sj Hsj -> Hreach. destruct (Hfrom Hreach) as (t3 & ->).
      rewrite (Hlisted "0x9999" label Hin Hmode), (getitem_Some _ _ _ Hsj).
      cbn [mbind Result_bind]. cbv zeta. simpl negb. cbv iota.
      eexists. split; [reflexivity|]. split.
      * rewrite setattr_other by discriminate. apply setattr_lookup.
      * apply setattr_lookup.
Qed.

Lemma uvot_mode_and_justification_witness :
  let E := mock (reply_200 "ok") [] true in
  let all_uv := <["uvot_mode" := PStr "0x308f - All UV"]> too_payload in
  let omitted := request_with credentials all_uv in
  let justified :=
    request_with credentials (<["uvot_just" := PStr "map the SED in all UV filters"]> all_uv) in
  let unknown := request_with credentials (<["uvot_mode" := PStr "0x308f"]> too_payload) in
  let unexplained :=
    request_with credentials
      (<["uvot_just" := PStr "map the SED in all UV filters"]> (delete "science_just" all_uv)) in
  UVOTXRTRequest._build_payload omitted = Raise uvot_just_required
  /\ (exists too, UVOTXRTRequest._build_payload justified = Ok too
                  /\ too !! "uvot_mode" = Some (PStr "0x308f")
                  /\ too !! "science_just"
                     = Some (PStr "associate the object to a relativistic explosion")
                  /\ too !! "uvot_just" = Some (PStr "map the SED in all UV filters"))
  /\ UVOTXRTRequest._build_payload unknown = Raise (PyError CValueError "index")
  /\ UVOTXRTRequest._build_payload unexplained = Raise (KeyError "science_just")
  /\ (exists too, UVOTXRTRequest._build_payload (request_with credentials too_payload) = Ok too
                  /\ too !! "uvot_mode" = Some (PStr "0x9999")
                  /\ too !! "science_just"
                     = Some (PStr "associate the object to a relativistic explosion")).
Proof.
  intros E all_uv omitted justified unknown unexplained.
  assert (Hin : In ("0x308f", "0x308f - All UV") modes).
  { unfold modes. simpl. tauto. }
  pose proof (@uvot_mode_and_justification E omitted) as Ho.
  pose proof (@uvot_mode_and_justification E justified) as Hj.
  pose proof (@uvot_mode_and_justification E unknown) as Hu.
  pose proof (@uvot_mode_and_justification E unexplained) as He.
  pose proof (@uvot_mode_and_justification E (request_with credentials too_payload)) as Hd.
  cbv zeta in Ho, Hj, Hu, He, Hd.
  split; [|split; [|split; [|split]]].
  - destruct (proj2 (proj2 Ho) "0x308f" "0x308f - All UV" Hin ltac:(vm_compute; reflexivity))
      as (_ & Hsj & _).
    destruct (Hsj (PStr "associate the object to a relativistic explosion")
                ltac:(vm_compute; reflexivity) ltac:(discriminate)) as (Hnone & _).
    destruct (Hnone ltac:(vm_compute; reflexivity)) as (_ & Hr).
    exact (proj1 (Hr ltac:(vm_compute; reflexivity))).
  - destruct (proj2 (proj2 Hj) "0x308f" "0x308f - All UV" Hin ltac:(vm_compute; reflexivity))
      as (_ & Hsj & _).
    destruct (Hsj (PStr "associate the object to a relativistic explosion")
                ltac:(vm_compute; reflexivity) ltac:(discriminate)) as (_ & _ & Hsupplied).
    exact (Hsupplied (PStr "map the SED in all UV filters") ltac:(vm_compute; reflexivity)
             ltac:(reflexivity) ltac:(vm_compute; reflexivity)).
  - assert (Hnot : forall label, In label modes_values -> PStr "0x308f" ≠ PStr label).
    { intros label Hl. unfold modes_values, modes in Hl. simpl in Hl.
      repeat (destruct Hl as [<- | Hl]; [discriminate|]). destruct Hl. }
    destruct (proj1 (proj2 Hu) (PStr "0x308f") ltac:(vm_compute; reflexivity) Hnot) as (_ & Hr).
    exact (proj1 (Hr ltac:(vm_compute; reflexivity))).
  - destruct (proj2 (proj2 He) "0x308f" "0x308f - All UV" Hin ltac:(vm_compute; reflexivity))
      as (Hnone & _).
    destruct (Hnone ltac:(vm_compute; reflexivity)) as (_ & Hr).
    exact (proj1 (Hr ltac:(vm_compute; reflexivity))).
  - assert (Hdefault : In ("0x9999", "0x9999 - Default (Filter of the day)") modes).
    { unfold modes. simpl. tauto. }
    destruct (proj2 (proj2 Hd) "0x9999" "0x9999 - Default (Filter of the day)" Hdefault
                ltac:(vm_compute; reflexivity))
      as (_ & _ & Hbuilt).
    exact (Hbuilt (PStr "associate the object to a relativistic explosion")
             ltac:(vm_compute; reflexivity) ltac:(reflexivity) ltac:(vm_compute; reflexivity)).
Defined.

(** C4 as it was stated fails when [uvot_just] is supplied as the empty
    string: the mode is a valid non-default one, every other field is as in
    a payload that builds, and the build raises the same [ValueError] as
    when [uvot_just] is omitted. *)
Lemma uvot_just_supplied_empty :
  let E := mock (reply_200 "ok") [] true in
  let p := <["uvot_just" := PStr EmptyString]>
             (<["uvot_mode" := PStr "0x308f - All UV"]> too_payload) in
  let request := request_with credentials p in
  In ("0x308f", "0x308f - All UV") modes
  /\ payload request !! "uvot_just" = Some (PStr EmptyString)
  /\ UVOTXRTRequest._build_payload request = Raise uvot_just_required
  /\ raised (UVOTXRTRequest._build_payload
               (request_with credentials
                  (<["uvot_just" := PStr "map the SED"]> p))) = false.
Proof.
  intros E p request. split; [unfold modes; simpl; tauto|].
  vm_compute. auto.
Qed.

(** ** The backfill: [fetch_observations] *)

Lemma is_None_true v : is_None v = true <-> v = PNone.
Proof. destruct v; simpl; split; congruence. Qed.

Lemma collect_drops `{Env} (before after : list ObsRow) (row : ObsRow)
    (observations : list Observation) :
  UVOT_mode (row_uvot row) = None \/ row_ra_object row = PNone \/ row_dec_object row = PNone ->
  collect_observations (before ++ row :: after) observations
  = collect_observations (before ++ after) observations.
Proof.
  intros Hdrop. revert observations.
  induction before as [|r before IH]; intros observations; simpl.
  - destruct (UVOT_mode (row_uvot row)) as [entries|]; [|reflexivity].
    destruct Hdrop as [Hmode | [Hra | Hdec]]; [discriminate| |].
    + rewrite Hra. reflexivity.
    + rewrite Hdec. now rewrite orb_true_r.
  - destruct (UVOT_mode (row_uvot r)) as [entries|]; [|apply IH].
    destruct (is_None (row_ra_object r) || is_None (row_dec_object r)); [apply IH|].
    destruct (entries !! 0%nat) as [entry|]; [|reflexivity].
    destruct (py_int (row_obsid r)) as [obsid|]; simpl; [apply IH | reflexivity].
Qed.

(** One observation for every row that is kept, in the order of the rows. *)
Lemma collect_kept `{Env} (rows : list ObsRow) (observations table : list Observation) :
  collect_observations rows observations = Ok table ->
  exists new, table = observations ++ new
              /\ Forall2 normalized (List.filter retained rows) new.
Proof.
  revert observations.
  induction rows as [|r rows IH]; intros observations; simpl.
  - intros [= <-]. exists []. split; [now rewrite app_nil_r | constructor].
  - unfold retained at 1.
    destruct (UVOT_mode (row_uvot r)) as [entries|] eqn:Hmode; [|apply IH].
    destruct (is_None (row_ra_object r) || is_None (row_dec_object r)); simpl negb;
      cbv iota; [apply IH|].
    destruct (entries !! 0%nat) as [entry|] eqn:Hentry; [|discriminate].
    destruct (py_int (row_obsid r)) as [obsid|] eqn:Hobsid; simpl; [|discriminate].
    intros Hc. destruct (IH _ Hc) as (new & -> & Hall).
    eexists (_ :: new). split; [now rewrite <- app_assoc|].
    constructor; [|exact Hall].
    exists entries, entry. simpl. repeat split; auto.
Qed.

(** The loop returns when every row it keeps has a first entry in its mode
    and an observation id that [int()] converts. *)
Lemma collect_returns `{Env} (rows : list ObsRow) (observations : list Observation) :
  Forall (fun row => retained row = true ->
                     (exists entries entry, UVOT_mode (row_uvot row) = Some entries
                                            /\ entries !! 0%nat = Some entry)
                     /\ raised (py_int (row_obsid row)) = false) rows ->
  raised (collect_observations rows observations) = false.
Proof.
  intros Hall. revert observations.
  induction Hall as [|r rows Hr _ IH]; intros observations; simpl; [reflexivity|].
  unfold retained in Hr.
  destruct (UVOT_mode (row_uvot r)) as [entries|]; [|apply IH].
  destruct (is_None (row_ra_object r) || is_None (row_dec_object r)); [apply IH|].
  destruct (Hr eq_refl) as ((es & entry & [= <-] & Hentry) & Hobsid).
  rewrite Hentry. destruct (py_int (row_obsid r)) as [obsid|]; [|discriminate].
  simpl. apply IH.
Qed.

(** C7.  The backfill keeps a row exactly when its UVOT mode has entries and
    its [ra_object] and [dec_object] are not [None].  A row that is not kept
    is passed over: the result of the loop, an error included, is the one of
    the same rows without it.  When [fetch_observations] returns, the table
    it has handed to [add_observations] has one row for each row that is
    kept and no other, in the order of the archive; that row has the filter
    ["uvot::<filter_name>"] of the first entry of the mode, the processed
    fraction 1.0, [None] as seeing and as limiting magnitude, and the
    observation id, the start time, the coordinates, the exposure and the
    target name of the archive row.  And it does return when the archive
    answers and every row that is kept has a first entry in its mode and an
    observation id that [int()] converts. *)
Theorem backfill_rows `{Env} :
  (forall row : ObsRow,
     retained row = false
     <-> UVOT_mode (row_uvot row) = None \/ row_ra_object row = PNone
         \/ row_dec_object row = PNone)
  /\ (forall (before after : list ObsRow) (row : ObsRow) (observations : list Observation),
        UVOT_mode (row_uvot row) = None \/ row_ra_object row = PNone
        \/ row_dec_object row = PNone ->
        collect_observations (before ++ row :: after) observations
        = collect_observations (before ++ after) observations)
  /\ (forall (instrument : Z) (request_start request_end : datetime) (w w' : World),
        fetch_observations instrument request_start request_end w = (Ok tt, w') ->
        exists rows table,
          obs_query (window_query request_start request_end) = Some rows
          /\ w_observations w' = w_observations w ++ [(instrument, table)]
          /\ Forall2
               (fun row o =>
                  exists entries entry,
                    UVOT_mode (row_uvot row) = Some entries /\ entries !! 0%nat = Some entry
                    /\ filter o = "uvot::" +:+ str_opt (filter_name entry)
                    /\ processed_fraction o = PFloat (FFin 1 0)
                    /\ seeing o = PNone /\ limmag o = PNone
                    /\ py_int (row_obsid row) = Ok (observation_id o)
                    /\ obstime o = row_begin row
                    /\ RA o = row_ra_object row /\ Dec o = row_dec_object row
                    /\ exposure_time o = row_exposure_seconds row
                    /\ target_name o = row_targname row)
               (List.filter retained rows) table)
  /\ (forall (instrument : Z) (request_start request_end : datetime) (w : World)
             (rows : list ObsRow),
        obs_query (window_query request_start request_end) = Some rows ->
        Forall (fun row => retained row = true ->
                           (exists entries entry, UVOT_mode (row_uvot row) = Some entries
                                                  /\ entries !! 0%nat = Some entry)
                           /\ raised (py_int (row_obsid row)) = false) rows ->
        (fetch_observations instrument request_start request_end w).1 = Ok tt).
Proof.
  split; [|split; [|split]].
  - intros row. unfold retained.
    destruct (UVOT_mode (row_uvot row)) as [entries|]; [|split; auto].
    rewrite negb_false_iff, orb_true_iff, !is_None_true.
    split; [auto | intros [Hm | Hc]; [discriminate | exact Hc]].
  - intros. now apply collect_drops.
  - intros instrument request_start request_end w w'.
    unfold fetch_observations, ObsQuery_new. run.
    destruct (obs_query (window_query request_start request_end)) as [rows|]; [|discriminate].
    simpl. destruct (collect_observations rows []) as [table|] eqn:Hc; [|discriminate].
    intros [= <-]. exists rows, table. split; [reflexivity|]. split; [reflexivity|].
    destruct (collect_kept rows [] table Hc) as (new & -> & Hall). exact Hall.
  - intros instrument request_start request_end w rows Hq Hall.
    apply (collect_returns rows []) in Hall.
    unfold fetch_observations, ObsQuery_new. run. rewrite Hq. simpl.
    destruct (collect_observations rows []); [reflexivity | discriminate].
Qed.

Lemma backfill_rows_witness :
  let no_target := archive_row "0x30ed" PNone "00012345001" in
  let kept := archive_row "0x30ed" (PFloat (FFin 315 (-1))) "00012345002" in
  let no_mode := archive_row "0x0000" (PFloat (FFin 315 (-1))) "00012345003" in
  let E := mock reply_500 [no_target; kept; no_mode] true in
  let run := fetch_observations 5 10 20 empty_world in
  collect_observations ([] ++ no_target :: [kept; no_mode]) []
  = collect_observations ([] ++ [kept; no_mode]) []
  /\ run.1 = Ok tt
  /\ exists o,
       w_observations run.2 = [(5, [o])]
       /\ observation_id o = 12345002
       /\ filter o = "uvot::u"
       /\ processed_fraction o = PFloat (FFin 1 0)
       /\ seeing o = PNone /\ limmag o = PNone.
Proof.
  intros no_target kept no_mode E run.
  destruct (@backfill_rows E) as (_ & Hdrop & Htable & Hreturns).
  split; [|split].
  - apply Hdrop. right. left. reflexivity.
  - apply (Hreturns 5 10 20 empty_world [no_target; kept; no_mode] eq_refl).
    constructor; [intros Hkept; vm_compute in Hkept; discriminate|].
    constructor.
    { intros _. split; [eexists _, _; split; vm_compute; reflexivity|].
      vm_compute. reflexivity. }
    constructor; [intros Hkept; vm_compute in Hkept; discriminate|].
    constructor.
  - destruct (Htable 5 10 20 empty_world run.2 ltac:(vm_compute; reflexivity))
      as (rows & table & Hrows & Hobs & Hall).
    injection Hrows as <-.
    change (List.filter retained [no_target; kept; no_mode]) with [kept] in Hall.
    inversion Hall as [|row o rest table' Ho Hrest]; subst.
    inversion Hrest; subst.
    destruct Ho as (entries & entry & Hmode & Hentry & Hfilter & Hfrac & Hseeing & Hlimmag
                    & Hid & _).
    injection Hmode as <-. injection Hentry as <-. injection Hid as Hid.
    exists o. repeat split; auto.
Defined.

Example backfill_keeps_one :
  let E := mock reply_500 [archive_row "0x30ed" PNone "00012345001";
                           archive_row "0x30ed" (PFloat (FFin 315 (-1))) "00012345002";
                           archive_row "0x0000" (PFloat (FFin 315 (-1))) "00012345003"] true in
  map (fun o => (observation_id o, filter o))
      (concat (map snd (w_observations (fetch_observations 5 10 20 empty_world).2)))
  = [(12345002, "uvot::u")].
Proof. vm_compute. reflexivity. Qed.

(** * Further properties of the module *)

(** ** [get]: posting the products of a finished XRT job *)

Lemma with_comments_cons (c : Comment) (cs : list Comment) (w : World) :
  with_comments cs (with_comment c w) = with_comments (c :: cs) w.
Proof. destruct w. unfold with_comments, with_comment. simpl. now rewrite <- app_assoc. Qed.

Lemma with_comments_nil (w : World) : with_comments [] w = w.
Proof. destruct w. unfold with_comments. simpl. now rewrite app_nil_r. Qed.

Lemma post_products_run `{Env} (request : FollowupRequest) (groups : list Z)
    (retDict : list (string * string)) (w : World) :
  UVOTXRTAPI.post_products request groups retDict w
  = (Ok tt, with_comments (map (product_comment request groups) retDict) w).
Proof.
  revert w. induction retDict as [|[key filename] rest IH]; intros w; simpl.
  - now rewrite with_comments_nil.
  - rewrite bind_run. unfold modify at 1. rewrite IH. now rewrite with_comments_cons.
Qed.

Lemma get_xrt_whole `{Env} (request : FollowupRequest) (kwargs : gmap string pyval)
    (w : World) swiftreq :
  payload request !! "request_type" = Some (PStr "XRT API") ->
  UVOTXRTAPI.rebuild_job request (w_transactions w) = Ok swiftreq ->
  UVOTXRTAPI.get request kwargs w
  = (UVOTXRTAPI.get_xrt request;; UVOTXRTAPI.push_refresh request kwargs) w.
Proof.
  intros Htype Hjob. unfold UVOTXRTAPI.get.
  rewrite (rebuild_job_needs_credentials _ _ _ Hjob).
  rewrite (getitem_Some _ _ _ Htype). reflexivity.
Qed.

(** X1.  A [get] on an XRT API request whose job is complete adds one
    comment per downloaded product, in the order of the products, each with
    the product's name in its text, the last segment of the file's path as
    attachment name and [bot] false; it sets the status to ["Result posted
    as comment"], commits once, adds no transaction and then pushes the
    refresh signals asked for.  When the download fails it raises and leaves
    the store as it was. *)
Theorem get_xrt_complete_posts_products `{Env} (request : FollowupRequest)
    (kwargs : gmap string pyval) (w : World) (swiftreq : XRTProductRequest) :
  payload request !! "request_type" = Some (PStr "XRT API") ->
  UVOTXRTAPI.rebuild_job request (w_transactions w) = Ok swiftreq ->
  xrt_complete swiftreq = true ->
  let groups := select_groups (requester request) (accessible_groups (requester request)) in
  (forall retDict,
     xrt_downloadProducts swiftreq = Some retDict ->
     let w' := (UVOTXRTAPI.get request kwargs w).2 in
     (UVOTXRTAPI.get request kwargs w).1 = Ok tt
     /\ w_comments w' = w_comments w ++ map (product_comment request groups) retDict
     /\ w_status w' = "Result posted as comment"
     /\ w_commits w' = S (w_commits w)
     /\ w_transactions w' = w_transactions w
     /\ w_flow w' = w_flow w ++ refresh_signals request kwargs)
  /\ (xrt_downloadProducts swiftreq = None ->
      UVOTXRTAPI.get request kwargs w = (Raise (LibraryError "xrt_prods"), w)).
Proof.
  intros Htype Hjob Hdone groups.
  rewrite (get_xrt_whole request kwargs w swiftreq Htype Hjob).
  unfold UVOTXRTAPI.get_xrt, mbind, M_bind, lift, raise, modify.
  rewrite Hjob, Hdone. change (negb true) with false. cbv beta iota. split.
  - intros retDict Hdl. rewrite Hdl. cbv beta iota. rewrite post_products_run.
    cbv beta iota. rewrite push_refresh_run. simpl. repeat split.
  - intros Hdl. rewrite Hdl. reflexivity.
Qed.

Lemma get_xrt_complete_posts_products_witness :
  let E := mock reply_500 [] true in
  let request := request_with credentials xrt_payload in
  let w' := (UVOTXRTAPI.get request ∅ stored_world).2 in
  (UVOTXRTAPI.get request ∅ stored_world).1 = Ok tt
  /\ w_comments w'
     = w_comments stored_world
       ++ map (product_comment request (select_groups (requester request)
                                          (accessible_groups (requester request))))
              [("LightCurve", "/tmp/products/lc.zip")]
  /\ w_status w' = "Result posted as comment"
  /\ w_commits w' = S (w_commits stored_world)
  /\ w_transactions w' = w_transactions stored_world
  /\ w_flow w' = w_flow stored_world ++ refresh_signals request ∅.
Proof.
  intros E request.
  eapply (proj1 (@get_xrt_complete_posts_products E request ∅ stored_world _
                   ltac:(vm_compute; reflexivity) ltac:(vm_compute; reflexivity)
                   ltac:(reflexivity))).
  reflexivity.
Defined.

Example get_xrt_attachment_name :
  let E := mock reply_500 [] true in
  map c_attachment_name
      (w_comments (UVOTXRTAPI.get (request_with credentials xrt_payload) ∅ stored_world).2)
  = ["lc.zip"].
Proof. vm_compute. reflexivity. Qed.

(** ** [get]: a data request *)

(** X2.  A [get] on a data request with credentials and both dates sends one
    archive query, for the cone of 5 arc minutes around the target and the
    dates of the payload as they are.  When the archive answers, exactly one
    task is handed to the thread pool, the download for this request and the
    rows received, followed by the refresh signals; when the query fails,
    [get] raises and nothing is scheduled.  In both cases no comment is
    added and the status is not touched.  A payload without [start_date]
    makes [get] raise a [KeyError] before any query is sent. *)
Theorem get_data_schedules_download `{Env} (request : FollowupRequest)
    (kwargs : gmap string pyval) (w : World) :
  altdata (allocation request) ≠ ∅ ->
  payload request !! "request_type" = Some (PStr "XRT/UVOT/BAT Data") ->
  (payload request !! "start_date" = None ->
     UVOTXRTAPI.get request kwargs w = (Raise (KeyError "start_date"), w))
  /\ (forall start_date end_date,
        payload request !! "start_date" = Some start_date ->
        payload request !! "end_date" = Some end_date ->
        let args := {| oq_ra := obj_ra (obj request); oq_dec := obj_dec (obj request);
                       oq_radius := UVOTXRTBATDataRequest.radius;
                       oq_begin := start_date; oq_end := end_date |} in
        UVOTXRTAPI.get request kwargs w
        = match obs_query args with
          | Some rows =>
              (Ok tt,
               with_flows (refresh_signals request kwargs)
                 (with_task (DownloadObservations (request_id request)
                               {| oq_args := args; oq_entries := rows |})
                    (with_archive args w)))
          | None => (Raise (LibraryError "swift_too"), with_archive args w)
          end
        /\ w_comments (UVOTXRTAPI.get request kwargs w).2 = w_comments w
        /\ w_status (UVOTXRTAPI.get request kwargs w).2 = w_status w
        /\ w_archive (UVOTXRTAPI.get request kwargs w).2 = w_archive w ++ [args]).
Proof.
  intros Hcred Htype. apply dict_is_empty_false in Hcred.
  assert (Hget : UVOTXRTAPI.get request kwargs w
                 = (UVOTXRTAPI.get_data request;; UVOTXRTAPI.push_refresh request kwargs) w).
  { unfold UVOTXRTAPI.get. rewrite Hcred, (getitem_Some _ _ _ Htype). reflexivity. }
  rewrite Hget. clear Hget.
  unfold UVOTXRTAPI.get_data, UVOTXRTBATDataRequest._build_payload, ObsQuery_new,
    mbind, M_bind, lift, modify.
  split.
  - intros Hnone. now rewrite (getitem_None _ _ Hnone).
  - intros s e Hs He.
    rewrite (getitem_Some _ _ _ Hs), (getitem_Some _ _ _ He).
    destruct (obs_query _) as [rows|].
    + rewrite push_refresh_run. simpl. auto.
    + simpl. auto.
Qed.

Lemma get_data_schedules_download_witness :
  let rows := [archive_row "0x30ed" PNone "00012345001"] in
  let E := mock reply_500 rows true in
  let request := request_with credentials data_payload in
  let args := {| oq_ra := obj_ra (obj request); oq_dec := obj_dec (obj request);
                 oq_radius := UVOTXRTBATDataRequest.radius;
                 oq_begin := PStr "2023-01-01 00:00:00";
                 oq_end := PStr "2024-01-01 00:00:00" |} in
  UVOTXRTAPI.get request ∅ empty_world
  = match obs_query args with
    | Some rows =>
        (Ok tt,
         with_flows (refresh_signals request ∅)
           (with_task (DownloadObservations (request_id request)
                         {| oq_args := args; oq_entries := rows |})
              (with_archive args empty_world)))
    | None => (Raise (LibraryError "swift_too"), with_archive args empty_world)
    end
  /\ w_comments (UVOTXRTAPI.get request ∅ empty_world).2 = w_comments empty_world
  /\ w_status (UVOTXRTAPI.get request ∅ empty_world).2 = w_status empty_world
  /\ w_archive (UVOTXRTAPI.get request ∅ empty_world).2 = w_archive empty_world ++ [args].
Proof.
  intros rows E request args.
  apply (proj2 (@get_data_schedules_download E request ∅ empty_world
                  ltac:(apply dict_is_empty_false; vm_compute; reflexivity)
                  ltac:(vm_compute; reflexivity))).
  - vm_compute. reflexivity.
  - vm_compute. reflexivity.
Defined.

(** ** Credentials first *)

(** X3.  Without credentials in the allocation, [submit] and [get] raise the
    [ValueError] "Missing allocation information." and leave the store as it
    was, whatever the payload holds, a missing [request_type] included: the
    credentials are looked at before the payload is. *)
Theorem missing_credentials_stop_everything `{Env} (request : FollowupRequest)
    (kwargs : gmap string pyval) (w : World) :
  altdata (allocation request) = ∅ ->
  UVOTXRTAPI.submit request kwargs w
  = (Raise (ValueError "Missing allocation information."), w)
  /\ UVOTXRTAPI.get request kwargs w
     = (Raise (ValueError "Missing allocation information."), w).
Proof.
  intros Hempty. apply dict_is_empty_true in Hempty.
  unfold UVOTXRTAPI.submit, UVOTXRTAPI.get. rewrite Hempty. split; reflexivity.
Qed.

Lemma missing_credentials_stop_everything_witness :
  let E := mock (reply_200 "ok") [] true in
  let request := request_with ∅ (delete "request_type" too_payload) in
  UVOTXRTAPI.submit request ∅ empty_world
  = (Raise (ValueError "Missing allocation information."), empty_world)
  /\ UVOTXRTAPI.get request ∅ empty_world
     = (Raise (ValueError "Missing allocation information."), empty_world).
Proof.
  intros E request.
  apply (@missing_credentials_stop_everything E request ∅ empty_world). reflexivity.
Defined.

(** ** [get] and the stored transactions *)

Lemma last_snoc_Some {A} (l : list A) (x : A) : last (l ++ [x]) = Some x.
Proof. apply last_snoc. Qed.

(** X4.  The job fields that [get] rebuilds come from the last transaction
    of the request alone: the transactions before it do not matter.  On an
    XRT API request with credentials and no transaction at all, [get] raises
    an [IndexError] and leaves the store as it was. *)
Theorem rebuild_job_reads_last `{Env} (request : FollowupRequest) :
  (forall (earlier : list FacilityTransaction) (t : FacilityTransaction),
     UVOTXRTAPI.rebuild_job request (earlier ++ [t]) = UVOTXRTAPI.rebuild_job request [t])
  /\ (forall (kwargs : gmap string pyval) (w : World),
        altdata (allocation request) ≠ ∅ ->
        payload request !! "request_type" = Some (PStr "XRT API") ->
        w_transactions w = [] ->
        UVOTXRTAPI.get request kwargs w = (Raise (PyError CIndexError "getitem"), w)).
Proof.
  split.
  - intros earlier t. unfold UVOTXRTAPI.rebuild_job.
    rewrite last_snoc_Some. reflexivity.
  - intros kwargs w Hcred Htype Hnone. apply dict_is_empty_false in Hcred.
    unfold UVOTXRTAPI.get. rewrite Hcred, (getitem_Some _ _ _ Htype).
    assert (Hjob : UVOTXRTAPI.rebuild_job request (w_transactions w)
                   = Raise (PyError CIndexError "getitem")).
    { rewrite Hnone. reflexivity. }
    unfold UVOTXRTAPI.get_xrt, mbind, M_bind, lift. cbv beta iota.
    change (py_eq_str (PStr "XRT API") "XRT API") with true. cbv beta iota.
    rewrite Hjob. reflexivity.
Qed.

Lemma rebuild_job_reads_last_witness :
  let E := mock reply_500 [] true in
  let request := request_with credentials xrt_payload in
  UVOTXRTAPI.get request ∅ empty_world = (Raise (PyError CIndexError "getitem"), empty_world).
Proof.
  intros E request.
  apply (proj2 (@rebuild_job_reads_last E request) ∅ empty_world).
  - apply dict_is_empty_false. vm_compute. reflexivity.
  - vm_compute. reflexivity.
  - reflexivity.
Defined.

Lemma submit_xrt_stores `{Env} (request : FollowupRequest) (kwargs : gmap string pyval)
    (w : World) swiftreq reply :
  payload request !! "request_type" = Some (PStr "XRT API") ->
  XRTAPIRequest._build_payload request = Ok swiftreq ->
  http_post XRT_URL (JsonBody (xrt_JSONDict swiftreq)) = Some reply ->
  (UVOTXRTAPI.submit request kwargs w).1 = Ok tt ->
  w_transactions (UVOTXRTAPI.submit request kwargs w).2
  = w_transactions w
    ++ [UVOTXRTAPI.transaction_of request
          {| resp_request := {| pr_url := XRT_URL;
                                pr_body := JsonBody (xrt_JSONDict swiftreq) |};
             resp_reply := reply |}].
Proof.
  intros Htype Hbuild Hpost.
  rewrite (submit_xrt_whole request kwargs w swiftreq Htype Hbuild).
  pose proof (then_epilogue (UVOTXRTAPI.submit_xrt request) request kwargs w) as Hseq.
  simpl in Hseq. rewrite (submit_xrt_run request w swiftreq reply Hbuild Hpost) in Hseq.
  destruct (json_loads (text reply)) as [data|].
  - destruct (UVOTXRTAPI.xrt_status reply data) as [status|e].
    + destruct Hseq as (_ & _ & Htr & _). intros _. rewrite Htr. reflexivity.
    + rewrite Hseq. discriminate.
  - rewrite Hseq. discriminate.
Qed.

(** X5.  [get] after [submit].  Let the serialized response keep the body of
    the reply under ["content"].  After a [submit] of an XRT API request
    that returned, a [get] rebuilds the job from the very body that [submit]
    received: with the fields [OK], [JobID], [URL] and [jobPars] in it, the
    rebuilt request carries them; with a field missing, as in the body of a
    job that the facility refused, [get] raises the [KeyError] of that field
    and not the error that asks to try again later, and writes nothing. *)
Theorem get_reads_what_submit_stored `{Env} (request : FollowupRequest)
    (kwargs kwargs' : gmap string pyval) (w : World) swiftreq reply returnedData :
  (forall r, py_getitem (serialize_requests_response r) "content"
             = Ok (PStr (text (resp_reply r)))) ->
  payload request !! "request_type" = Some (PStr "XRT API") ->
  XRTAPIRequest._build_payload request = Ok swiftreq ->
  http_post XRT_URL (JsonBody (xrt_JSONDict swiftreq)) = Some reply ->
  json_loads (text reply) = Some returnedData ->
  (UVOTXRTAPI.submit request kwargs w).1 = Ok tt ->
  let w' := (UVOTXRTAPI.submit request kwargs w).2 in
  (forall OK n JobID URL jobPars,
     py_getitem returnedData "OK" = Ok OK -> py_int OK = Ok n ->
     py_getitem returnedData "JobID" = Ok JobID ->
     py_getitem returnedData "URL" = Ok URL ->
     py_getitem returnedData "jobPars" = Ok jobPars ->
     UVOTXRTAPI.rebuild_job request (w_transactions w')
     = Ok {| xrt_user := xrt_user swiftreq; xrt_globals := xrt_globals swiftreq;
             xrt_products := xrt_products swiftreq;
             xrt_job := Some {| job_status := 1; job_submitted := n; job_jobID := JobID;
                                job_URL := URL; job_jobPars := jobPars |} |})
  /\ (forall OK n e,
        py_getitem returnedData "OK" = Ok OK -> py_int OK = Ok n ->
        py_getitem returnedData "JobID" = Raise e ->
        UVOTXRTAPI.get request kwargs' w' = (Raise e, w')).
Proof.
  intros Hser Htype Hbuild Hpost Hjson Hok w'.
  pose proof (submit_xrt_stores request kwargs w swiftreq reply Htype Hbuild Hpost Hok) as Htr.
  fold w' in Htr.
  assert (Hrebuild : UVOTXRTAPI.rebuild_job request (w_transactions w')
                     = (OK ← py_getitem returnedData "OK";
                        submitted ← py_int OK;
                        JobID ← py_getitem returnedData "JobID";
                        URL ← py_getitem returnedData "URL";
                        jobPars ← py_getitem returnedData "jobPars";
                        Ok {| xrt_user := xrt_user swiftreq;
                              xrt_globals := xrt_globals swiftreq;
                              xrt_products := xrt_products swiftreq;
                              xrt_job := Some {| job_status := 1; job_submitted := submitted;
                                                 job_jobID := JobID; job_URL := URL;
                                                 job_jobPars := jobPars |} |})).
  { rewrite Htr. unfold UVOTXRTAPI.rebuild_job. rewrite last_snoc_Some.
    unfold UVOTXRTAPI.transaction_of at 1. simpl.
    rewrite Hser. simpl. rewrite Hjson. simpl. rewrite Hbuild. reflexivity. }
  split.
  - intros OK n JobID URL jobPars HOK Hn HJ HU HP.
    rewrite Hrebuild, HOK. simpl. rewrite Hn. simpl. rewrite HJ. simpl. rewrite HU. simpl.
    now rewrite HP.
  - intros OK n e HOK Hn HJ.
    unfold UVOTXRTAPI.get.
    rewrite (xrt_build_needs_credentials request swiftreq Hbuild).
    rewrite (getitem_Some _ _ _ Htype).
    assert (Hjob : UVOTXRTAPI.rebuild_job request (w_transactions w') = Raise e).
    { rewrite Hrebuild, HOK. simpl. rewrite Hn. simpl. now rewrite HJ. }
    unfold UVOTXRTAPI.get_xrt, mbind, M_bind, lift. cbv beta iota.
    change (py_eq_str (PStr "XRT API") "XRT API") with true. cbv beta iota.
    rewrite Hjob. reflexivity.
Qed.

Lemma get_reads_what_submit_stored_witness :
  let E := mock (reply_200 refused_text) [] false in
  let request := request_with credentials xrt_payload in
  let w' := (UVOTXRTAPI.submit request ∅ empty_world).2 in
  UVOTXRTAPI.get request ∅ w' = (Raise (KeyError "JobID"), w').
Proof.
  intros E request w'.
  eapply (proj2 (@get_reads_what_submit_stored E request ∅ ∅ empty_world _
                   (reply_200 refused_text) refused_json
                   ltac:(intros r; reflexivity)
                   ltac:(vm_compute; reflexivity) ltac:(vm_compute; reflexivity)
                   ltac:(reflexivity) ltac:(vm_compute; reflexivity)
                   ltac:(vm_compute; reflexivity))
            (PInt 0) 0).
  - reflexivity.
  - reflexivity.
  - reflexivity.
Defined.

Example refused_job_status :
  let E := mock (reply_200 refused_text) [] false in
  w_status (UVOTXRTAPI.submit (request_with credentials xrt_payload) ∅ empty_world).2
  = "rejected: ('bad', [])".
Proof. vm_compute. reflexivity. Qed.

(** ** [submit]: what it touches and what it never does *)

Lemma submit_too_frame `{Env} (request : FollowupRequest) (w : World) :
  let w1 := (UVOTXRTAPI.submit_too request w).2 in
  (w_comments w1 = w_comments w /\ w_commits w1 = w_commits w
   /\ w_executor w1 = w_executor w /\ w_observations w1 = w_observations w
   /\ w_notified w1 = w_notified w /\ w_archive w1 = w_archive w)
  /\ (w_http w1 = w_http w
      \/ exists too, w_http w1 = w_http w ++ [ {| pr_url := API_URL;
                                                  pr_body := FormData [("jwt", too_jwt too)] |} ]).
Proof.
  unfold UVOTXRTAPI.submit_too, UVOTXRTAPI.requests_post, UVOTXRTAPI.push_notice. run.
  destruct (UVOTXRTRequest._build_payload request) as [too|e]; simpl; [|tauto].
  destruct (http_post API_URL (FormData [("jwt", too_jwt too)])) as [reply|]; simpl.
  - destruct (status_code reply =? 200); simpl; [|destruct (notice_error _); simpl];
      (split; [tauto | right; eauto]).
  - split; [tauto | right; eauto].
Qed.

Lemma submit_xrt_frame `{Env} (request : FollowupRequest) (w : World) :
  let w1 := (UVOTXRTAPI.submit_xrt request w).2 in
  (w_comments w1 = w_comments w /\ w_commits w1 = w_commits w
   /\ w_executor w1 = w_executor w /\ w_observations w1 = w_observations w
   /\ w_notified w1 = w_notified w /\ w_archive w1 = w_archive w)
  /\ (w_http w1 = w_http w
      \/ exists swiftreq,
           w_http w1 = w_http w ++ [ {| pr_url := XRT_URL;
                                        pr_body := JsonBody (xrt_JSONDict swiftreq) |} ]).
Proof.
  unfold UVOTXRTAPI.submit_xrt, UVOTXRTAPI.requests_post. run.
  destruct (XRTAPIRequest._build_payload request) as [swiftreq|e]; simpl; [|tauto].
  destruct (http_post XRT_URL (JsonBody (xrt_JSONDict swiftreq))) as [reply|]; simpl.
  - destruct (json_loads (text reply)) as [data|]; simpl.
    + destruct (UVOTXRTAPI.xrt_status reply data); simpl; (split; [tauto | right; eauto]).
    + split; [tauto | right; eauto].
  - split; [tauto | right; eauto].
Qed.

Lemma submit_data_frame `{Env} (request : FollowupRequest) (w : World) :
  let w1 := (UVOTXRTAPI.submit_data request w).2 in
  (w_comments w1 = w_comments w /\ w_commits w1 = w_commits w
   /\ w_executor w1 = w_executor w /\ w_observations w1 = w_observations w
   /\ w_notified w1 = w_notified w /\ w_http w1 = w_http w)
  /\ (w_archive w1 = w_archive w \/ exists q, w_archive w1 = w_archive w ++ [q]).
Proof.
  unfold UVOTXRTAPI.submit_data, UVOTXRTBATDataRequest._build_payload, ObsQuery_new, getitem.
  run.
  destruct (payload request !! "start_date"); simpl; [|tauto].
  destruct (payload request !! "end_date"); simpl; [|tauto].
  destruct (obs_query _); simpl; (split; [tauto | right; eauto]).
Qed.

(** The store after a whole [submit], from the store [w1] that the branch
    left. *)
Lemma submit_after_branch `{Env} (c : M unit) (request : FollowupRequest)
    (kwargs : gmap string pyval) (w : World) :
  let w1 := (c w).2 in
  let w' := ((c;; UVOTXRTAPI.push_refresh request kwargs;;
              UVOTXRTAPI.send_notification request) w).2 in
  w_comments w' = w_comments w1 /\ w_commits w' = w_commits w1
  /\ w_executor w' = w_executor w1 /\ w_observations w' = w_observations w1
  /\ w_http w' = w_http w1 /\ w_archive w' = w_archive w1.
Proof.
  pose proof (then_epilogue c request kwargs w) as Hseq. simpl in *.
  destruct (c w) as [[[]|e] w1]; simpl.
  - destruct Hseq as (_ & Hs & Ht & Hc & Hm & He & Hh & Ha & Ho). tauto.
  - rewrite Hseq. simpl. tauto.
Qed.

(** X6.  Whatever the request and the replies, a [submit] adds no comment,
    commits nothing, hands nothing to the thread pool and writes no
    observation; and it does one of three things on the network: nothing,
    one archive query and no HTTP exchange, or one HTTP POST, to the ToO
    endpoint or to the XRT endpoint, and no archive query. *)
Theorem submit_touches_little `{Env} (request : FollowupRequest)
    (kwargs : gmap string pyval) (w : World) :
  let w' := (UVOTXRTAPI.submit request kwargs w).2 in
  (w_comments w' = w_comments w /\ w_commits w' = w_commits w
   /\ w_executor w' = w_executor w /\ w_observations w' = w_observations w)
  /\ ((w_http w' = w_http w /\ w_archive w' = w_archive w)
      \/ (w_http w' = w_http w /\ exists q, w_archive w' = w_archive w ++ [q])
      \/ (w_archive w' = w_archive w
          /\ exists p, w_http w' = w_http w ++ [p]
                       /\ (pr_url p = API_URL \/ pr_url p = XRT_URL))).
Proof.
  intros w'. subst w'.
  destruct (dict_is_empty (altdata (allocation request))) eqn:Hcred.
  { unfold UVOTXRTAPI.submit. rewrite Hcred. simpl. tauto. }
  apply dict_is_empty_false in Hcred.
  destruct (payload request !! "request_type") as [v|] eqn:Htype.
  2:{ unfold UVOTXRTAPI.submit. apply dict_is_empty_false in Hcred. rewrite Hcred.
      rewrite (getitem_None _ _ Htype). simpl. tauto. }
  rewrite (submit_dispatch request kwargs w v Hcred Htype).
  destruct (py_eq_str v "XRT/UVOT ToO");
    [|destruct (py_eq_str v "XRT API"); [|destruct (py_eq_str v "XRT/UVOT/BAT Data")]].
  - destruct (submit_after_branch (UVOTXRTAPI.submit_too request) request kwargs w)
      as (-> & -> & -> & -> & -> & ->).
    destruct (submit_too_frame request w) as ((-> & -> & -> & -> & _ & ->) & Hhttp).
    split; [tauto|]. destruct Hhttp as [-> | (too & ->)]; [tauto|].
    right. right. split; [reflexivity|]. eexists. split; [reflexivity|]. now left.
  - destruct (submit_after_branch (UVOTXRTAPI.submit_xrt request) request kwargs w)
      as (-> & -> & -> & -> & -> & ->).
    destruct (submit_xrt_frame request w) as ((-> & -> & -> & -> & _ & ->) & Hhttp).
    split; [tauto|]. destruct Hhttp as [-> | (swiftreq & ->)]; [tauto|].
    right. right. split; [reflexivity|]. eexists. split; [reflexivity|]. now right.
  - destruct (submit_after_branch (UVOTXRTAPI.submit_data request) request kwargs w)
      as (-> & -> & -> & -> & -> & ->).
    destruct (submit_data_frame request w) as ((-> & -> & -> & -> & _ & ->) & Harch).
    split; [tauto|]. destruct Harch as [-> | (q & ->)]; [tauto|].
    right. left. eauto.
  - rewrite bind_run. simpl. tauto.
Qed.

(** ** [submit]: rejection notice and notifications *)

(** X7.  A ToO whose payload is built and whose POST is answered: [submit]
    returns, has sent the signed token as the form field [jwt] to the ToO
    endpoint and has added the transaction of that exchange.  On a reply
    with status code 200 the only messages pushed are the refresh signals.
    On any other status code the status is ["rejected: <body>"] and the
    failure is logged with the ids of the request and of the target; the
    error notice for the user who last modified the request is best effort:
    when the bus takes it, it is pushed before the refresh signals, and when
    the push raises, that exception is logged, the notice is not among the
    messages pushed, and the status, the transaction and the refresh signals
    are as they are otherwise. *)
Theorem submit_too_answered `{Env} (request : FollowupRequest)
    (kwargs : gmap string pyval) (w : World) swiftreq reply :
  payload request !! "request_type" = Some (PStr "XRT/UVOT ToO") ->
  UVOTXRTRequest._build_payload request = Ok swiftreq ->
  http_post API_URL (FormData [("jwt", too_jwt swiftreq)]) = Some reply ->
  let sent := {| pr_url := API_URL; pr_body := FormData [("jwt", too_jwt swiftreq)] |} in
  let w' := (UVOTXRTAPI.submit request kwargs w).2 in
  (UVOTXRTAPI.submit request kwargs w).1 = Ok tt
  /\ w_http w' = w_http w ++ [sent]
  /\ w_transactions w'
     = w_transactions w
       ++ [UVOTXRTAPI.transaction_of request {| resp_request := sent; resp_reply := reply |}]
  /\ (status_code reply = 200 ->
      w_status w' = "submitted" /\ w_flow w' = w_flow w ++ refresh_signals request kwargs)
  /\ (status_code reply ≠ 200 ->
      w_status w' = "rejected: " +:+ bytes_str (content reply)
      /\ In ("Failed to submit Swift request for " +:+ pretty (request_id request)
             +:+ " (obj " +:+ obj_id (obj request) +:+ "): " +:+ bytes_str (content reply))
            (w_log w')
      /\ match notice_error (rejection_notice request reply) with
         | None =>
             w_flow w'
             = w_flow w ++ rejection_notice request reply :: refresh_signals request kwargs
         | Some e =>
             w_flow w' = w_flow w ++ refresh_signals request kwargs
             /\ In ("Failed to send notification: " +:+ e) (w_log w')
         end).
Proof.
  intros Htype Hbuild Hpost sent w'. subst sent w'.
  rewrite (submit_dispatch request kwargs w _ (too_build_needs_credentials _ _ Hbuild) Htype).
  change (py_eq_str (PStr "XRT/UVOT ToO") "XRT/UVOT ToO") with true. cbv iota.
  rewrite then_epilogue_exact, (submit_too_run request w swiftreq reply Hbuild Hpost).
  cbv zeta.
  match goal with
  | |- context [after_notification request ?w0] =>
      destruct (after_notification_rows request w0)
        as ((Hs & Ht & _ & _ & _ & Hh & _) & Hf);
      assert (Hlog : forall line, In line (w_log w0) ->
                                  In line (w_log (after_notification request w0)))
  end.
  { intros line Hin. unfold after_notification.
    destruct (notification_kind request) as [k|]; [|exact Hin].
    destruct (notify_error k request); simpl; [|exact Hin].
    apply in_or_app. now left. }
  cbn [fst snd]. rewrite Hs, Ht, Hh, Hf. split; [reflexivity|].
  split; [destruct (status_code reply =? 200); [|destruct (notice_error _)]; reflexivity|].
  split; [destruct (status_code reply =? 200); [|destruct (notice_error _)]; reflexivity|].
  split.
  - intros Hcode. rewrite Hcode. simpl. auto.
  - intros Hcode. apply Z.eqb_neq in Hcode. rewrite Hcode in *.
    destruct (notice_error (rejection_notice request reply)) as [e|]; simpl.
    + split; [reflexivity|]. split; [|split; [reflexivity|]].
      * apply Hlog. simpl. apply in_or_app. left. apply in_or_app. right. now left.
      * apply Hlog. simpl. apply in_or_app. right. now left.
    + split; [reflexivity|]. split.
      * apply Hlog. simpl. apply in_or_app. right. now left.
      * now rewrite <- app_assoc.
Qed.

Lemma submit_too_answered_witness :
  let E := mock reply_500 [] true in
  let E' := with_notice_error E (fun _ => Some "connection refused") in
  let request := request_with credentials too_payload in
  let w1 := (@UVOTXRTAPI.submit E request ∅ empty_world).2 in
  let w2 := (@UVOTXRTAPI.submit E' request ∅ empty_world).2 in
  (w_status w1 = "rejected: b'" +:+ content reply_500 +:+ "'"
   /\ w_flow w1 = [@rejection_notice E request reply_500])
  /\ (@UVOTXRTAPI.submit E' request ∅ empty_world).1 = Ok tt
  /\ w_status w2 = w_status w1 /\ w_transactions w2 = w_transactions w1
  /\ w_flow w2 = [] /\ In "Failed to send notification: connection refused" (w_log w2).
Proof.
  intros E E' request w1 w2.
  assert (Hbuilt : raised (@UVOTXRTRequest._build_payload E request) = false).
  { vm_compute. reflexivity. }
  destruct (@UVOTXRTRequest._build_payload E request) as [too|] eqn:Hb; [|discriminate].
  pose proof (@submit_too_answered E request ∅ empty_world too reply_500
                ltac:(vm_compute; reflexivity) Hb ltac:(reflexivity)) as H1.
  pose proof (@submit_too_answered E' request ∅ empty_world too reply_500
                ltac:(vm_compute; reflexivity) Hb ltac:(reflexivity)) as H2.
  cbv zeta in H1, H2.
  destruct H1 as (_ & _ & Ht1 & _ & H1). destruct (H1 ltac:(discriminate)) as (Hs1 & _ & Hf1).
  destruct H2 as (Hok & _ & Ht2 & _ & H2). destruct (H2 ltac:(discriminate)) as (Hs2 & _ & Hf2).
  cbn in Hf1, Hf2. destruct Hf2 as (Hf2 & Hl2).
  subst w1 w2. split; [split; [exact Hs1 | exact Hf1]|].
  split; [exact Hok|]. split; [now rewrite Hs1, Hs2|]. split; [now rewrite Ht1, Ht2|].
  split; [exact Hf2 | exact Hl2].
Defined.

(** X8.  The outcome of a [submit] does not depend on the notification
    helpers: with helpers that behave in any other way (that raise where
    they did not, or the reverse) the result is the same, an exception
    included, and so are the status, the transactions, the HTTP exchanges,
    the archive queries and the messages pushed.  Only the notifications
    sent and the log can differ. *)
Theorem submit_ignores_notification_outcome (E : Env)
    (f : NotificationKind -> FollowupRequest -> option string)
    (request : FollowupRequest) (kwargs : gmap string pyval) (w : World) :
  let r := @UVOTXRTAPI.submit E request kwargs w in
  let r' := @UVOTXRTAPI.submit (with_notify_error E f) request kwargs w in
  r'.1 = r.1
  /\ w_status r'.2 = w_status r.2 /\ w_transactions r'.2 = w_transactions r.2
  /\ w_http r'.2 = w_http r.2 /\ w_archive r'.2 = w_archive r.2
  /\ w_flow r'.2 = w_flow r.2.
Proof.
  intros r r'. subst r r'.
  destruct (dict_is_empty (altdata (allocation request))) eqn:Hcred.
  { unfold UVOTXRTAPI.submit. rewrite Hcred. simpl. tauto. }
  destruct (payload request !! "request_type") as [v|] eqn:Htype.
  2:{ unfold UVOTXRTAPI.submit. rewrite Hcred, (getitem_None _ _ Htype). simpl. tauto. }
  apply dict_is_empty_false in Hcred.
  rewrite (@submit_dispatch E request kwargs w v Hcred Htype).
  rewrite (@submit_dispatch (with_notify_error E f) request kwargs w v Hcred Htype).
  rewrite !then_epilogue_exact.
  set (c := if py_eq_str v "XRT/UVOT ToO" then @UVOTXRTAPI.submit_too E request
            else if py_eq_str v "XRT API" then @UVOTXRTAPI.submit_xrt E request
            else if py_eq_str v "XRT/UVOT/BAT Data" then @UVOTXRTAPI.submit_data E request
            else raise invalid_type).
  change (if py_eq_str v "XRT/UVOT ToO"
          then @UVOTXRTAPI.submit_too (with_notify_error E f) request
          else if py_eq_str v "XRT API"
               then @UVOTXRTAPI.submit_xrt (with_notify_error E f) request
               else if py_eq_str v "XRT/UVOT/BAT Data"
                    then @UVOTXRTAPI.submit_data (with_notify_error E f) request
                    else raise invalid_type) with c.
  destruct (c w) as [[[]|e] w1]; [|simpl; tauto].
  cbn [fst snd]. split; [reflexivity|].
  destruct (@after_notification_rows E request (with_flows (refresh_signals request kwargs) w1))
    as ((-> & -> & _ & _ & _ & -> & -> & _) & ->).
  destruct (@after_notification_rows (with_notify_error E f) request
              (with_flows (refresh_signals request kwargs) w1))
    as ((-> & -> & _ & _ & _ & -> & -> & _) & ->).
  tauto.
Qed.

(** ** The ToO builder: what it accepts and what it builds *)

(** X9.  The ToO builder succeeds on exactly these requests: the allocation
    has [username] and [secret]; the payload has [source_type],
    [exposure_time], [exp_time_just], [immediate_objective] and
    [science_just], of any value; [monitoring_freq] is an [int];
    [exposure_counts] is something [int()] converts; [urgency] converts to
    one of 0..4; [obs_type] is one of the four names; [uvot_mode] is a label
    of the table, and [uvot_just] is there and not empty unless the label is
    the default one.  Nothing else is looked at: no bound is put on the
    exposure time, on the number of visits or on the monitoring frequency. *)
Theorem too_build_succeeds_iff `{Env} (request : FollowupRequest) :
  raised (UVOTXRTRequest._build_payload request) = false <-> too_accepted request.
Proof. split; [apply too_build_accepts | apply too_accepted_builds]. Qed.

(** X10.  The number of visits has no lower bound.  If a request is
    accepted by the ToO builder, so is the same request with any integer as
    [exposure_counts], zero and the negative ones included, and the payload
    built has that integer as its number of visits. *)
Theorem exposure_counts_unbounded `{Env} (request : FollowupRequest) (n : Z) :
  raised (UVOTXRTRequest._build_payload request) = false ->
  exists too,
    UVOTXRTRequest._build_payload
      (with_payload request (<["exposure_counts" := PInt n]> (payload request))) = Ok too
    /\ too !! "num_of_visits" = Some (PInt n).
Proof.
  intros Hok. apply too_build_accepts in Hok.
  set (request' := with_payload request (<["exposure_counts" := PInt n]> (payload request))).
  assert (Hacc : too_accepted request').
  { unfold too_accepted in *. cbv zeta in *. unfold request', with_payload, dict_get in *.
    cbn [payload allocation].
    destruct Hok as (Hu & Hs & Hst & Het & (mf & Hmf & Hint) & _ & Hetj & Hio
                     & (uv & m & Huv & Hm & Hr) & (ot & Hot & Hin)
                     & (key & label & Hmode & Hlabel & Hsj & Hjust)).
    assert (Hne : forall k, k ≠ "exposure_counts" ->
                  <["exposure_counts" := PInt n]> (payload request) !! k
                  = payload request !! k).
    { intros k Hk. apply lookup_insert_ne. congruence. }
    split; [exact Hu|]. split; [exact Hs|].
    split; [rewrite Hne by discriminate; exact Hst|].
    split; [rewrite Hne by discriminate; exact Het|].
    split; [exists mf; rewrite Hne by discriminate; auto|].
    split; [exists (PInt n), n; rewrite lookup_insert_eq; auto|].
    split; [rewrite Hne by discriminate; exact Hetj|].
    split; [rewrite Hne by discriminate; exact Hio|].
    split; [exists uv, m; rewrite Hne by discriminate; auto|].
    split; [exists ot; rewrite Hne by discriminate; auto|].
    exists key, label. rewrite !Hne by discriminate. auto. }
  apply too_accepted_builds in Hacc.
  destruct (UVOTXRTRequest._build_payload request') as [too|] eqn:Hb; [|discriminate].
  exists too. split; [reflexivity|].
  apply too_build_Ok in Hb. destruct Hb as (t1 & t2 & t3 & H1 & H2 & H3 & H4).
  apply set_request_fields_Ok in H1. cbv zeta in H1.
  destruct H1 as (_ & _ & _ & _ & _ & _ & _ & _ & (v & k & Hv & Hk & Hvisits) & _).
  unfold request', with_payload in Hv. cbn [payload] in Hv.
  rewrite lookup_insert_eq in Hv. injection Hv as <-. injection Hk as <-.
  apply set_urgency_Ok in H2. destruct H2 as (uv & m & _ & _ & _ & ->).
  apply set_obs_type_Ok in H3. destruct H3 as (ot & ->).
  rewrite (set_uvot_mode_Ok _ _ _ "num_of_visits" H4) by discriminate.
  rewrite !setattr_other by discriminate. exact Hvisits.
Qed.

Lemma exposure_counts_unbounded_witness :
  let E := mock (reply_200 "ok") [] true in
  exists too,
    UVOTXRTRequest._build_payload
      (with_payload (request_with credentials too_payload)
         (<["exposure_counts" := PInt (-2)]> too_payload)) = Ok too
    /\ too !! "num_of_visits" = Some (PInt (-2)).
Proof.
  intros E.
  apply (@exposure_counts_unbounded E (request_with credentials too_payload) (-2)).
  vm_compute. reflexivity.
Defined.

(** X11.  The attributes of a payload that is built.  The credentials come
    from the allocation, the name and the coordinates from the target; the
    source type, the exposure time, the two justifications, the immediate
    objective and the observation type are the payload's values as they
    are; the three optional values are the payload's or [None]; the UVOT
    mode is the key of the label chosen.  The UVOT justification is assigned
    only for a mode other than the default one: with the default label a
    [uvot_just] of the payload is left out. *)
Theorem too_payload_attributes `{Env} (request : FollowupRequest) (too : gmap string pyval) :
  UVOTXRTRequest._build_payload request = Ok too ->
  let a := altdata (allocation request) in
  let p := payload request in
  too !! "username" = a !! "username" /\ too !! "shared_secret" = a !! "secret"
  /\ too !! "source_name" = Some (PStr (obj_id (obj request)))
  /\ too !! "ra" = Some (obj_ra (obj request)) /\ too !! "dec" = Some (obj_dec (obj request))
  /\ too !! "source_type" = p !! "source_type"
  /\ too !! "exp_time_per_visit" = p !! "exposure_time"
  /\ too !! "opt_mag" = Some (dict_get p "opt_mag" PNone)
  /\ too !! "opt_filt" = Some (dict_get p "opt_filt" PNone)
  /\ too !! "xrt_countrate" = Some (dict_get p "xrt_countrate" PNone)
  /\ too !! "exp_time_just" = p !! "exp_time_just"
  /\ too !! "immediate_objective" = p !! "immediate_objective"
  /\ too !! "obs_type" = p !! "obs_type"
  /\ too !! "science_just" = p !! "science_just"
  /\ exists key label,
       In (key, label) modes /\ p !! "uvot_mode" = Some (PStr label)
       /\ too !! "uvot_mode" = Some (PStr key)
       /\ too !! "uvot_just" = if String.eqb key "0x9999" then None
                               else Some (dict_get p "uvot_just" PNone).
Proof.
  intros Hb a p. subst a p.
  apply too_build_Ok in Hb. destruct Hb as (t1 & t2 & t3 & H1 & H2 & H3 & H4).
  apply set_request_fields_Ok in H1. cbv zeta in H1.
  destruct H1 as ((_ & Hu) & (_ & Hs) & Hname & Hra & Hdec & (_ & Hst) & (_ & Het) & _ & _
                  & Hmag & Hfilt & Hrate & (_ & Hetj) & (_ & Hio) & Hno_just).
  apply set_urgency_Ok in H2. destruct H2 as (uv & n & _ & _ & _ & ->).
  apply set_obs_type_Ok_value in H3. destruct H3 as (ot & Hot & _ & ->).
  pose proof (fun k => set_uvot_mode_Ok request _ too k H4) as Hkeep.
  apply set_uvot_mode_Ok_value in H4 as Hmode.
  destruct Hmode as (key & label & sj & Hin & Hlabel & Hsj & _ & Hkey & Hsci & Hjust).
  assert (Hold : forall k, k ≠ "uvot_mode" -> k ≠ "science_just" -> k ≠ "uvot_just" ->
                 k ≠ "obs_type" -> k ≠ "urgency" -> too !! k = t1 !! k).
  { intros k K1 K2 K3 K4 K5. rewrite (Hkeep k K1 K2 K3).
    rewrite !setattr_other by congruence. reflexivity. }
  rewrite !Hold by discriminate.
  repeat match goal with |- _ /\ _ => split end; auto.
  - rewrite (Hkeep "obs_type") by discriminate. rewrite setattr_lookup. now rewrite Hot.
  - now rewrite Hsci, Hsj.
  - exists key, label. repeat split; auto. rewrite Hjust.
    destruct (String.eqb key "0x9999"); [|reflexivity].
    rewrite !setattr_other by discriminate. exact Hno_just.
Qed.

Lemma too_payload_attributes_witness :
  let E := mock (reply_200 "ok") [] true in
  let p := <["uvot_just" := PStr "not needed"]> too_payload in
  let request := request_with credentials p in
  exists too,
    UVOTXRTRequest._build_payload request = Ok too
    /\ too !! "opt_mag" = Some PNone
    /\ exists key label,
         In (key, label) modes /\ p !! "uvot_mode" = Some (PStr label)
         /\ too !! "uvot_mode" = Some (PStr key)
         /\ too !! "uvot_just" = if String.eqb key "0x9999" then None
                                 else Some (dict_get p "uvot_just" PNone).
Proof.
  intros E p request.
  assert (Hbuilt : raised (UVOTXRTRequest._build_payload request) = false).
  { vm_compute. reflexivity. }
  destruct (UVOTXRTRequest._build_payload request) as [too|] eqn:Hb; [|discriminate].
  exists too. split; [reflexivity|].
  pose proof (@too_payload_attributes E request too Hb) as Hattrs. cbv zeta in Hattrs.
  destruct Hattrs as (_ & _ & _ & _ & _ & _ & _ & Hmag & _ & _ & _ & _ & _ & _ & Hmode).
  split; [exact Hmag | exact Hmode].
Defined.

Example default_mode_leaves_uvot_just_out :
  let E := mock (reply_200 "ok") [] true in
  (UVOTXRTRequest._build_payload
     (request_with credentials (<["uvot_just" := PStr "not needed"]> too_payload)))
    ≫= (fun too => Ok (too !! "uvot_mode", too !! "uvot_just"))
  = Ok (Some (PStr "0x9999"), None).
Proof. vm_compute. reflexivity. Qed.

(** X12.  The observation type.  When the build reaches it, a payload
    without [obs_type] fails with a [KeyError], and an [obs_type] that is
    not one of "Spectroscopy", "Light Curve", "Position", "Timing" (a value
    that is not a string included) fails with the [ValueError] "obs_type not
    an allowed value.", before the UVOT mode is looked at. *)
Theorem obs_type_checked `{Env} (request : FollowupRequest) :
  raised (before_obs_type request) = false ->
  (payload request !! "obs_type" = None ->
     UVOTXRTRequest._build_payload request = Raise (KeyError "obs_type"))
  /\ (forall v,
        payload request !! "obs_type" = Some v ->
        py_in v ["Spectroscopy"; "Light Curve"; "Position"; "Timing"] = false ->
        UVOTXRTRequest._build_payload request
        = Raise (ValueError "obs_type not an allowed value.")).
Proof.
  unfold before_obs_type, UVOTXRTRequest._build_payload.
  destruct (UVOTXRTRequest.set_request_fields request ∅) as [t1|]; [|discriminate].
  cbn [mbind Result_bind].
  destruct (UVOTXRTRequest.set_urgency request t1) as [t2|]; [|discriminate].
  cbn [mbind Result_bind]. intros _. unfold UVOTXRTRequest.set_obs_type. split.
  - intros Hnone. now rewrite (getitem_None _ _ Hnone).
  - intros v Hv Hin. rewrite (getitem_Some _ _ _ Hv). cbn [mbind Result_bind].
    now rewrite Hin.
Qed.

Lemma obs_type_checked_witness :
  let E := mock (reply_200 "ok") [] true in
  let imaging := request_with credentials (<["obs_type" := PStr "Imaging"]> too_payload) in
  let none := request_with credentials (<["uvot_mode" := PStr "unknown"]>
                                        (delete "obs_type" too_payload)) in
  UVOTXRTRequest._build_payload imaging = Raise (ValueError "obs_type not an allowed value.")
  /\ UVOTXRTRequest._build_payload none = Raise (KeyError "obs_type").
Proof.
  intros E imaging none.
  assert (Hi : raised (before_obs_type imaging) = false) by (vm_compute; reflexivity).
  assert (Hn : raised (before_obs_type none) = false) by (vm_compute; reflexivity).
  split.
  - apply (proj2 (@obs_type_checked E imaging Hi) (PStr "Imaging")); vm_compute; reflexivity.
  - apply (proj1 (@obs_type_checked E none Hn)). vm_compute. reflexivity.
Defined.

(** ** The XRT builder *)

(** X13.  The XRT job does not depend on the [binMeth] that the form offers:
    whatever the payload holds under that key, the builder gives the same
    result.  Every request it builds has the same five products (a light
    curve binned by counts, with 20 PC and 30 WT counts and dynamic binning;
    a spectrum without redshift; the standard, the enhanced and the
    astrometric position), asks for the targets, does not use SXPS,
    centroids exactly when [detornot] is true in the payload, and has no job
    attached yet. *)
Theorem xrt_job_ignores_binMeth `{Env} (request : FollowupRequest) :
  (forall v,
     XRTAPIRequest._build_payload
       (with_payload request (<["binMeth" := v]> (payload request)))
     = XRTAPIRequest._build_payload request)
  /\ (forall r,
        XRTAPIRequest._build_payload request = Ok r ->
        xrt_products r
        = [ ("LightCurve", [ ("binMeth", PStr "counts"); ("pcCounts", PInt 20);
                             ("wtCounts", PInt 30); ("dynamic", PBool true) ]);
            ("Spectrum", [ ("hasRedshift", PBool false) ]);
            ("StandardPos", []);
            ("EnhancedPos", []);
            ("AstromPos", [ ("useAllObs", PBool true) ]) ]
        /\ assoc (xrt_globals r) "getTargs" = Some (PBool true)
        /\ assoc (xrt_globals r) "useSXPS" = Some (PBool false)
        /\ assoc (xrt_globals r) "centroid"
           = Some (PBool (py_truthy (dict_get (payload request) "detornot" (PBool false))))
        /\ assoc (xrt_globals r) "name" = Some (PStr (obj_id (obj request)))
        /\ xrt_job r = None).
Proof.
  split.
  - intros v. unfold XRTAPIRequest._build_payload, with_payload, getitem, dict_get.
    cbn [payload allocation obj]. rewrite !lookup_insert_ne by discriminate. reflexivity.
  - intros r. unfold XRTAPIRequest._build_payload. intros Hb.
    apply bind_Ok in Hb. destruct Hb as (T0 & _ & Hb).
    apply bind_Ok in Hb. destruct Hb as (Tdiff & _ & Hb).
    apply bind_Ok in Hb. destruct Hb as (user & _ & Hb).
    apply bind_Ok in Hb. destruct Hb as (centMeth & _ & Hb).
    apply bind_Ok in Hb. destruct Hb as (detMeth & _ & Hb).
    apply bind_Ok in Hb. destruct Hb as (poserr & _ & Hb).
    destruct (xrt_accepts _); [|discriminate]. injection Hb as <-.
    repeat split.
Qed.

Lemma xrt_job_ignores_binMeth_witness :
  let E := mock (reply_200 accepted_text) [] true in
  let request := request_with credentials (<["detornot" := PBool true]> xrt_payload) in
  exists r,
    XRTAPIRequest._build_payload request = Ok r
    /\ assoc (xrt_globals r) "centroid" = Some (PBool true) /\ xrt_job r = None.
Proof.
  intros E request.
  assert (Hbuilt : raised (XRTAPIRequest._build_payload request) = false).
  { vm_compute. reflexivity. }
  destruct (XRTAPIRequest._build_payload request) as [r|] eqn:Hb; [|discriminate].
  exists r. split; [reflexivity|].
  destruct (proj2 (@xrt_job_ignores_binMeth E request) r Hb) as (_ & _ & _ & Hc & _ & Hj).
  split; [exact Hc | exact Hj].
Defined.

Example xrt_job_built :
  let E := mock (reply_200 accepted_text) [] true in
  raised (XRTAPIRequest._build_payload
            (request_with credentials (<["binMeth" := PStr "obsid"]> xrt_payload))) = false.
Proof. vm_compute. reflexivity. Qed.

(** ** The backfill, row by row *)

Lemma collect_exact `{Env} (rows : list ObsRow) (observations table : list Observation) :
  collect_observations rows observations = Ok table ->
  map (fun o => (obstime o, RA o, Dec o, exposure_time o, target_name o)) table
  = map (fun o => (obstime o, RA o, Dec o, exposure_time o, target_name o)) observations
    ++ map (fun row => (row_begin row, row_ra_object row, row_dec_object row,
                        row_exposure_seconds row, row_targname row))
           (List.filter retained rows).
Proof.
  revert observations.
  induction rows as [|r rows IH]; intros observations; simpl.
  - intros [= <-]. now rewrite app_nil_r.
  - unfold retained at 1.
    destruct (UVOT_mode (row_uvot r)) as [entries|]; [|apply IH].
    destruct (is_None (row_ra_object r) || is_None (row_dec_object r)); simpl negb;
      cbv iota; [apply IH|].
    destruct (entries !! 0%nat) as [entry|]; [|discriminate].
    destruct (py_int (row_obsid r)) as [obsid|]; simpl; [|discriminate].
    intros Hc. rewrite (IH _ Hc), map_app, <- app_assoc. reflexivity.
Qed.

(** X14.  One observation per retained row, in the order of the archive.
    When [fetch_observations] returns, the table it has handed to
    [add_observations] has exactly one row for each archive row whose mode
    has entries and whose two coordinates are there, in the same order, with
    that row's start time, coordinates, exposure in seconds and target
    name. *)
Theorem backfill_one_per_retained `{Env} (instrument : Z) (request_start request_end : datetime)
    (w w' : World) :
  fetch_observations instrument request_start request_end w = (Ok tt, w') ->
  exists rows table,
    obs_query (window_query request_start request_end) = Some rows
    /\ w_observations w' = w_observations w ++ [(instrument, table)]
    /\ map (fun o => (obstime o, RA o, Dec o, exposure_time o, target_name o)) table
       = map (fun row => (row_begin row, row_ra_object row, row_dec_object row,
                          row_exposure_seconds row, row_targname row))
             (List.filter retained rows)
    /\ length table = length (List.filter retained rows).
Proof.
  unfold fetch_observations, ObsQuery_new. run.
  destruct (obs_query (window_query request_start request_end)) as [rows|]; [|discriminate].
  simpl. destruct (collect_observations rows []) as [table|] eqn:Hc; [|discriminate].
  intros [= <-]. exists rows, table. split; [reflexivity|]. split; [reflexivity|].
  pose proof (collect_exact rows [] table Hc) as Hexact. simpl in Hexact.
  split; [exact Hexact|].
  apply (f_equal (@length _)) in Hexact. now rewrite !length_map in Hexact.
Qed.

Lemma backfill_one_per_retained_witness :
  let E := mock reply_500 [archive_row "0x30ed" PNone "00012345001";
                           archive_row "0x2019" (PFloat (FFin 315 (-1))) "00012345002";
                           archive_row "0x30ed" (PFloat (FFin 315 (-1))) "00012345003"] true in
  exists rows table,
    obs_query (window_query 10 20) = Some rows
    /\ w_observations (fetch_observations 5 10 20 empty_world).2
       = w_observations empty_world ++ [(5, table)]
    /\ map (fun o => (obstime o, RA o, Dec o, exposure_time o, target_name o)) table
       = map (fun row => (row_begin row, row_ra_object row, row_dec_object row,
                          row_exposure_seconds row, row_targname row))
             (List.filter retained rows)
    /\ length table = length (List.filter retained rows).
Proof.
  intros E. apply (@backfill_one_per_retained E 5 10 20 empty_world).
  vm_compute. reflexivity.
Defined.

Example backfill_filters_in_order :
  let E := mock reply_500 [archive_row "0x30ed" PNone "00012345001";
                           archive_row "0x2019" (PFloat (FFin 315 (-1))) "00012345002";
                           archive_row "0x30ed" (PFloat (FFin 315 (-1))) "00012345003"] true in
  map (fun o => (observation_id o, filter o))
      (concat (map snd (w_observations (fetch_observations 5 10 20 empty_world).2)))
  = [(12345002, "uvot::white"); (12345003, "uvot::u")].
Proof. vm_compute. reflexivity. Qed.




(** ** Attachment names *)

Lemma string_app_cons (c : ascii) (s t : string) : String c s +:+ t = String c (s +:+ t).
Proof. reflexivity. Qed.

Lemma last_segment_app (s t acc : string) :
  last_segment (s +:+ t) acc = last_segment t (last_segment s acc).
Proof.
  revert acc. induction s as [|c s IH]; intros acc; [reflexivity|].
  rewrite string_app_cons. simpl. destruct (Ascii.eqb c "/"); apply IH.
Qed.

Lemma last_segment_ends_with_slash (s acc : string) :
  ends_with_slash s = true -> last_segment s acc = EmptyString.
Proof.
  revert acc. induction s as [|c s IH]; intros acc; simpl; [discriminate|].
  destruct s as [|d s'].
  - intros ->. reflexivity.
  - intros Hs. destruct (Ascii.eqb c "/"); now apply IH.
Qed.

Lemma string_app_nil_r (s : string) : s +:+ EmptyString = s.
Proof.
  induction s as [|c s IH]; [reflexivity|]. rewrite string_app_cons. now rewrite IH.
Qed.

Lemma string_app_snoc (acc s : string) (c : ascii) :
  (acc +:+ String c EmptyString) +:+ s = acc +:+ String c s.
Proof.
  induction acc as [|a acc IH]; [reflexivity|]. rewrite !string_app_cons. now rewrite IH.
Qed.

Lemma last_segment_no_slash (s acc : string) :
  has_slash s = false -> last_segment s acc = acc +:+ s.
Proof.
  revert acc. induction s as [|c s IH]; intros acc; simpl.
  - intros _. now rewrite string_app_nil_r.
  - intros Hs. apply orb_false_iff in Hs. destruct Hs as (-> & Hs).
    rewrite (IH _ Hs). apply string_app_snoc.
Qed.

Lemma has_slash_app (s t : string) : has_slash (s +:+ t) = has_slash s || has_slash t.
Proof.
  induction s as [|c s IH]; [reflexivity|]. rewrite string_app_cons. simpl.
  now rewrite IH, orb_assoc.
Qed.

Lemma last_segment_slash_free (s acc : string) :
  has_slash acc = false -> has_slash (last_segment s acc) = false.
Proof.
  revert acc. induction s as [|c s IH]; intros acc Hacc; simpl; [exact Hacc|].
  destruct (Ascii.eqb c "/") eqn:Hc.
  - now apply IH.
  - apply IH. rewrite has_slash_app, Hacc. simpl. now rewrite Hc.
Qed.

(** X16.  Attachment names.  The last segment of a path never contains a
    slash, and the last segment of [os.path.join(a, b)] is the last segment
    of [b], whatever the directory [a] is.  So the name of the attachment of
    a data bundle does not show the temporary directory: it is the last
    segment of ["<obsid>.tar.gz"], and that very string when the
    observation id has no slash. *)
Theorem attachment_names `{DataEnv} :
  (forall filename, has_slash (basename filename) = false)
  /\ (forall a b, basename (path_join a b) = basename b)
  /\ (forall req groups obsid,
        c_attachment_name (bundle_comment req groups obsid)
        = basename (obsid_str obsid +:+ ".tar.gz")
        /\ (has_slash (obsid_str obsid) = false ->
            c_attachment_name (bundle_comment req groups obsid)
            = obsid_str obsid +:+ ".tar.gz")).
Proof.
  assert (Hjoin : forall a b, basename (path_join a b) = basename b).
  { intros a b. unfold path_join, basename.
    destruct b as [|c b]; [|destruct (Ascii.eqb c "/") eqn:Hc].
    - destruct a as [|d a]; [reflexivity|].
      destruct (ends_with_slash (String d a)) eqn:He.
      + rewrite last_segment_app, (last_segment_ends_with_slash _ _ He). reflexivity.
      + rewrite !last_segment_app. reflexivity.
    - apply Ascii.eqb_eq in Hc. subst c. reflexivity.
    - assert (Hgo : match a with
                    | EmptyString => String c b
                    | String _ _ =>
                        if ends_with_slash a then a +:+ String c b
                        else a +:+ "/" +:+ String c b
                    end
                    = match c with
                      | "/"%char => String c b
                      | _ => match a with
                             | EmptyString => String c b
                             | String _ _ =>
                                 if ends_with_slash a then a +:+ String c b
                                 else a +:+ "/" +:+ String c b
                             end
                      end).
      { destruct c as [[] [] [] [] [] [] [] []]; try reflexivity. discriminate. }
      rewrite <- Hgo. clear Hgo.
      destruct a as [|d a]; [reflexivity|].
      destruct (ends_with_slash (String d a)) eqn:He.
      + rewrite last_segment_app. now rewrite (last_segment_ends_with_slash _ _ He).
      + rewrite !last_segment_app. reflexivity. }
  split; [|split; [exact Hjoin|]].
  - intros filename. now apply last_segment_slash_free.
  - intros req groups obsid. unfold bundle_comment. cbn [c_attachment_name].
    rewrite Hjoin. split; [reflexivity|]. intros Hfree. unfold basename.
    rewrite last_segment_no_slash; [reflexivity|].
    rewrite has_slash_app, Hfree. reflexivity.
Qed.

Lemma attachment_names_witness :
  c_attachment_name (@bundle_comment mock_data (request_with credentials data_payload) [1; 2]
                       (PStr "00012345001"))
  = @obsid_str mock_data (PStr "00012345001") +:+ ".tar.gz".
Proof.
  apply (proj2 (proj2 (proj2 (@attachment_names mock_data)) _ _ _)). reflexivity.
Defined.

(** ** [download_observations] *)

Lemma download_files_all `{DataEnv} (outdir : string) (entries : list DataFile) :
  (forall dfile, In dfile entries -> dfile_download outdir dfile = true) ->
  download_files outdir entries = Ok tt.
Proof.
  induction entries as [|d entries IH]; intros Hall; simpl; [reflexivity|].
  rewrite (Hall d) by now left. simpl. apply IH. intros f Hf. apply Hall. now right.
Qed.

Lemma download_files_some `{DataEnv} (outdir : string) (entries : list DataFile) dfile :
  In dfile entries -> dfile_download outdir dfile = false ->
  raised (download_files outdir entries) = true.
Proof.
  induction entries as [|d entries IH]; intros Hin Hfail; simpl; [destruct Hin|].
  destruct (dfile_download outdir d) eqn:Hd; simpl; [|reflexivity].
  destruct Hin as [-> | Hin]; [congruence | now apply IH].
Qed.

Lemma download_bundles_all `{DataEnv} (req : FollowupRequest) (groups : list Z)
    (obsids : list pyval) (added : list Comment) :
  (forall obsid dfile, In obsid obsids -> In dfile (data_files req obsid) ->
                       dfile_download tmpdirname dfile = true) ->
  download_bundles req groups obsids added
  = Ok (added ++ map (bundle_comment req groups) (List.filter (has_data req) obsids)).
Proof.
  revert added. induction obsids as [|obsid obsids IH]; intros added Hall; simpl.
  - now rewrite app_nil_r.
  - assert (Hrest : forall o dfile, In o obsids -> In dfile (data_files req o) ->
                                    dfile_download tmpdirname dfile = true).
    { intros o f Ho Hf. apply (Hall o f); [now right | exact Hf]. }
    pose proof (Hall obsid) as Hhere. unfold data_files, has_data in *.
    destruct (data_submit obsid _ _ _) as [entries|]; [|now apply IH].
    rewrite download_files_all by (intros f Hf; apply Hhere; [now left | exact Hf]).
    simpl. rewrite (IH _ Hrest), <- app_assoc. reflexivity.
Qed.

Lemma download_bundles_some `{DataEnv} (req : FollowupRequest) (groups : list Z)
    (obsids : list pyval) (added : list Comment) obsid dfile :
  In obsid obsids -> In dfile (data_files req obsid) ->
  dfile_download tmpdirname dfile = false ->
  raised (download_bundles req groups obsids added) = true.
Proof.
  revert added. induction obsids as [|o obsids IH]; intros added Hin Hfile Hfail; simpl;
    [destruct Hin|].
  destruct Hin as [-> | Hin].
  - unfold data_files in Hfile. destruct (data_submit obsid _ _ _) as [entries|];
      [|destruct Hfile].
    pose proof (download_files_some tmpdirname entries dfile Hfile Hfail) as Hr.
    destruct (download_files tmpdirname entries); [discriminate | reflexivity].
  - destruct (data_submit o _ _ _) as [entries|]; [|now apply IH].
    destruct (download_files tmpdirname entries); simpl; [now apply IH | reflexivity].
Qed.

(** X17.  The download of the data bundles is all or nothing, and it never
    raises.  When every file of every observation that has data downloads,
    the task adds one comment per such observation, in the order in which
    the observations are visited, each from the bot, on the target and in
    the name of the requester; it sets the status to ["Result posted as
    comment"] and commits once; this is also what it does when no
    observation has data, with no comment at all.  When one file fails, no
    comment is added, the status and the commits are as before, and the only
    trace is one line in the log.  In both cases the task returns. *)
Theorem download_all_or_nothing `{Env} `{DataEnv} (req : FollowupRequest) (oq : ObsQuery)
    (w : World) :
  let run := download_observations req oq w in
  let groups := select_groups (requester req) (accessible_groups (requester req)) in
  run.1 = Ok tt
  /\ ((forall obsid dfile, In obsid (obsids_of oq) -> In dfile (data_files req obsid) ->
                           dfile_download tmpdirname dfile = true) ->
      w_comments run.2
      = w_comments w ++ map (bundle_comment req groups)
                            (List.filter (has_data req) (obsids_of oq))
      /\ w_status run.2 = "Result posted as comment"
      /\ w_commits run.2 = S (w_commits w)
      /\ w_log run.2 = w_log w)
  /\ (forall obsid dfile,
        In obsid (obsids_of oq) -> In dfile (data_files req obsid) ->
        dfile_download tmpdirname dfile = false ->
        exists line, run.2 = with_log line w)
  /\ (forall obsid, c_bot (bundle_comment req groups obsid) = true
                    /\ c_obj_id (bundle_comment req groups obsid) = obj_id (obj req)
                    /\ c_author (bundle_comment req groups obsid) = requester req
                    /\ c_text (bundle_comment req groups obsid)
                       = "Swift Data: " +:+ obsid_str obsid).
Proof.
  intros run groups. subst run. unfold download_observations. fold groups.
  change (set_list (map row_obsid (oq_entries oq))) with (obsids_of oq).
  split; [destruct (download_bundles req groups (obsids_of oq) []); reflexivity|].
  split; [|split].
  - intros Hall. rewrite (download_bundles_all req groups (obsids_of oq) [] Hall).
    simpl. auto.
  - intros obsid dfile Hin Hfile Hfail.
    pose proof (download_bundles_some req groups (obsids_of oq) [] obsid dfile
                  Hin Hfile Hfail) as Hr.
    destruct (download_bundles req groups (obsids_of oq) []); [discriminate|].
    simpl. eauto.
  - intros obsid. repeat split.
Qed.

Lemma download_all_or_nothing_witness :
  let E := mock reply_500 [] true in
  let D := mock_data in
  let req := request_with credentials data_payload in
  let row := fun obsid => archive_row "0x30ed" PNone obsid in
  let fine := {| oq_args := window_query 10 20;
                 oq_entries := [row "00012345001"; row "missing"; row "00012345001";
                                row "00012345002"] |} in
  let broken := {| oq_args := window_query 10 20;
                   oq_entries := [row "00012345001"; row "00012345009"] |} in
  (map c_attachment_name (w_comments (download_observations req fine empty_world).2)
   = ["00012345001.tar.gz"; "00012345002.tar.gz"]
   /\ w_status (download_observations req fine empty_world).2 = "Result posted as comment")
  /\ exists line, (download_observations req broken empty_world).2 = with_log line empty_world.
Proof.
  intros E D req row fine broken. split.
  - destruct (proj1 (proj2 (@download_all_or_nothing E D req fine empty_world)))
      as (Hc & Hs & _).
    + intros obsid dfile Hin Hfile.
      vm_compute in Hin. destruct Hin as [<- | [<- | [<- | []]]];
        vm_compute in Hfile; repeat (destruct Hfile as [<- | Hfile]);
        try contradiction; reflexivity.
    + split; [|exact Hs]. rewrite Hc. vm_compute. reflexivity.
  - apply (proj1 (proj2 (proj2 (@download_all_or_nothing E D req broken empty_world)))
             (PStr "00012345009")
             {| df_path := "00012345009/xrt"; df_filename := "broken.fits" |}).
    + vm_compute. tauto.
    + vm_compute. tauto.
    + reflexivity.
Defined.

(** ** The XRT builder and the replies of the XRT endpoint *)

(** X18.  The XRT builder succeeds on exactly these requests: the payload
    has a [T0] that is an ISO timestamp and has [centMeth], [detMeth] and
    [poserr]; the allocation has [XRT_UserID]; and the library accepts the
    user and the parameters.  A payload without [T0] fails with a
    [KeyError] and a [T0] that is no ISO timestamp with a [ValueError], in
    both cases before the user id is looked at. *)
Theorem xrt_build_succeeds_iff `{Env} (request : FollowupRequest) :
  (raised (XRTAPIRequest._build_payload request) = false <->
   exists T0 Tdiff user centMeth detMeth poserr,
     payload request !! "T0" = Some T0 /\ seconds_since_MET T0 = Some Tdiff
     /\ altdata (allocation request) !! "XRT_UserID" = Some user
     /\ payload request !! "centMeth" = Some centMeth
     /\ payload request !! "detMeth" = Some detMeth
     /\ payload request !! "poserr" = Some poserr
     /\ xrt_accepts
          [ ("UserID", user); ("getTargs", PBool true);
            ("centroid", PBool (py_truthy (dict_get (payload request) "detornot"
                                             (PBool false))));
            ("name", PStr (obj_id (obj request)));
            ("RA", obj_ra (obj request)); ("Dec", obj_dec (obj request));
            ("centMeth", centMeth); ("detMeth", detMeth); ("useSXPS", PBool false);
            ("T0", PFloat Tdiff); ("posErr", poserr) ] = true)
  /\ (payload request !! "T0" = None ->
      XRTAPIRequest._build_payload request = Raise (KeyError "T0"))
  /\ (forall T0, payload request !! "T0" = Some T0 -> seconds_since_MET T0 = None ->
                 XRTAPIRequest._build_payload request = Raise (PyError CValueError "Time")
                 /\ is_ValueError (PyError CValueError "Time") = true).
Proof.
  unfold XRTAPIRequest._build_payload. split; [split|split].
  - intros Hok.
    destruct (getitem (payload request) "T0" ≫= _) as [r|] eqn:Hb; [|discriminate].
    apply bind_Ok in Hb. destruct Hb as (T0 & HT0 & Hb). apply getitem_Ok in HT0.
    apply bind_Ok in Hb. destruct Hb as (Tdiff & HTd & Hb).
    destruct (seconds_since_MET T0) as [s|] eqn:Hs; [|discriminate]. injection HTd as ->.
    apply bind_Ok in Hb. destruct Hb as (user & Hu & Hb). apply getitem_Ok in Hu.
    apply bind_Ok in Hb. destruct Hb as (cm & Hcm & Hb). apply getitem_Ok in Hcm.
    apply bind_Ok in Hb. destruct Hb as (dm & Hdm & Hb). apply getitem_Ok in Hdm.
    apply bind_Ok in Hb. destruct Hb as (pe & Hpe & Hb). apply getitem_Ok in Hpe.
    destruct (xrt_accepts _) eqn:Hacc; [|discriminate].
    exists T0, Tdiff, user, cm, dm, pe. auto 10.
  - intros (T0 & Tdiff & user & cm & dm & pe & HT0 & Hs & Hu & Hcm & Hdm & Hpe & Hacc).
    rewrite (getitem_Some _ _ _ HT0), (getitem_Some _ _ _ Hu), (getitem_Some _ _ _ Hcm),
      (getitem_Some _ _ _ Hdm), (getitem_Some _ _ _ Hpe).
    cbn [mbind Result_bind]. rewrite Hs. cbn [mbind Result_bind]. rewrite Hacc. reflexivity.
  - intros Hnone. now rewrite (getitem_None _ _ Hnone).
  - intros T0 HT0 Hs. split; [|reflexivity]. rewrite (getitem_Some _ _ _ HT0).
    cbn [mbind Result_bind]. now rewrite Hs.
Qed.

Lemma xrt_build_succeeds_iff_witness :
  let E := mock (reply_200 accepted_text) [] true in
  XRTAPIRequest._build_payload
    (request_with ∅ (<["T0" := PInt 2024]> xrt_payload))
  = Raise (PyError CValueError "Time")
  /\ is_ValueError (PyError CValueError "Time") = true.
Proof.
  intros E.
  apply (proj2 (proj2 (@xrt_build_succeeds_iff E _)) (PInt 2024)).
  - vm_compute. reflexivity.
  - reflexivity.
Defined.

(** X19.  A reply of the XRT endpoint with status code 200 whose body is
    JSON but not what the code expects makes [submit] raise after the
    exchange, with the status not assigned and no transaction added: a body
    that is no object or has no [OK] raises at the lookup of [OK]; a body
    with [OK] equal to 0 and no [ERROR], or with [ERROR] and no [listErr],
    raises at that lookup. *)
Theorem submit_xrt_malformed_body `{Env} (request : FollowupRequest)
    (kwargs : gmap string pyval) (w : World) swiftreq reply returnedData (e : exn) :
  payload request !! "request_type" = Some (PStr "XRT API") ->
  XRTAPIRequest._build_payload request = Ok swiftreq ->
  http_post XRT_URL (JsonBody (xrt_JSONDict swiftreq)) = Some reply ->
  status_code reply = 200 ->
  json_loads (text reply) = Some returnedData ->
  (py_getitem returnedData "OK" = Raise e
   \/ (exists OK, py_getitem returnedData "OK" = Ok OK /\ py_eq_zero OK = true
                  /\ (py_getitem returnedData "ERROR" = Raise e
                      \/ (exists ERROR, py_getitem returnedData "ERROR" = Ok ERROR)
                         /\ py_getitem returnedData "listErr" = Raise e))) ->
  let sent := {| pr_url := XRT_URL; pr_body := JsonBody (xrt_JSONDict swiftreq) |} in
  (exists c op, e = PyError c op)
  /\ UVOTXRTAPI.submit request kwargs w = (Raise e, with_http sent w)
  /\ w_status (with_http sent w) = w_status w
  /\ w_transactions (with_http sent w) = w_transactions w.
Proof.
  intros Htype Hbuild Hpost Hcode Hjson Hbad sent.
  assert (Hstatus : UVOTXRTAPI.xrt_status reply returnedData = Raise e).
  { unfold UVOTXRTAPI.xrt_status. rewrite Hcode. simpl negb. cbv iota.
    destruct Hbad as [HOK | (OK & HOK & Hzero & Hrest)]; rewrite HOK; [reflexivity|].
    cbn [mbind Result_bind]. rewrite Hzero.
    destruct Hrest as [HERR | ((ERROR & HERR) & Hlist)]; rewrite HERR; [reflexivity|].
    cbn [mbind Result_bind]. now rewrite Hlist. }
  split; [exact (xrt_status_raises reply returnedData e Hstatus)|].
  split; [|split; reflexivity].
  rewrite (submit_xrt_whole request kwargs w swiftreq Htype Hbuild).
  rewrite then_epilogue_exact.
  rewrite (submit_xrt_run request w swiftreq reply Hbuild Hpost), Hjson, Hstatus.
  reflexivity.
Qed.

Lemma submit_xrt_malformed_body_witness :
  let E := mock_body (PList [PInt 1]) in
  let request := request_with credentials xrt_payload in
  exists sent,
    UVOTXRTAPI.submit request ∅ empty_world
    = (Raise (PyError CTypeError "getitem"), with_http sent empty_world)
    /\ w_status (with_http sent empty_world) = w_status empty_world
    /\ w_transactions (with_http sent empty_world) = w_transactions empty_world.
Proof.
  intros E request. eexists.
  apply (proj2 (@submit_xrt_malformed_body E request ∅ empty_world _
                  (reply_200 "[1]") (PList [PInt 1]) (PyError CTypeError "getitem")
                  ltac:(vm_compute; reflexivity) ltac:(vm_compute; reflexivity)
                  ltac:(reflexivity) ltac:(reflexivity) ltac:(reflexivity)
                  ltac:(left; reflexivity))).
Defined.
